(** * SkillentHub: a shallow embedding of the route handlers and their SQL

    The application is a Flask program whose handlers talk to MySQL through one
    helper, [execute_query] (database/db.py).  This development embeds

    - the tables the handlers touch, as lists of records (table order is the
      order in which rows were inserted);
    - every SQL statement the embedded handlers send, as a function on the
      database;
    - [execute_query] with its failure behaviour (connection refused, driver
      error, an exception that is not a driver error);
    - the handlers of chat/, connections/, events/, opportunities/, feed/
      and notifications/, the badge counts of dashboard/, and the deletions
      of admin/,

    and proves the properties the specification states about them, and
    further properties of the same handlers. *)

From Stdlib Require Import ZArith List String Ascii Bool Lia.
From Stdlib Require Import DecimalString Sorted.
Import ListNotations.
Open Scope string_scope.
Open Scope Z_scope.

Set Implicit Arguments.

(* ================================================================== *)
(** ** Rows and tables *)

(** Columns that no embedded statement reads or writes are left out of the
    records (for instance [users.email], [events.event_date]). *)

Record user := mkUser {
  u_id : Z;
  u_full_name : string;
  u_profile_pic : option string
}.

Record connection := mkConnection {
  c_id : Z;
  c_sender_id : Z;
  c_receiver_id : Z;
  c_status : string;
  c_created_at : Z
}.

Record message := mkMessage {
  m_id : Z;
  m_sender_id : Z;
  m_receiver_id : Z;
  m_message : string;
  m_created_at : Z
}.

Record notification := mkNotification {
  n_id : Z;
  n_user_id : Z;
  n_message : string;
  n_type : string;
  n_is_read : bool;
  n_created_at : Z
}.

Record like := mkLike {
  l_user_id : Z;
  l_post_id : Z;
  l_created_at : Z
}.

Record post := mkPost {
  p_id : Z;
  p_user_id : Z
}.

Record event := mkEvent {
  e_id : Z;
  e_title : string;
  e_max_participants : option Z      (* NULL when the admin left the field empty *)
}.

Record registration := mkRegistration {
  r_user_id : Z;
  r_event_id : Z;
  r_registered_at : Z
}.

Record opportunity := mkOpportunity {
  o_id : Z;
  o_title : string
}.

Record application := mkApplication {
  a_id : Z;
  a_user_id : Z;
  a_opportunity_id : Z;
  a_resume_file : string;
  a_status : string;
  a_applied_at : Z
}.

(** The database: the tables, and the AUTO_INCREMENT counter of each table
    whose [id] the handlers read back. *)
Record database := mkDb {
  users : list user;
  connections : list connection;
  connections_seq : Z;
  messages : list message;
  messages_seq : Z;
  notifications : list notification;
  notifications_seq : Z;
  likes : list like;
  posts : list post;
  events : list event;
  event_registrations : list registration;
  opportunities : list opportunity;
  applications : list application;
  applications_seq : Z
}.

Definition with_connections (l : list connection) (s : Z) (d : database) : database :=
  mkDb (users d) l s (messages d) (messages_seq d)
       (notifications d) (notifications_seq d) (likes d) (posts d) (events d)
       (event_registrations d) (opportunities d) (applications d) (applications_seq d).

Definition with_messages (l : list message) (s : Z) (d : database) : database :=
  mkDb (users d) (connections d) (connections_seq d) l s
       (notifications d) (notifications_seq d) (likes d) (posts d) (events d)
       (event_registrations d) (opportunities d) (applications d) (applications_seq d).

Definition with_notifications (l : list notification) (s : Z) (d : database) : database :=
  mkDb (users d) (connections d) (connections_seq d) (messages d) (messages_seq d)
       l s (likes d) (posts d) (events d)
       (event_registrations d) (opportunities d) (applications d) (applications_seq d).


Definition with_event_registrations (l : list registration) (d : database) : database :=
  mkDb (users d) (connections d) (connections_seq d) (messages d) (messages_seq d)
       (notifications d) (notifications_seq d) (likes d) (posts d) (events d)
       l (opportunities d) (applications d) (applications_seq d).

Definition with_applications (l : list application) (s : Z) (d : database) : database :=
  mkDb (users d) (connections d) (connections_seq d) (messages d) (messages_seq d)
       (notifications d) (notifications_seq d) (likes d) (posts d) (events d)
       (event_registrations d) (opportunities d) l s.


Inductive table :=
  | Users | Connections | Messages | Notifications | Likes | Posts
  | Events | EventRegistrations | Opportunities | Applications.

Inductive verb := Select | Insert | Update | Delete.


(* ================================================================== *)
(** ** The world a request runs in *)

(** What the MySQL driver does with one call of [execute_query]. *)
Inductive fault :=
  | Up             (* the call goes through *)
  | ConnectError   (* mysql.connector.connect raises Error *)
  | ExecuteError   (* cursor.execute (or the fetch) raises Error *)
  | CommitError    (* connection.commit raises Error *)
  | Crash.         (* an exception that is not a mysql.connector.Error *)

Record world := mkWorld {
  db : database;                       (* the committed database *)
  faults : list fault;                 (* what the driver will do, call by call *)
  flashes : list (string * string);    (* flash(message, category), oldest first *)
  issued : list (table * verb);        (* statements handed to execute_query *)
  resumes : list string;               (* files under UPLOAD_FOLDER/resumes *)
  clock : Z                            (* NOW() and int(time.time()) *)
}.

Definition next_fault (w : world) : fault := hd Up (faults w).

Definition set_db (d : database) (w : world) : world :=
  mkWorld d (faults w) (flashes w) (issued w) (resumes w) (clock w).

Definition set_resumes (l : list string) (w : world) : world :=
  mkWorld (db w) (faults w) (flashes w) (issued w) l (clock w).

Definition set_clock (t : Z) (w : world) : world :=
  mkWorld (db w) (faults w) (flashes w) (issued w) (resumes w) t.


(** A fresh world over a database: the driver never fails. *)
Definition boot (d : database) : world := mkWorld d [] [] [] [] 0.

(** Python values that are either a result or a raised exception. *)
Inductive result (A : Type) :=
  | Ret (a : A)
  | Raise.
Arguments Ret {A} a.
Arguments Raise {A}.

Definition M (A : Type) : Type := world -> result A * world.

Definition ret {A} (a : A) : M A := fun w => (Ret a, w).

Definition bind {A B} (m : M A) (k : A -> M B) : M B :=
  fun w =>
    match m w with
    | (Ret a, w') => k a w'
    | (Raise, w') => (Raise, w')
    end.

Declare Scope handler_scope.
Delimit Scope handler_scope with handler.
Notation "x <- m ;; k" := (bind m (fun x => k))
  (at level 61, m at next level, right associativity) : handler_scope.
Notation "m ;;; k" := (bind m (fun _ => k))
  (at level 61, right associativity) : handler_scope.
Open Scope handler_scope.

(** [try: m except Exception: pass] *)
Definition try_pass (m : M unit) : M unit :=
  fun w =>
    match m w with
    | (Raise, w') => (Ret tt, w')
    | r => r
    end.

Definition flash (msg category : string) : M unit :=
  fun w => (Ret tt, mkWorld (db w) (faults w) (flashes w ++ [(msg, category)])
                            (issued w) (resumes w) (clock w)).

(** The double-quote character, for the f-strings that quote a title. *)
Definition dq : string := String (ascii_of_nat 34) EmptyString.

(** [str(n)] for the integers that end up in file names. *)
Definition str_of_Z (n : Z) : string := NilZero.string_of_int (Z.to_int n).

(* ================================================================== *)
(** ** database/db.py *)

(** A statement: the table it names, what kind it is, and what
    [cursor.execute] does with it at server time [now]: the result set, the
    database as this connection sees it afterwards (not yet committed), and
    [cursor.lastrowid]. *)
Record sql (R : Type) := mkSql {
  sql_table : table;
  sql_verb : verb;
  sql_run : Z -> database -> list R * database * Z
}.

Definition select_rows {R} (t : table) (rows : database -> list R) : sql R :=
  mkSql t Select (fun _ d => (rows d, d, 0)).

Definition write_rows (t : table) (v : verb) (f : Z -> database -> database * Z) : sql unit :=
  mkSql t v (fun now d => ([], fst (f now d), snd (f now d))).

(** What [execute_query] returns: [None], a row, a list of rows, or
    [lastrowid]. *)
Inductive qresult (R : Type) :=
  | QNone
  | QRow (r : R)
  | QRows (rs : list R)
  | QInt (n : Z).
Arguments QNone {R}.
Arguments QRow {R} r.
Arguments QRows {R} rs.
Arguments QInt {R} n.

(** A MySQL connection: the committed database, and the database as the
    open transaction sees it. *)
Record mysql_connection := mkConn {
  committed : database;
  working : database
}.

Definition connect (d : database) : mysql_connection := mkConn d d.
Definition commit_txn (c : mysql_connection) : mysql_connection := mkConn (working c) (working c).
Definition rollback (c : mysql_connection) : mysql_connection := mkConn (committed c) (committed c).
(** Closing a connection drops whatever was not committed. *)
Definition close (c : mysql_connection) : database := committed c.

Definition fetchone {R} (rows : list R) : qresult R :=
  match rows with
  | [] => QNone
  | r :: _ => QRow r
  end.

(** [get_db_connection]: the connection, or [None] when connecting raises
    [Error]. *)
Definition get_db_connection (f : fault) (d : database) : result (option mysql_connection) :=
  match f with
  | ConnectError => Ret None
  | Crash => Raise
  | _ => Ret (Some (connect d))
  end.

Definition advance {R} (q : sql R) (w : world) : world :=
  mkWorld (db w) (tl (faults w)) (flashes w)
          (issued w ++ [(sql_table q, sql_verb q)]) (resumes w) (clock w).

Definition execute_query {R} (q : sql R) (fetch_one fetch_all commit : bool)
  : M (qresult R) :=
  fun w =>
    let f := next_fault w in
    let w1 := advance q w in
    match get_db_connection f (db w) with
    | Raise => (Raise, w1)
    | Ret None => (Ret QNone, w1)
    | Ret (Some conn) =>
        match f with
        | ExecuteError =>
            (* except Error: rollback when commit was asked for; result = None *)
            let conn := if commit then rollback conn else conn in
            (Ret QNone, set_db (close conn) w1)
        | _ =>
            let '(rows, d', lastrowid) := sql_run q (clock w) (working conn) in
            let conn := mkConn (committed conn) d' in
            if fetch_one then (Ret (fetchone rows), set_db (close conn) w1)
            else if fetch_all then (Ret (QRows rows), set_db (close conn) w1)
            else if commit then
              match f with
              | CommitError =>
                  let conn := if commit then rollback conn else conn in
                  (Ret QNone, set_db (close conn) w1)
              | _ =>
                  let conn := commit_txn conn in
                  (Ret (QInt lastrowid), set_db (close conn) w1)
              end
            else (Ret QNone, set_db (close conn) w1)
        end
    end.

(** Python truthiness of what [execute_query] returned ([if row:]), and
    [row is not None]. *)
Definition truthy {R} (r : qresult R) : bool :=
  match r with
  | QNone => false
  | QRow _ => true
  | QRows rs => negb (List.length rs =? 0)%nat
  | QInt n => negb (n =? 0)
  end.

Definition is_not_none {R} (r : qresult R) : bool :=
  match r with
  | QNone => false
  | _ => true
  end.

(** [row['count'] if row else 0] for the COUNT queries. *)
Definition count_or_zero (r : qresult Z) : Z :=
  match r with
  | QRow n => n
  | _ => 0
  end.

(** [rows or []] *)
Definition rows_or_nil {R} (r : qresult R) : list R :=
  match r with
  | QRows rs => rs
  | _ => []
  end.

(* ------------------------------------------------------------------ *)
(** *** SQL building blocks *)

(** [COUNT( * )] always yields one row. *)
Definition count_where {A} (p : A -> bool) (l : list A) : list Z :=
  [Z.of_nat (List.length (filter p l))].

(** ORDER BY, as a stable insertion sort: ties keep table order. *)
Fixpoint insert_by {A} (le : A -> A -> bool) (x : A) (l : list A) : list A :=
  match l with
  | [] => [x]
  | y :: t => if le x y then x :: l else y :: insert_by le x t
  end.

Definition order_by {A} (le : A -> A -> bool) (l : list A) : list A :=
  fold_right (insert_by le) [] l.

(** [(sender_id = a AND receiver_id = b) OR (sender_id = b AND receiver_id = a)] *)
Definition between (a b sender receiver : Z) : bool :=
  ((sender =? a) && (receiver =? b)) || ((sender =? b) && (receiver =? a)).

(* ================================================================== *)
(** ** Flask: session, responses, login_required *)

Record session := mkSession {
  s_user_id : option Z;          (* session['user_id'], set at login *)
  s_user_name : option string    (* session['user_name'] *)
}.

(** [session['user_id']]: a KeyError when the key is absent. *)
Definition session_user_id (s : session) : M Z :=
  fun w =>
    match s_user_id s with
    | Some u => (Ret u, w)
    | None => (Raise, w)
    end.

(** [session.get('user_name', 'Someone')] *)
Definition session_user_name (s : session) : string :=
  match s_user_name s with
  | Some n => n
  | None => "Someone"
  end.

(** Rows of the chat pages. *)
Record connected_user := mkConnectedUser {
  cu_user_id : Z;
  cu_full_name : string;
  cu_profile_pic : option string
}.

Record message_preview := mkPreview {
  mp_message : string;
  mp_created_at : Z;
  mp_sender_id : Z
}.

Record conversation_entry := mkEntry {
  ce_user_id : Z;
  ce_full_name : string;
  ce_profile_pic : option string;
  ce_last_message : option message_preview;
  ce_unread_count : Z
}.

Record message_view := mkView {
  mv_id : Z;
  mv_sender_id : Z;
  mv_receiver_id : Z;
  mv_message : string;
  mv_created_at : Z;
  mv_sender_name : string;
  mv_sender_pic : option string
}.

(** The badge counts of the dashboard. *)
Record badges := mkBadges {
  b_unread_notifs : Z;
  b_pending_requests : Z;
  b_unread_messages : Z;
  b_total_connections : Z;
  b_total_posts : Z
}.

Inductive page :=
  | ChatListPage (conversations : list conversation_entry)
  | ConversationPage (partner : user) (msgs : list message_view) (current_user_id : Z).

Inductive response :=
  | RedirectTo (endpoint : string) (arg : option Z)   (* redirect(url_for(endpoint, ...)) *)
  | RedirectUrl (url : string)                        (* redirect(request.referrer) *)
  | Render (p : page).                                (* render_template(...) *)

Definition login_required (s : session) (f : M response) : M response :=
  match s_user_id s with
  | None =>
      flash "Please login to access this page." "warning" ;;;
      ret (RedirectTo "auth.login" None)
  | Some _ => f
  end.

(** [redirect(referrer) if referrer else redirect(url_for(fallback))] *)
Definition redirect_back (referrer : option string) (fallback : string) : response :=
  match referrer with
  | Some (String c rest) => RedirectUrl (String c rest)
  | _ => RedirectTo fallback None
  end.

(** [str.strip()], on ASCII text. *)
Definition isspace (c : ascii) : bool :=
  let n := nat_of_ascii c in
  (((9 <=? n) && (n <=? 13)) || ((28 <=? n) && (n <=? 32)))%nat.

Fixpoint lstrip (s : string) : string :=
  match s with
  | EmptyString => EmptyString
  | String c t => if isspace c then lstrip t else s
  end.

Fixpoint rstrip (s : string) : string :=
  match s with
  | EmptyString => EmptyString
  | String c t =>
      match rstrip t with
      | EmptyString => if isspace c then EmptyString else String c EmptyString
      | t' => String c t'
      end
  end.

Definition strip (s : string) : string := rstrip (lstrip s).

Definition is_empty (s : string) : bool :=
  match s with
  | EmptyString => true
  | _ => false
  end.

(* ================================================================== *)
(** ** notifications/utils.py *)

Module Notifications.

(** INSERT INTO notifications (user_id, message, type, is_read, created_at)
    VALUES (%s, %s, %s, FALSE, NOW()) *)
Definition insert_notification (user_id : Z) (message notification_type : string) : sql unit :=
  write_rows Notifications Insert (fun now d =>
    let id := notifications_seq d in
    (with_notifications
       (notifications d ++ [mkNotification id user_id message notification_type false now])
       (id + 1) d,
     id)).

Definition create_notification (user_id : Z) (message notification_type : string)
  : M (qresult unit) :=
  execute_query (insert_notification user_id message notification_type) false false true.

End Notifications.

(* ================================================================== *)
(** ** chat/routes.py *)

Module Chat.

(** SELECT id FROM connections WHERE status = 'accepted'
      AND ((sender_id = %s AND receiver_id = %s) OR (sender_id = %s AND receiver_id = %s))
    with parameters (user_id, partner_id, partner_id, user_id) *)
Definition select_accepted_connection (user_id partner_id : Z) : sql Z :=
  select_rows Connections (fun d =>
    map c_id
      (filter (fun c => (c_status c =? "accepted")%string
                        && between user_id partner_id (c_sender_id c) (c_receiver_id c))
              (connections d))).

Definition is_connected (user_id partner_id : Z) : M bool :=
  connection <- execute_query (select_accepted_connection user_id partner_id) true false false ;;
  ret (is_not_none connection).

(** The join of [get_connected_users]: connections c, users u1 on the sender,
    users u2 on the receiver, accepted and involving [user_id]; the CASE picks
    the other side; ORDER BY full_name ASC. *)
Definition select_connected_users (user_id : Z) : sql connected_user :=
  select_rows Connections (fun d =>
    order_by (fun x y => (cu_full_name x <=? cu_full_name y)%string)
      (flat_map (fun c =>
         flat_map (fun u1 =>
           flat_map (fun u2 =>
             if (c_sender_id c =? u_id u1) && (c_receiver_id c =? u_id u2)
                && (c_status c =? "accepted")%string
                && ((c_sender_id c =? user_id) || (c_receiver_id c =? user_id))
             then
               [ if c_sender_id c =? user_id
                 then mkConnectedUser (c_receiver_id c) (u_full_name u2) (u_profile_pic u2)
                 else mkConnectedUser (c_sender_id c) (u_full_name u1) (u_profile_pic u1) ]
             else [])
           (users d))
         (users d))
       (connections d))).

Definition get_connected_users (user_id : Z) : M (qresult connected_user) :=
  execute_query (select_connected_users user_id) false true false.

(** SELECT message, created_at, sender_id FROM messages
    WHERE (sender_id = %s AND receiver_id = %s) OR (sender_id = %s AND receiver_id = %s)
    ORDER BY created_at DESC LIMIT 1 *)
Definition select_last_message (user_id partner_id : Z) : sql message_preview :=
  select_rows Messages (fun d =>
    firstn 1
      (map (fun m => mkPreview (m_message m) (m_created_at m) (m_sender_id m))
         (order_by (fun x y => m_created_at y <=? m_created_at x)
            (filter (fun m => between user_id partner_id (m_sender_id m) (m_receiver_id m))
                    (messages d))))).

(** SELECT COUNT( * ) as count FROM messages WHERE sender_id = %s AND receiver_id = %s *)
Definition count_messages_from (sender_id receiver_id : Z) : sql Z :=
  select_rows Messages (fun d =>
    count_where (fun m => (m_sender_id m =? sender_id) && (m_receiver_id m =? receiver_id))
                (messages d)).

(** SELECT id, full_name, profile_pic FROM users WHERE id = %s *)
Definition select_user (id : Z) : sql user :=
  select_rows Users (fun d => filter (fun u => u_id u =? id) (users d)).

(** The message history: messages m joined with users u on the sender,
    between the two users, ORDER BY m.created_at ASC. *)
Definition select_conversation (user_id partner_id : Z) : sql message_view :=
  select_rows Messages (fun d =>
    order_by (fun x y => mv_created_at x <=? mv_created_at y)
      (flat_map (fun m =>
         flat_map (fun u =>
           if (m_sender_id m =? u_id u)
              && between user_id partner_id (m_sender_id m) (m_receiver_id m)
           then [mkView (m_id m) (m_sender_id m) (m_receiver_id m) (m_message m)
                        (m_created_at m) (u_full_name u) (u_profile_pic u)]
           else [])
         (users d))
       (messages d))).

(** INSERT INTO messages (sender_id, receiver_id, message, created_at)
    VALUES (%s, %s, %s, NOW()) *)
Definition insert_message (sender_id receiver_id : Z) (text : string) : sql unit :=
  write_rows Messages Insert (fun now d =>
    let id := messages_seq d in
    (with_messages (messages d ++ [mkMessage id sender_id receiver_id text now]) (id + 1) d,
     id)).

(** The body of the [for user in connected_users] loop of [chat_list]. *)
Fixpoint chat_list_loop (user_id : Z) (connected_users : list connected_user)
  : M (list conversation_entry) :=
  match connected_users with
  | [] => ret []
  | user :: rest =>
      let partner_id := cu_user_id user in
      last_message <- execute_query (select_last_message user_id partner_id) true false false ;;
      unread_count <- execute_query (count_messages_from partner_id user_id) true false false ;;
      let entry :=
        mkEntry partner_id (cu_full_name user) (cu_profile_pic user)
                (match last_message with QRow m => Some m | _ => None end)
                (count_or_zero unread_count) in
      tail <- chat_list_loop user_id rest ;;
      ret (entry :: tail)
  end.

Definition has_last_message (e : conversation_entry) : bool :=
  match ce_last_message e with
  | Some _ => true
  | None => false
  end.

Definition sort_key (e : conversation_entry) : Z :=
  match ce_last_message e with
  | Some m => mp_created_at m
  | None => 0
  end.

(** [conversations.sort(key=..., reverse=True)]: the key is the datetime of the
    last message, or the string [''] without one; Python raises TypeError
    when it has to compare a string with a datetime. *)
Definition sort_conversations (l : list conversation_entry) : M (list conversation_entry) :=
  fun w =>
    if existsb has_last_message l && existsb (fun e => negb (has_last_message e)) l
    then (Raise, w)
    else (Ret (order_by (fun x y => sort_key y <=? sort_key x) l), w).

Definition chat_list (s : session) : M response :=
  user_id <- session_user_id s ;;
  connected_users <- get_connected_users user_id ;;
  conversations <- chat_list_loop user_id (rows_or_nil connected_users) ;;
  conversations <- sort_conversations conversations ;;
  ret (Render (ChatListPage conversations)).

Definition conversation (s : session) (partner_id : Z) : M response :=
  user_id <- session_user_id s ;;
  if partner_id =? user_id then
    flash "You cannot chat with yourself." "warning" ;;;
    ret (RedirectTo "chat.chat_list" None)
  else
    connected <- is_connected user_id partner_id ;;
    if negb connected then
      flash "You can only chat with your connections." "warning" ;;;
      ret (RedirectTo "chat.chat_list" None)
    else
      partner <- execute_query (select_user partner_id) true false false ;;
      match partner with
      | QRow p =>
          msgs <- execute_query (select_conversation user_id partner_id) false true false ;;
          ret (Render (ConversationPage p (rows_or_nil msgs) user_id))
      | _ =>
          flash "User not found." "danger" ;;;
          ret (RedirectTo "chat.chat_list" None)
      end.

Definition send_message (s : session) (form_message : option string) (partner_id : Z)
  : M response :=
  user_id <- session_user_id s ;;
  if partner_id =? user_id then
    flash "You cannot message yourself." "warning" ;;;
    ret (RedirectTo "chat.chat_list" None)
  else
    connected <- is_connected user_id partner_id ;;
    if negb connected then
      flash "You can only message your connections." "warning" ;;;
      ret (RedirectTo "chat.chat_list" None)
    else
      let message :=
        strip (match form_message with Some m => m | None => EmptyString end) in
      if is_empty message then
        flash "Message cannot be empty." "warning" ;;;
        ret (RedirectTo "chat.conversation" (Some partner_id))
      else
        result <- execute_query (insert_message user_id partner_id message) false false true ;;
        (if is_not_none result then
           try_pass
             (let sender_name := session_user_name s in
              _ <- Notifications.create_notification
                     partner_id ("New message from " ++ sender_name) "message" ;;
              ret tt)
         else
           flash "Failed to send message. Please try again." "danger") ;;;
        ret (RedirectTo "chat.conversation" (Some partner_id)).

End Chat.

(* ================================================================== *)
(** ** connections/routes.py *)

Module Connections.

(** SELECT id, status FROM connections
    WHERE (sender_id = %s AND receiver_id = %s) OR (sender_id = %s AND receiver_id = %s) *)
Definition select_between (a b : Z) : sql connection :=
  select_rows Connections (fun d =>
    filter (fun c => between a b (c_sender_id c) (c_receiver_id c)) (connections d)).

(** INSERT INTO connections (sender_id, receiver_id, status, created_at)
    VALUES (%s, %s, 'pending', NOW()) *)
Definition insert_request (sender_id receiver_id : Z) : sql unit :=
  write_rows Connections Insert (fun now d =>
    let id := connections_seq d in
    (with_connections
       (connections d ++ [mkConnection id sender_id receiver_id "pending" now])
       (id + 1) d,
     id)).

(** SELECT * FROM connections WHERE id = %s *)
Definition select_by_id (connection_id : Z) : sql connection :=
  select_rows Connections (fun d =>
    filter (fun c => c_id c =? connection_id) (connections d)).

(** SELECT * FROM connections WHERE id = %s AND status = 'pending' *)
Definition select_pending_by_id (connection_id : Z) : sql connection :=
  select_rows Connections (fun d =>
    filter (fun c => (c_id c =? connection_id) && (c_status c =? "pending")%string)
           (connections d)).

Definition accept_row (connection_id : Z) (c : connection) : connection :=
  if c_id c =? connection_id
  then mkConnection (c_id c) (c_sender_id c) (c_receiver_id c) "accepted" (c_created_at c)
  else c.

(** UPDATE connections SET status = 'accepted' WHERE id = %s *)
Definition update_accepted (connection_id : Z) : sql unit :=
  write_rows Connections Update (fun _ d =>
    (with_connections (map (accept_row connection_id) (connections d)) (connections_seq d) d,
     0)).

(** DELETE FROM connections WHERE id = %s *)
Definition delete_by_id (connection_id : Z) : sql unit :=
  write_rows Connections Delete (fun _ d =>
    (with_connections
       (filter (fun c => negb (c_id c =? connection_id)) (connections d))
       (connections_seq d) d,
     0)).

Definition send_request (s : session) (user_id : Z) : M response :=
  sender_id <- session_user_id s ;;
  if sender_id =? user_id then
    flash "You cannot connect with yourself." "warning" ;;;
    ret (RedirectTo "profile.view_profile" (Some user_id))
  else
    existing <- execute_query (select_between sender_id user_id) true false false ;;
    match existing with
    | QRow row =>
        (if (c_status row =? "pending")%string then
           flash "A connection request is already pending." "info"
         else if (c_status row =? "accepted")%string then
           flash "You are already connected with this user." "info"
         else ret tt) ;;;
        ret (RedirectTo "profile.view_profile" (Some user_id))
    | _ =>
        result <- execute_query (insert_request sender_id user_id) false false true ;;
        (if is_not_none result then
           flash "Connection request sent successfully!" "success" ;;;
           try_pass
             (let sender_name := session_user_name s in
              _ <- Notifications.create_notification
                     user_id
                     ("You have a new connection request from " ++ sender_name)
                     "connection" ;;
              ret tt)
         else
           flash "Failed to send connection request. Please try again." "danger") ;;;
        ret (RedirectTo "profile.view_profile" (Some user_id))
    end.

Definition respond_request (s : session) (connection_id : Z) (action : string) : M response :=
  user_id <- session_user_id s ;;
  if negb ((action =? "accept")%string || (action =? "reject")%string) then
    flash "Invalid action." "danger" ;;;
    ret (RedirectTo "connections.incoming_requests" None)
  else
    connection <- execute_query (select_by_id connection_id) true false false ;;
    match connection with
    | QRow row =>
        if negb (c_receiver_id row =? user_id) then
          flash "You are not authorized to respond to this request." "danger" ;;;
          ret (RedirectTo "connections.incoming_requests" None)
        else if negb (c_status row =? "pending")%string then
          flash "This request has already been processed." "info" ;;;
          ret (RedirectTo "connections.incoming_requests" None)
        else
          (if (action =? "accept")%string then
             _ <- execute_query (update_accepted connection_id) false false true ;;
             flash "Connection request accepted!" "success" ;;;
             try_pass
               (let sender_id := c_sender_id row in
                let receiver_name := session_user_name s in
                _ <- Notifications.create_notification
                       sender_id
                       (receiver_name ++ " accepted your connection request")
                       "connection" ;;
                ret tt)
           else
             _ <- execute_query (delete_by_id connection_id) false false true ;;
             flash "Connection request declined." "info") ;;;
          ret (RedirectTo "connections.incoming_requests" None)
    | _ =>
        flash "Connection request not found." "danger" ;;;
        ret (RedirectTo "connections.incoming_requests" None)
    end.

Definition remove_connection (s : session) (connection_id : Z) : M response :=
  user_id <- session_user_id s ;;
  connection <- execute_query (select_by_id connection_id) true false false ;;
  match connection with
  | QRow row =>
      if negb (c_sender_id row =? user_id) && negb (c_receiver_id row =? user_id) then
        flash "You are not authorized to remove this connection." "danger" ;;;
        ret (RedirectTo "connections.my_connections" None)
      else
        _ <- execute_query (delete_by_id connection_id) false false true ;;
        flash "Connection removed." "info" ;;;
        ret (RedirectTo "connections.my_connections" None)
  | _ =>
      flash "Connection not found." "danger" ;;;
      ret (RedirectTo "connections.my_connections" None)
  end.

Definition cancel_request (s : session) (referrer : option string) (connection_id : Z)
  : M response :=
  user_id <- session_user_id s ;;
  connection <- execute_query (select_pending_by_id connection_id) true false false ;;
  match connection with
  | QRow row =>
      if negb (c_sender_id row =? user_id) then
        flash "You are not authorized to cancel this request." "danger" ;;;
        ret (RedirectTo "connections.incoming_requests" None)
      else
        _ <- execute_query (delete_by_id connection_id) false false true ;;
        flash "Connection request cancelled." "info" ;;;
        ret (redirect_back referrer "connections.incoming_requests")
  | _ =>
      flash "Pending request not found." "danger" ;;;
      ret (RedirectTo "connections.incoming_requests" None)
  end.

End Connections.

(* ================================================================== *)
(** ** events/routes.py *)

Module Events.

(** SELECT id, title, max_participants FROM events WHERE id = %s *)
Definition select_event (id : Z) : sql event :=
  select_rows Events (fun d => filter (fun e => e_id e =? id) (events d)).

(** SELECT 1 FROM event_registrations WHERE user_id = %s AND event_id = %s *)
Definition select_registration (user_id id : Z) : sql Z :=
  select_rows EventRegistrations (fun d =>
    map (fun _ => 1)
      (filter (fun r => (r_user_id r =? user_id) && (r_event_id r =? id))
              (event_registrations d))).

(** SELECT COUNT( * ) as count FROM event_registrations WHERE event_id = %s *)
Definition count_registrations (id : Z) : sql Z :=
  select_rows EventRegistrations (fun d =>
    count_where (fun r => r_event_id r =? id) (event_registrations d)).

(** INSERT INTO event_registrations (user_id, event_id, registered_at)
    VALUES (%s, %s, NOW()); no id of this table is read anywhere, lastrowid
    is taken as 0. *)
Definition insert_registration (user_id id : Z) : sql unit :=
  write_rows EventRegistrations Insert (fun now d =>
    (with_event_registrations
       (event_registrations d ++ [mkRegistration user_id id now]) d,
     0)).

(** DELETE FROM event_registrations WHERE user_id = %s AND event_id = %s *)
Definition delete_registration (user_id id : Z) : sql unit :=
  write_rows EventRegistrations Delete (fun _ d =>
    (with_event_registrations
       (filter (fun r => negb ((r_user_id r =? user_id) && (r_event_id r =? id)))
               (event_registrations d)) d,
     0)).

(** [if event.get('max_participants'):] None and 0 are both false. *)
Definition has_limit (e : event) : bool :=
  match e_max_participants e with
  | Some n => negb (n =? 0)
  | None => false
  end.

(** The capacity check of [register]: true when the handler answers "full". *)
Definition event_is_full (ev : event) (id : Z) : M bool :=
  if has_limit ev then
    reg_count <- execute_query (count_registrations id) true false false ;;
    ret (match reg_count, e_max_participants ev with
         | QRow n, Some cap => n >=? cap
         | _, _ => false
         end)
  else ret false.

Definition register (s : session) (id : Z) : M response :=
  user_id <- session_user_id s ;;
  event <- execute_query (select_event id) true false false ;;
  match event with
  | QRow ev =>
      existing <- execute_query (select_registration user_id id) true false false ;;
      if truthy existing then
        flash "You are already registered for this event." "info" ;;;
        ret (RedirectTo "events.view_event" (Some id))
      else
        full <- event_is_full ev id ;;
        if full then
          flash "This event is already full." "warning" ;;;
          ret (RedirectTo "events.view_event" (Some id))
        else
          result <- execute_query (insert_registration user_id id) false false true ;;
          (if is_not_none result then
             flash ("Successfully registered for " ++ dq ++ e_title ev ++ dq ++ "!") "success" ;;;
             try_pass
               (_ <- Notifications.create_notification
                       user_id
                       ("You have registered for " ++ dq ++ e_title ev ++ dq ++ ".")
                       "event" ;;
                ret tt)
           else
             flash "Failed to register. Please try again." "danger") ;;;
          ret (RedirectTo "events.view_event" (Some id))
  | _ =>
      flash "Event not found." "danger" ;;;
      ret (RedirectTo "events.list_events" None)
  end.

Definition unregister (s : session) (id : Z) : M response :=
  user_id <- session_user_id s ;;
  existing <- execute_query (select_registration user_id id) true false false ;;
  if negb (truthy existing) then
    flash "You are not registered for this event." "warning" ;;;
    ret (RedirectTo "events.view_event" (Some id))
  else
    _ <- execute_query (delete_registration user_id id) false false true ;;
    flash "You have unregistered from this event." "info" ;;;
    ret (RedirectTo "events.view_event" (Some id)).

End Events.

(* ================================================================== *)
(** ** opportunities/routes.py *)

Module Opportunities.

(** What [ApplicationForm()] holds once the request is bound to it: whether
    [validate_on_submit()] passes, and the error messages otherwise. *)
Record application_form := mkForm {
  af_valid : bool;
  af_errors : list string
}.

(** SELECT id, title FROM opportunities WHERE id = %s *)
Definition select_opportunity (id : Z) : sql opportunity :=
  select_rows Opportunities (fun d => filter (fun o => o_id o =? id) (opportunities d)).

(** SELECT id FROM applications WHERE user_id = %s AND opportunity_id = %s *)
Definition select_existing (user_id id : Z) : sql Z :=
  select_rows Applications (fun d =>
    map a_id
      (filter (fun a => (a_user_id a =? user_id) && (a_opportunity_id a =? id))
              (applications d))).

(** INSERT INTO applications (user_id, opportunity_id, resume_file, status, applied_at)
    VALUES (%s, %s, %s, 'pending', NOW()) *)
Definition insert_application (user_id id : Z) (filename : string) : sql unit :=
  write_rows Applications Insert (fun now d =>
    let new_id := applications_seq d in
    (with_applications
       (applications d ++ [mkApplication new_id user_id id filename "pending" now])
       (new_id + 1) d,
     new_id)).

(** SELECT * FROM applications WHERE id = %s AND user_id = %s *)
Definition select_own (application_id user_id : Z) : sql application :=
  select_rows Applications (fun d =>
    filter (fun a => (a_id a =? application_id) && (a_user_id a =? user_id))
           (applications d)).

(** DELETE FROM applications WHERE id = %s AND user_id = %s *)
Definition delete_own (application_id user_id : Z) : sql unit :=
  write_rows Applications Delete (fun _ d =>
    (with_applications
       (filter (fun a => negb ((a_id a =? application_id) && (a_user_id a =? user_id)))
               (applications d))
       (applications_seq d) d,
     0)).

(** [resume.save(path)] and [if os.path.exists(path): os.remove(path)] on the
    resumes folder. *)
Definition save_file (name : string) : M unit :=
  fun w =>
    (Ret tt,
     set_resumes (if existsb (String.eqb name) (resumes w)
                  then resumes w
                  else resumes w ++ [name]) w).

Definition remove_file (name : string) : M unit :=
  fun w => (Ret tt, set_resumes (filter (fun f => negb (f =? name)%string) (resumes w)) w).

Definition now_seconds : M Z := fun w => (Ret (clock w), w).

Fixpoint flash_errors (errors : list string) : M unit :=
  match errors with
  | [] => ret tt
  | e :: rest => flash e "danger" ;;; flash_errors rest
  end.

Definition apply (s : session) (form : application_form) (id : Z) : M response :=
  user_id <- session_user_id s ;;
  opportunity <- execute_query (select_opportunity id) true false false ;;
  match opportunity with
  | QRow opp =>
      existing <- execute_query (select_existing user_id id) true false false ;;
      if truthy existing then
        flash "You have already applied to this opportunity." "warning" ;;;
        ret (RedirectTo "opportunities.view_opportunity" (Some id))
      else
        (if af_valid form then
           timestamp <- now_seconds ;;
           let filename :=
             "app_" ++ str_of_Z user_id ++ "_" ++ str_of_Z id ++ "_"
                    ++ str_of_Z timestamp ++ ".pdf" in
           save_file filename ;;;
           result <- execute_query (insert_application user_id id filename) false false true ;;
           if is_not_none result then
             flash ("Application submitted successfully for " ++ dq ++ o_title opp ++ dq ++ "!")
                   "success" ;;;
             try_pass
               (_ <- Notifications.create_notification
                       user_id
                       ("Your application for " ++ dq ++ o_title opp ++ dq
                          ++ " has been submitted.")
                       "opportunity" ;;
                ret tt)
           else
             flash "Failed to submit application. Please try again." "danger" ;;;
             remove_file filename
         else
           flash_errors (af_errors form)) ;;;
        ret (RedirectTo "opportunities.view_opportunity" (Some id))
  | _ =>
      flash "Opportunity not found." "danger" ;;;
      ret (RedirectTo "opportunities.list_opportunities" None)
  end.

Definition withdraw_application (s : session) (application_id : Z) : M response :=
  user_id <- session_user_id s ;;
  application <- execute_query (select_own application_id user_id) true false false ;;
  match application with
  | QRow app =>
      if negb (a_status app =? "pending")%string then
        flash "Only pending applications can be withdrawn." "warning" ;;;
        ret (RedirectTo "opportunities.my_applications" None)
      else
        (if negb (is_empty (a_resume_file app)) then remove_file (a_resume_file app)
         else ret tt) ;;;
        _ <- execute_query (delete_own application_id user_id) false false true ;;
        flash "Application withdrawn." "info" ;;;
        ret (RedirectTo "opportunities.my_applications" None)
  | _ =>
      flash "Application not found." "danger" ;;;
      ret (RedirectTo "opportunities.my_applications" None)
  end.

End Opportunities.

(* ================================================================== *)
(** ** feed/routes.py *)

Module Feed.






End Feed.

(* ================================================================== *)
(** ** dashboard/routes.py *)

Module Dashboard.

(** SELECT COUNT( * ) as count FROM notifications WHERE user_id = %s AND is_read = FALSE *)
Definition count_unread_notifications (user_id : Z) : sql Z :=
  select_rows Notifications (fun d =>
    count_where (fun n => (n_user_id n =? user_id) && negb (n_is_read n)) (notifications d)).

(** SELECT COUNT( * ) as count FROM connections WHERE receiver_id = %s AND status = 'pending' *)
Definition count_pending_requests (user_id : Z) : sql Z :=
  select_rows Connections (fun d =>
    count_where (fun c => (c_receiver_id c =? user_id) && (c_status c =? "pending")%string)
                (connections d)).

(** SELECT COUNT( * ) as count FROM messages WHERE receiver_id = %s *)
Definition count_received_messages (user_id : Z) : sql Z :=
  select_rows Messages (fun d =>
    count_where (fun m => m_receiver_id m =? user_id) (messages d)).

(** SELECT COUNT( * ) as count FROM connections
    WHERE status = 'accepted' AND (sender_id = %s OR receiver_id = %s) *)
Definition count_connections (user_id : Z) : sql Z :=
  select_rows Connections (fun d =>
    count_where (fun c => (c_status c =? "accepted")%string
                          && ((c_sender_id c =? user_id) || (c_receiver_id c =? user_id)))
                (connections d)).

(** SELECT COUNT( * ) as count FROM posts WHERE user_id = %s *)
Definition count_posts (user_id : Z) : sql Z :=
  select_rows Posts (fun d => count_where (fun p => p_user_id p =? user_id) (posts d)).

(** The first block of [index] ("FETCH COUNTS FOR BADGES"), and the values
    [render_template] receives for them.  The recent-activity lists that
    [index] loads afterwards do not enter these values. *)
Definition index_badges (s : session) : M badges :=
  user_id <- session_user_id s ;;
  unread_notifs <- execute_query (count_unread_notifications user_id) true false false ;;
  pending_requests <- execute_query (count_pending_requests user_id) true false false ;;
  unread_messages <- execute_query (count_received_messages user_id) true false false ;;
  total_connections <- execute_query (count_connections user_id) true false false ;;
  total_posts <- execute_query (count_posts user_id) true false false ;;
  ret (mkBadges (count_or_zero unread_notifs) (count_or_zero pending_requests)
                (count_or_zero unread_messages) (count_or_zero total_connections)
                (count_or_zero total_posts)).

End Dashboard.

(* ================================================================== *)
(** ** notifications/utils.py, the rest of the module *)

Module NotificationUtils.

(** The [for user_id in user_ids] loop of [create_bulk_notifications], with
    its counter. *)
Fixpoint bulk_loop (count : Z) (user_ids : list Z) (message notification_type : string)
  : M Z :=
  match user_ids with
  | [] => ret count
  | user_id :: rest =>
      result <- Notifications.create_notification user_id message notification_type ;;
      bulk_loop (if is_not_none result then count + 1 else count)
                rest message notification_type
  end.

Definition create_bulk_notifications (user_ids : list Z) (message notification_type : string)
  : M Z :=
  bulk_loop 0 user_ids message notification_type.

(** SELECT COUNT( * ) as count FROM notifications WHERE user_id = %s AND is_read = FALSE *)
Definition count_unread (user_id : Z) : sql Z :=
  select_rows Notifications (fun d =>
    count_where (fun n => (n_user_id n =? user_id) && negb (n_is_read n)) (notifications d)).

Definition get_unread_count (user_id : Z) : M Z :=
  result <- execute_query (count_unread user_id) true false false ;;
  ret (count_or_zero result).

Definition read_row (n : notification) : notification :=
  mkNotification (n_id n) (n_user_id n) (n_message n) (n_type n) true (n_created_at n).

(** UPDATE notifications SET is_read = TRUE WHERE user_id = %s AND is_read = FALSE *)
Definition update_all_read (user_id : Z) : sql unit :=
  write_rows Notifications Update (fun _ d =>
    (with_notifications
       (map (fun n => if (n_user_id n =? user_id) && negb (n_is_read n)
                      then read_row n else n)
            (notifications d))
       (notifications_seq d) d,
     0)).

Definition mark_all_as_read (user_id : Z) : M bool :=
  _ <- execute_query (update_all_read user_id) false false true ;;
  ret true.

End NotificationUtils.

(* ================================================================== *)
(** ** notifications/routes.py *)

Module NotificationRoutes.

(** A row of [SELECT id, message, type, is_read, created_at]. *)
Record notification_item := mkItem {
  ni_id : Z;
  ni_message : string;
  ni_type : string;
  ni_is_read : bool;
  ni_created_at : Z
}.

(** What [list_notifications] hands to its template. *)
Record notification_list := mkList {
  nl_notifications : list notification_item;
  nl_total_count : Z;
  nl_unread_count : Z
}.

(** SELECT id, message, type, is_read, created_at FROM notifications
    WHERE user_id = %s ORDER BY created_at DESC *)
Definition select_for_user (user_id : Z) : sql notification_item :=
  select_rows Notifications (fun d =>
    map (fun n => mkItem (n_id n) (n_message n) (n_type n) (n_is_read n) (n_created_at n))
      (order_by (fun x y => n_created_at y <=? n_created_at x)
         (filter (fun n => n_user_id n =? user_id) (notifications d)))).

(** The body of [list_notifications]: the values [render_template] receives. *)
Definition list_notifications (s : session) : M notification_list :=
  user_id <- session_user_id s ;;
  notifications <- execute_query (select_for_user user_id) false true false ;;
  let total_count :=
    if truthy notifications
    then Z.of_nat (List.length (rows_or_nil notifications)) else 0 in
  let unread_count :=
    if truthy notifications
    then Z.of_nat (List.length (filter (fun n => negb (ni_is_read n))
                                       (rows_or_nil notifications)))
    else 0 in
  ret (mkList (rows_or_nil notifications) total_count unread_count).

(** UPDATE notifications SET is_read = TRUE WHERE id = %s AND user_id = %s *)
Definition update_read (notification_id user_id : Z) : sql unit :=
  write_rows Notifications Update (fun _ d =>
    (with_notifications
       (map (fun n => if (n_id n =? notification_id) && (n_user_id n =? user_id)
                      then NotificationUtils.read_row n else n)
            (notifications d))
       (notifications_seq d) d,
     0)).

(** DELETE FROM notifications WHERE id = %s AND user_id = %s *)
Definition delete_one (notification_id user_id : Z) : sql unit :=
  write_rows Notifications Delete (fun _ d =>
    (with_notifications
       (filter (fun n => negb ((n_id n =? notification_id) && (n_user_id n =? user_id)))
               (notifications d))
       (notifications_seq d) d,
     0)).

(** DELETE FROM notifications WHERE user_id = %s *)
Definition delete_all (user_id : Z) : sql unit :=
  write_rows Notifications Delete (fun _ d =>
    (with_notifications
       (filter (fun n => negb (n_user_id n =? user_id)) (notifications d))
       (notifications_seq d) d,
     0)).

Definition mark_as_read (s : session) (referrer : option string) (notification_id : Z)
  : M response :=
  user_id <- session_user_id s ;;
  _ <- execute_query (update_read notification_id user_id) false false true ;;
  ret (redirect_back referrer "notifications.list_notifications").

Definition mark_all_read (s : session) : M response :=
  user_id <- session_user_id s ;;
  _ <- NotificationUtils.mark_all_as_read user_id ;;
  flash "All notifications marked as read." "success" ;;;
  ret (RedirectTo "notifications.list_notifications" None).

Definition delete_notification (s : session) (referrer : option string) (notification_id : Z)
  : M response :=
  user_id <- session_user_id s ;;
  _ <- execute_query (delete_one notification_id user_id) false false true ;;
  flash "Notification deleted." "info" ;;;
  ret (redirect_back referrer "notifications.list_notifications").

Definition clear_all (s : session) : M response :=
  user_id <- session_user_id s ;;
  _ <- execute_query (delete_all user_id) false false true ;;
  flash "All notifications cleared." "info" ;;;
  ret (RedirectTo "notifications.list_notifications" None).

(** [inject_notification_count]: the value of [unread_notification_count]. *)
Definition inject_notification_count (s : session) : M Z :=
  match s_user_id s with
  | Some user_id => NotificationUtils.get_unread_count user_id
  | None => ret 0
  end.

End NotificationRoutes.

(* ================================================================== *)
(** ** connections/routes.py, the views and [get_connection_status] *)

Module ConnectionViews.

(** SELECT id, sender_id, receiver_id, status FROM connections
    WHERE (sender_id = %s AND receiver_id = %s) OR (sender_id = %s AND receiver_id = %s) *)
Definition select_status_between (user_id other_user_id : Z) : sql connection :=
  select_rows Connections (fun d =>
    filter (fun c => between user_id other_user_id (c_sender_id c) (c_receiver_id c))
           (connections d)).

(** [user_id] is [session.get('user_id')] at the caller: None when nobody is
    logged in; [not user_id] also holds for 0. *)
Definition get_connection_status (user_id : option Z) (other_user_id : Z)
  : M (option string) :=
  match user_id with
  | None => ret None
  | Some uid =>
      if (uid =? 0) || (uid =? other_user_id) then ret None
      else
        connection <- execute_query (select_status_between uid other_user_id)
                                    true false false ;;
        match connection with
        | QRow row =>
            if (c_status row =? "accepted")%string then ret (Some "accepted")
            else if (c_status row =? "pending")%string then
              if c_sender_id row =? uid then ret (Some "pending_sent")
              else ret (Some "pending_received")
            else ret None
        | _ => ret None
        end
  end.

(** A row of the incoming requests ([users.bio] is among the columns left
    out). *)
Record request_item := mkRequest {
  rq_id : Z;
  rq_sender_id : Z;
  rq_created_at : Z;
  rq_full_name : string;
  rq_profile_pic : option string
}.

Record requests_page := mkRequests {
  rp_requests : list request_item;
  rp_sent_pending_count : Z
}.

(** SELECT c.id, c.sender_id, c.created_at, u.full_name, u.profile_pic, u.bio
    FROM connections c INNER JOIN users u ON c.sender_id = u.id
    WHERE c.receiver_id = %s AND c.status = 'pending'
    ORDER BY c.created_at DESC *)
Definition select_incoming (user_id : Z) : sql request_item :=
  select_rows Connections (fun d =>
    order_by (fun x y => rq_created_at y <=? rq_created_at x)
      (flat_map (fun c =>
         flat_map (fun u =>
           if (c_sender_id c =? u_id u) && (c_receiver_id c =? user_id)
              && (c_status c =? "pending")%string
           then [mkRequest (c_id c) (c_sender_id c) (c_created_at c)
                           (u_full_name u) (u_profile_pic u)]
           else [])
         (users d))
       (connections d))).

(** SELECT COUNT( * ) as count FROM connections WHERE sender_id = %s AND status = 'pending' *)
Definition count_sent_pending (user_id : Z) : sql Z :=
  select_rows Connections (fun d =>
    count_where (fun c => (c_sender_id c =? user_id) && (c_status c =? "pending")%string)
                (connections d)).

(** The body of [incoming_requests]: the values [render_template] receives. *)
Definition incoming_requests (s : session) : M requests_page :=
  user_id <- session_user_id s ;;
  requests <- execute_query (select_incoming user_id) false true false ;;
  sent_count <- execute_query (count_sent_pending user_id) true false false ;;
  ret (mkRequests (rows_or_nil requests) (count_or_zero sent_count)).

(** A row of [my_connections] ([other_user_bio] is left out, as [users.bio]
    is). *)
Record connection_item := mkConnectionItem {
  ci_connection_id : Z;
  ci_created_at : Z;
  ci_other_user_id : Z;
  ci_other_user_name : string;
  ci_other_user_pic : option string
}.

(** The join of [my_connections]: connections c, users u1 on the sender,
    users u2 on the receiver, accepted and involving [user_id]; the CASE
    picks the other side; ORDER BY c.created_at DESC. *)
Definition select_my_connections (user_id : Z) : sql connection_item :=
  select_rows Connections (fun d =>
    order_by (fun x y => ci_created_at y <=? ci_created_at x)
      (flat_map (fun c =>
         flat_map (fun u1 =>
           flat_map (fun u2 =>
             if (c_sender_id c =? u_id u1) && (c_receiver_id c =? u_id u2)
                && (c_status c =? "accepted")%string
                && ((c_sender_id c =? user_id) || (c_receiver_id c =? user_id))
             then
               [ if c_sender_id c =? user_id
                 then mkConnectionItem (c_id c) (c_created_at c) (c_receiver_id c)
                                       (u_full_name u2) (u_profile_pic u2)
                 else mkConnectionItem (c_id c) (c_created_at c) (c_sender_id c)
                                       (u_full_name u1) (u_profile_pic u1) ]
             else [])
           (users d))
         (users d))
       (connections d))).

(** The body of [my_connections]: the list [render_template] receives. *)
Definition my_connections (s : session) : M (list connection_item) :=
  user_id <- session_user_id s ;;
  connections <- execute_query (select_my_connections user_id) false true false ;;
  ret (rows_or_nil connections).

End ConnectionViews.

(* ================================================================== *)
(** ** events/routes.py, [view_event] *)

Module EventViews.





End EventViews.

(* ================================================================== *)
(** ** admin/routes.py, deleting events and jobs *)

Module Admin.

(** The session keys [admin_required] reads. *)
Record admin_session := mkAdminSession {
  as_user_id : option Z;
  as_role : option string
}.

(** [abort(403)] ends the request with the status 403. *)
Inductive admin_response :=
  | Forbidden
  | Served (r : response).

Definition admin_required (s : admin_session) (f : M response) : M admin_response :=
  match as_user_id s with
  | None =>
      flash "Please login to access this page." "warning" ;;;
      ret (Served (RedirectTo "auth.login" None))
  | Some _ =>
      if negb (match as_role s with
               | Some role => (role =? "admin")%string
               | None => false
               end)
      then
        flash "Access denied. Admin privileges required." "danger" ;;;
        ret Forbidden
      else
        r <- f ;;
        ret (Served r)
  end.

(** DELETE FROM event_registrations WHERE event_id = %s *)
Definition delete_registrations_of (event_id : Z) : sql unit :=
  write_rows EventRegistrations Delete (fun _ d =>
    (with_event_registrations
       (filter (fun r => negb (r_event_id r =? event_id)) (event_registrations d)) d,
     0)).

(** DELETE FROM events WHERE id = %s *)
Definition delete_event_row (event_id : Z) : sql unit :=
  write_rows Events Delete (fun _ d =>
    (mkDb (users d) (connections d) (connections_seq d) (messages d) (messages_seq d)
          (notifications d) (notifications_seq d) (likes d) (posts d)
          (filter (fun e => negb (e_id e =? event_id)) (events d))
          (event_registrations d) (opportunities d) (applications d) (applications_seq d),
     0)).

Definition delete_event (event_id : Z) : M response :=
  _ <- execute_query (delete_registrations_of event_id) false false true ;;
  _ <- execute_query (delete_event_row event_id) false false true ;;
  flash "Event deleted successfully." "info" ;;;
  ret (RedirectTo "admin.list_events" None).

(** DELETE FROM applications WHERE opportunity_id = %s *)
Definition delete_applications_of (job_id : Z) : sql unit :=
  write_rows Applications Delete (fun _ d =>
    (with_applications
       (filter (fun a => negb (a_opportunity_id a =? job_id)) (applications d))
       (applications_seq d) d,
     0)).

(** DELETE FROM opportunities WHERE id = %s *)
Definition delete_opportunity_row (job_id : Z) : sql unit :=
  write_rows Opportunities Delete (fun _ d =>
    (mkDb (users d) (connections d) (connections_seq d) (messages d) (messages_seq d)
          (notifications d) (notifications_seq d) (likes d) (posts d) (events d)
          (event_registrations d)
          (filter (fun o => negb (o_id o =? job_id)) (opportunities d))
          (applications d) (applications_seq d),
     0)).

Definition delete_job (job_id : Z) : M response :=
  _ <- execute_query (delete_applications_of job_id) false false true ;;
  _ <- execute_query (delete_opportunity_row job_id) false false true ;;
  flash "Job deleted successfully." "info" ;;;
  ret (RedirectTo "admin.list_jobs" None).

End Admin.

(* ================================================================== *)
(** ** opportunities/routes.py, [view_opportunity] *)

Module OpportunityViews.





End OpportunityViews.

(* ================================================================== *)
(** * Vocabulary of the statements *)

(** A lookup is answered when the driver raises nothing before or during the
    fetch ([CommitError] only concerns [connection.commit()]). *)
Definition answers (f : fault) : bool :=
  match f with
  | Up | CommitError => true
  | _ => false
  end.

(** The result set of a statement on the committed database. *)
Definition rows_of {R} (q : sql R) (w : world) : list R :=
  fst (fst (sql_run q (clock w) (db w))).

(** The database a write leaves once committed, and its lastrowid. *)
Definition written {R} (q : sql R) (w : world) : database :=
  snd (fst (sql_run q (clock w) (db w))).

Definition lastrowid_of {R} (q : sql R) (w : world) : Z :=
  snd (sql_run q (clock w) (db w)).

Definition fetched_one {R} (q : sql R) (w : world) : result (qresult R) :=
  match next_fault w with
  | Crash => Raise
  | ConnectError | ExecuteError => Ret QNone
  | Up | CommitError => Ret (fetchone (rows_of q w))
  end.

Definition fetched_all {R} (q : sql R) (w : world) : result (qresult R) :=
  match next_fault w with
  | Crash => Raise
  | ConnectError | ExecuteError => Ret QNone
  | Up | CommitError => Ret (QRows (rows_of q w))
  end.

(** What a notification attempt leaves behind, whatever its outcome. *)
Definition notified (user_id : Z) (message notification_type : string) (w : world) : world :=
  snd (Notifications.create_notification user_id message notification_type w).

(** An accepted connection exists between [u] and [p], in either direction. *)
Definition accepted_between (d : database) (u p : Z) : Prop :=
  exists c, In c (connections d) /\ c_status c = "accepted"
            /\ ((c_sender_id c = u /\ c_receiver_id c = p)
                \/ (c_sender_id c = p /\ c_receiver_id c = u)).

Definition has_accepted (d : database) (u p : Z) : bool :=
  existsb (fun c => (c_status c =? "accepted")%string
                    && between u p (c_sender_id c) (c_receiver_id c))
          (connections d).




Definition form_text (form_message : option string) : string :=
  strip (match form_message with Some m => m | None => EmptyString end).

(** The request a connection id names: the row [SELECT * ... WHERE id = %s]
    fetches. *)
Definition request_row (d : database) (connection_id : Z) : option connection :=
  find (fun c => c_id c =? connection_id) (connections d).

(** The requester is the receiver of a pending request and the action is
    'accept' or 'reject'. *)
Definition may_respond (d : database) (u connection_id : Z) (action : string) : bool :=
  ((action =? "accept") || (action =? "reject"))%string
  && match request_row d connection_id with
     | Some row => (c_receiver_id row =? u) && (c_status row =? "pending")%string
     | None => false
     end.

(** The requests that write to the connections table. *)
Inductive connections_request :=
  | SendRequest (user_id : Z)
  | RespondRequest (connection_id : Z) (action : string)
  | RemoveConnection (connection_id : Z)
  | CancelRequest (referrer : option string) (connection_id : Z).

Definition serve (s : session) (r : connections_request) : M response :=
  login_required s
    match r with
    | SendRequest user_id => Connections.send_request s user_id
    | RespondRequest connection_id action => Connections.respond_request s connection_id action
    | RemoveConnection connection_id => Connections.remove_connection s connection_id
    | CancelRequest referrer connection_id => Connections.cancel_request s referrer connection_id
    end.







Definition without_id (connection_id : Z) (l : list connection) : list connection :=
  filter (fun c => negb (c_id c =? connection_id)) l.

(** The connections table after a request, in terms of the table before. *)
Inductive table_step (u : option Z) (w : world) : connections_request -> list connection -> Prop :=
  | step_none : forall r, table_step u w r (connections (db w))
  | step_insert : forall me user_id,
      u = Some me -> me <> user_id ->
      table_step u w (SendRequest user_id)
        (connections (db w)
           ++ [mkConnection (connections_seq (db w)) me user_id "pending" (clock w)])%list
  | step_accept : forall connection_id,
      table_step u w (RespondRequest connection_id "accept")
        (map (Connections.accept_row connection_id) (connections (db w)))
  | step_reject : forall connection_id,
      table_step u w (RespondRequest connection_id "reject")
        (without_id connection_id (connections (db w)))
  | step_remove : forall connection_id,
      table_step u w (RemoveConnection connection_id)
        (without_id connection_id (connections (db w)))
  | step_cancel : forall referrer connection_id,
      table_step u w (CancelRequest referrer connection_id)
        (without_id connection_id (connections (db w))).



(** What the driver does with the k-th call of a request (from 0). *)
Definition fault_at (k : nat) (w : world) : fault := nth k (faults w) Up.

(** The event an id names, whether [u] is registered for it, and how many
    registrations it has. *)
Definition event_row (d : database) (id : Z) : option event :=
  find (fun e => e_id e =? id) (events d).

Definition registered (d : database) (u id : Z) : bool :=
  existsb (fun r => (r_user_id r =? u) && (r_event_id r =? id)) (event_registrations d).

Definition registration_count (d : database) (id : Z) : Z :=
  Z.of_nat (List.length (filter (fun r => r_event_id r =? id) (event_registrations d))).

(** A database with one event whose max_participants is 0 (the admin form
    stores [int("0")]), and nobody registered. *)
Definition zero_limit_db : database :=
  mkDb [mkUser 7 "Asha" None] [] 1 [] 1 [] 1 [] []
       [mkEvent 1 "Launch" (Some 0)] [] [] [] 1.

Definition asha : session := mkSession (Some 7) (Some "Asha").



(** No limit is enforced: max_participants is NULL or 0. *)
Definition unlimited (ev : event) : Prop :=
  e_max_participants ev = None \/ e_max_participants ev = Some 0.


(** The application an id names among those of [u]: the row
    [SELECT * ... WHERE id = %s AND user_id = %s] fetches. *)
Definition own_application (d : database) (u application_id : Z) : option application :=
  find (fun a => (a_id a =? application_id) && (a_user_id a =? u)) (applications d).


Definition without_own (u application_id : Z) (l : list application) : list application :=
  filter (fun a => negb ((a_id a =? application_id) && (a_user_id a =? u))) l.



(** The row [create_notification] writes. *)
Definition new_notification (w : world) (user_id : Z) (message notification_type : string)
  : notification :=
  mkNotification (notifications_seq (db w)) user_id message notification_type false (clock w).




Definition ravi : session := mkSession (Some 1) (Some "Ravi").

(** Users 1 and 2, connected. *)
Definition chat_db : database :=
  mkDb [mkUser 1 "Ravi" None; mkUser 2 "Mina" None]
       [mkConnection 1 1 2 "accepted" 0] 2 [] 1 [] 1 [] [] [] [] [] [] 1.


Definition registered_flash (ev : event) : string * string :=
  ("Successfully registered for " ++ dq ++ e_title ev ++ dq ++ "!", "success").

(** All the messages [sender] ever sent to [receiver]. *)
Definition total_from (d : database) (sender receiver : Z) : Z :=
  Z.of_nat (List.length
              (filter (fun m => (m_sender_id m =? sender) && (m_receiver_id m =? receiver))
                      (messages d))).

(** All the messages [receiver] ever received. *)
Definition total_received (d : database) (receiver : Z) : Z :=
  Z.of_nat (List.length (filter (fun m => m_receiver_id m =? receiver) (messages d))).

Definition last_message_of (d : database) (u p : Z) : option message_preview :=
  match fetchone (fst (fst (sql_run (Chat.select_last_message u p) 0 d))) with
  | QRow m => Some m
  | _ => None
  end.

Definition entry_of (d : database) (u : Z) (cu : connected_user) : conversation_entry :=
  mkEntry (cu_user_id cu) (cu_full_name cu) (cu_profile_pic cu)
          (last_message_of d u (cu_user_id cu))
          (total_from d (cu_user_id cu) u).

(** Users 1 and 2, connected; user 2 has sent one message to user 1. *)
Definition inbox_db : database :=
  mkDb [mkUser 1 "Ravi" None; mkUser 2 "Mina" None]
       [mkConnection 1 1 2 "accepted" 0] 2
       [mkMessage 1 2 1 "hi" 5] 2
       [] 1 [] [] [] [] [] [] 1.

(** Users 1 and 2; user 1 has asked user 2 to connect. *)
Definition pending_db : database :=
  mkDb [mkUser 1 "Ravi" None; mkUser 2 "Mina" None]
       [mkConnection 1 1 2 "pending" 0] 2 [] 1 [] 1 [] [] [] [] [] [] 1.



Definition mina : session := mkSession (Some 2) (Some "Mina").


(** The registrations other than those of [u] for event [id]. *)
Definition without_registration (u id : Z) (l : list registration) : list registration :=
  filter (fun r => negb ((r_user_id r =? u) && (r_event_id r =? id))) l.

(** The id names a pending request that [u] sent: the row
    [SELECT * ... WHERE id = %s AND status = 'pending'] fetches. *)
Definition may_cancel (d : database) (u connection_id : Z) : bool :=
  match find (fun c => (c_id c =? connection_id) && (c_status c =? "pending")%string)
             (connections d) with
  | Some row => c_sender_id row =? u
  | None => false
  end.

(** The id names a connection of which [u] is the sender or the receiver. *)
Definition may_remove (d : database) (u connection_id : Z) : bool :=
  match request_row d connection_id with
  | Some row => (c_sender_id row =? u) || (c_receiver_id row =? u)
  | None => false
  end.

(** The POST routes of notifications/routes.py. *)
Inductive notification_request :=
  | MarkAsRead (notification_id : Z)
  | MarkAllRead
  | DeleteNotification (notification_id : Z)
  | ClearAll.

Definition notification_route (s : session) (referrer : option string)
           (r : notification_request) : M response :=
  login_required s
    match r with
    | MarkAsRead notification_id => NotificationRoutes.mark_as_read s referrer notification_id
    | MarkAllRead => NotificationRoutes.mark_all_read s
    | DeleteNotification notification_id =>
        NotificationRoutes.delete_notification s referrer notification_id
    | ClearAll => NotificationRoutes.clear_all s
    end.

(** The notifications of one user, in table order. *)
Definition notifications_of (u : Z) (d : database) : list notification :=
  filter (fun n => n_user_id n =? u) (notifications d).

(** The unread notifications of one user. *)
Definition unread_of (u : Z) (d : database) : list notification :=
  filter (fun n => (n_user_id n =? u) && negb (n_is_read n)) (notifications d).

(** The columns [list_notifications] selects. *)
Definition item_of (n : notification) : NotificationRoutes.notification_item :=
  NotificationRoutes.mkItem (n_id n) (n_message n) (n_type n) (n_is_read n) (n_created_at n).

(** Two users with notifications: two for user 1 (one of them read), one for
    user 2. *)
Definition notices_db : database :=
  mkDb [mkUser 1 "Ravi" None; mkUser 2 "Mina" None] [] 1 [] 1
       [mkNotification 1 1 "Mina accepted your request" "connection" false 5;
        mkNotification 2 2 "Ravi liked your post" "like" false 7;
        mkNotification 3 1 "New message from Mina" "message" true 9] 4
       [] [] [] [] [] [] 1.

(** [admin_required] lets the request through: somebody is logged in and
    [session.get('role')] is 'admin'. *)
Definition is_admin (s : Admin.admin_session) : bool :=
  match Admin.as_user_id s, Admin.as_role s with
  | Some _, Some role => (role =? "admin")%string
  | _, _ => false
  end.

(** What [admin_required] answers to somebody who is not an admin. *)
Definition turned_away (s : Admin.admin_session) : Admin.admin_response :=
  match Admin.as_user_id s with
  | None => Admin.Served (RedirectTo "auth.login" None)
  | Some _ => Admin.Forbidden
  end.

(** The chat partner a row of [my_connections] stands for. *)
Definition partner_of (item : ConnectionViews.connection_item) : connected_user :=
  mkConnectedUser (ConnectionViews.ci_other_user_id item)
                  (ConnectionViews.ci_other_user_name item)
                  (ConnectionViews.ci_other_user_pic item).

(** User 7 has applied to opportunity 4; the application is pending. *)
Definition applied_db : database :=
  mkDb [mkUser 7 "Asha" None] [] 1 [] 1 [] 1 [] [] [] []
       [mkOpportunity 4 "Engineer"]
       [mkApplication 1 7 4 "app_7_4_0.pdf" "pending" 0] 2.

(** The keys of the users table as the schema declares them: the sender and
    the receiver of every connection are each exactly one row of [users]. *)
Definition keyed_users (d : database) : Prop :=
  forall c, In c (connections d) ->
            List.length (filter (fun u => c_sender_id c =? u_id u) (users d)) = 1%nat
            /\ List.length (filter (fun u => c_receiver_id c =? u_id u) (users d)) = 1%nat.

(** The row is an accepted connection between [a] and [b]. *)
Definition accepted_row (a b : Z) (c : connection) : bool :=
  (c_status c =? "accepted")%string && between a b (c_sender_id c) (c_receiver_id c).

(** The same status seen from the other side. *)
Definition mirror_status (st : option string) : option string :=
  match st with
  | Some s =>
      if (s =? "pending_sent")%string then Some "pending_received"
      else if (s =? "pending_received")%string then Some "pending_sent"
      else Some s
  | None => None
  end.

(** A rendered message is a stored message between [u] and [p]. *)
Definition shown_between (d : database) (u p : Z) (mv : message_view) : Prop :=
  exists m usr,
    In m (messages d) /\ In usr (users d) /\ u_id usr = m_sender_id m
    /\ mv = mkView (m_id m) (m_sender_id m) (m_receiver_id m) (m_message m)
                   (m_created_at m) (u_full_name usr) (u_profile_pic usr)
    /\ ((m_sender_id m = u /\ m_receiver_id m = p)
        \/ (m_sender_id m = p /\ m_receiver_id m = u)).

(** An unread notification with the given message and type, for one of the
    given users. *)
Definition fresh_notification (user_ids : list Z) (message notification_type : string)
           (n : notification) : Prop :=
  n_is_read n = false /\ n_message n = message /\ n_type n = notification_type
  /\ In (n_user_id n) user_ids.

(* ================================================================== *)
(** * Properties *)

(** ** [execute_query] *)

Lemma execute_fetch_one R (q : sql R) (fetch_all commit : bool) (w : world) :
  execute_query q true fetch_all commit w = (fetched_one q w, advance q w).
Proof.
  unfold execute_query, fetched_one, rows_of, get_db_connection.
  destruct (next_fault w); simpl; try reflexivity;
    destruct (sql_run q (clock w) (db w)) as [[rows d'] id]; simpl;
    try reflexivity; destruct commit; reflexivity.
Qed.

Lemma execute_fetch_all R (q : sql R) (commit : bool) (w : world) :
  execute_query q false true commit w = (fetched_all q w, advance q w).
Proof.
  unfold execute_query, fetched_all, rows_of, get_db_connection.
  destruct (next_fault w); simpl; try reflexivity;
    destruct (sql_run q (clock w) (db w)) as [[rows d'] id]; simpl;
    try reflexivity; destruct commit; reflexivity.
Qed.

Lemma execute_commit R (q : sql R) (w : world) :
  execute_query q false false true w =
  match next_fault w with
  | Crash => (Raise, advance q w)
  | Up => (Ret (QInt (lastrowid_of q w)), set_db (written q w) (advance q w))
  | _ => (Ret QNone, advance q w)
  end.
Proof.
  unfold execute_query, written, lastrowid_of, get_db_connection.
  destruct (next_fault w); simpl; try reflexivity;
    destruct (sql_run q (clock w) (db w)) as [[rows d'] id]; reflexivity.
Qed.


Lemma fetched_one_cases R (q : sql R) (w : world) :
  (fetched_one q w = Raise /\ next_fault w = Crash)
  \/ (fetched_one q w = Ret QNone /\ (answers (next_fault w) = false \/ rows_of q w = []))
  \/ (exists r rest, fetched_one q w = Ret (QRow r)
                     /\ rows_of q w = r :: rest /\ answers (next_fault w) = true).
Proof.
  unfold fetched_one.
  destruct (next_fault w); simpl; auto;
    destruct (rows_of q w) as [|r rest]; simpl; eauto 8.
Qed.


Lemma bind_run A B (m : M A) (k : A -> M B) (w : world) :
  bind m k w = match m w with
               | (Ret a, w') => k a w'
               | (Raise, w') => (Raise, w')
               end.
Proof. reflexivity. Qed.

Arguments execute_query : simpl never.
Arguments try_pass : simpl never.

(** Run the handler in [E] up to its next driver call. *)
Ltac run_in E := repeat (progress (rewrite ?bind_run in E; simpl in E)).

Ltac fetch_cases_in E :=
  match type of E with
  | context [fetched_one ?q ?w] =>
      let F := fresh "F" in
      destruct (fetched_one_cases q w) as [[F ?] | [[F ?] | (? & ? & F & ? & ?)]];
      rewrite F in E; clear F
  end.

Lemma notify_pass (user_id : Z) (message notification_type : string) (w : world) :
  try_pass (_ <- Notifications.create_notification user_id message notification_type ;; ret tt) w
  = (Ret tt, notified user_id message notification_type w).
Proof.
  unfold try_pass, bind, notified, ret.
  destruct (Notifications.create_notification user_id message notification_type w)
    as [[a|] w']; reflexivity.
Qed.

Lemma notified_cases (user_id : Z) (message notification_type : string) (w : world) :
  let q := Notifications.insert_notification user_id message notification_type in
  notified user_id message notification_type w = advance q w
  \/ (next_fault w = Up
      /\ notified user_id message notification_type w = set_db (written q w) (advance q w)).
Proof.
  unfold notified, Notifications.create_notification. rewrite execute_commit.
  destruct (next_fault w); simpl; auto.
Qed.

Lemma notified_frame (user_id : Z) (message notification_type : string) (w : world) :
  let w' := notified user_id message notification_type w in
  connections (db w') = connections (db w)
  /\ messages (db w') = messages (db w)
  /\ event_registrations (db w') = event_registrations (db w)
  /\ applications (db w') = applications (db w)
  /\ likes (db w') = likes (db w)
  /\ connections_seq (db w') = connections_seq (db w)
  /\ flashes w' = flashes w
  /\ resumes w' = resumes w
  /\ issued w' = (issued w ++ [(Notifications, Insert)])%list.
Proof.
  destruct (notified_cases user_id message notification_type w) as [E | [_ E]];
    simpl; rewrite E; repeat split; reflexivity.
Qed.

Lemma flash_errors_run (errors : list string) (w : world) :
  Opportunities.flash_errors errors w
  = (Ret tt,
     mkWorld (db w) (faults w)
             (flashes w ++ map (fun e => (e, "danger")) errors)%list
             (issued w) (resumes w) (clock w)).
Proof.
  revert w. induction errors as [|e l IH]; intros w; simpl.
  - rewrite app_nil_r. destruct w; reflexivity.
  - rewrite bind_run. simpl. rewrite IH. simpl. rewrite <- app_assoc. reflexivity.
Qed.

(** Symbolic execution of a handler whose outcome is named by [E]: split on
    every driver call and every test until the outcome is read off. *)
Ltac exec_in E :=
  run_in E;
  lazymatch type of E with
  | (_, _) = (_, _) => inversion E; subst; clear E; simpl
  | ret ?a ?w0 = _ => change (ret a w0) with (Ret a, w0) in E; exec_in E
  | context [execute_query _ true _ _ _] =>
      rewrite execute_fetch_one in E; fetch_cases_in E; exec_in E
  | context [execute_query _ false false true _] =>
      rewrite execute_commit in E;
      match type of E with
      | context [next_fault ?w0] => destruct (next_fault w0) eqn:?
      end;
      exec_in E
  | context [try_pass _ _] => rewrite notify_pass in E; exec_in E
  | context [Opportunities.flash_errors _ _] => rewrite flash_errors_run in E; exec_in E
  | context [if ?b then _ else _] => destruct b eqn:?; exec_in E
  | _ => idtac
  end.

(** After [exec_in]: the tables a notification attempt leaves alone. *)
Ltac frame_notified :=
  repeat match goal with
         | |- context [notified ?a ?b ?c ?w0] =>
             let H := fresh "Hframe" in
             pose proof (notified_frame a b c w0) as H; simpl in H;
             destruct H as (? & ? & ? & ? & ? & ? & ? & ? & ?);
             generalize dependent (notified a b c w0); intros
         end.

(* ------------------------------------------------------------------ *)
(** ** Chat is between connections *)

Lemma between_spec (a b s r : Z) :
  between a b s r = true <-> (s = a /\ r = b) \/ (s = b /\ r = a).
Proof.
  unfold between.
  rewrite orb_true_iff, !andb_true_iff, !Z.eqb_eq. tauto.
Qed.

Lemma has_accepted_iff (d : database) (u p : Z) :
  has_accepted d u p = true <-> accepted_between d u p.
Proof.
  unfold has_accepted, accepted_between. rewrite existsb_exists.
  split; intros (c & Hin & H); exists c; split; auto.
  - apply andb_true_iff in H. destruct H as [Hs Hb].
    apply String.eqb_eq in Hs. apply between_spec in Hb. auto.
  - destruct H as [Hs Hb]. apply andb_true_iff. split.
    + apply String.eqb_eq; exact Hs.
    + apply between_spec; exact Hb.
Qed.

Lemma accepted_rows (u p : Z) (w : world) :
  rows_of (Chat.select_accepted_connection u p) w = [] <-> has_accepted (db w) u p = false.
Proof.
  unfold rows_of, has_accepted, Chat.select_accepted_connection. simpl.
  induction (connections (db w)) as [|c l IH]; simpl; [tauto|].
  destruct ((c_status c =? "accepted")%string
            && between u p (c_sender_id c) (c_receiver_id c)); simpl.
  - split; discriminate.
  - exact IH.
Qed.




(** With an accepted connection, a database that answers and a text that is
    not blank, the message is stored. *)
Lemma send_message_stores (u p : Z) (name form_message : option string) (w : world) :
  let s := mkSession (Some u) name in
  let out := login_required s (Chat.send_message s form_message p) w in
  p <> u -> has_accepted (db w) u p = true -> faults w = [] ->
  form_text form_message <> EmptyString ->
  fst out = Ret (RedirectTo "chat.conversation" (Some p))
  /\ messages (db (snd out))
     = (messages (db w)
          ++ [mkMessage (messages_seq (db w)) u p (form_text form_message) (clock w)])%list.
Proof.
  intros s out Hne Hacc Hf Htext.
  destruct out as [r w'] eqn:E. subst out s.
  unfold login_required, Chat.send_message, Chat.is_connected in E. simpl in E.
  rewrite bind_run in E. simpl in E.
  apply Z.eqb_neq in Hne as Epu. rewrite Epu in E.
  rewrite !bind_run, execute_fetch_one in E.
  assert (Hup : next_fault w = Up) by (unfold next_fault; rewrite Hf; reflexivity).
  fetch_cases_in E; simpl in E.
  - congruence.
  - destruct H as [H | H]; [rewrite Hup in H; discriminate|].
    apply accepted_rows in H. congruence.
  - unfold form_text in *.
    destruct (strip match form_message with Some m => m | None => EmptyString end)
      as [|c rest] eqn:Es; [congruence|]. simpl in E.
    rewrite !bind_run, execute_commit in E.
    assert (Hup2 : next_fault (advance (Chat.select_accepted_connection u p) w) = Up)
      by (unfold next_fault; simpl; rewrite Hf; reflexivity).
    rewrite Hup2 in E. simpl in E. rewrite ?bind_run, notify_pass in E.
    inversion E; subst; clear E. simpl.
    split; [reflexivity|].
    match goal with
    | |- context [notified ?a ?b ?c ?w0] =>
        destruct (notified_frame a b c w0) as (_ & Hm & _)
    end.
    rewrite Hm. reflexivity.
Qed.




(* ------------------------------------------------------------------ *)
(** ** Responding to a connection request *)

Lemma filter_head_find A (p : A -> bool) (l : list A) (r : A) (rest : list A) :
  filter p l = r :: rest -> find p l = Some r.
Proof.
  induction l as [|x l IH]; simpl; [discriminate|].
  destruct (p x); [intros H; inversion H; reflexivity | exact IH].
Qed.

Lemma filter_nil_find A (p : A -> bool) (l : list A) :
  filter p l = [] -> find p l = None.
Proof.
  induction l as [|x l IH]; simpl; [reflexivity|].
  destruct (p x); [discriminate | exact IH].
Qed.

(** C5.  [respond_request] changes the connections table only when the
    requester is the receiver of the request, the request is pending and the
    action is 'accept' or 'reject'.  In every other case the database is left
    as it was and the answer is the redirect to the incoming requests with one
    flashed message (danger or info).  When the guard holds and the driver
    does not fail, 'accept' sets the status of the row to 'accepted' and
    'reject' deletes the row. *)
Theorem respond_request_guarded :
  forall (u connection_id : Z) (name : option string) (action : string) (w : world),
    let s := mkSession (Some u) name in
    let out := login_required s (Connections.respond_request s connection_id action) w in
    (connections (db (snd out)) <> connections (db w) ->
     may_respond (db w) u connection_id action = true)
    /\ (may_respond (db w) u connection_id action = false ->
        db (snd out) = db w
        /\ ((fst out = Raise /\ next_fault w = Crash)
            \/ (fst out = Ret (RedirectTo "connections.incoming_requests" None)
                /\ exists msg category,
                     flashes (snd out) = (flashes w ++ [(msg, category)])%list
                     /\ (category = "danger" \/ category = "info"))))
    /\ (may_respond (db w) u connection_id action = true -> faults w = [] ->
        fst out = Ret (RedirectTo "connections.incoming_requests" None)
        /\ connections (db (snd out))
           = if (action =? "accept")%string
             then map (Connections.accept_row connection_id) (connections (db w))
             else filter (fun c => negb (c_id c =? connection_id)) (connections (db w))).
Proof.
  intros u connection_id name action w s out.
  assert (Hrefuse :
    may_respond (db w) u connection_id action = false ->
    db (snd out) = db w
    /\ ((fst out = Raise /\ next_fault w = Crash)
        \/ (fst out = Ret (RedirectTo "connections.incoming_requests" None)
            /\ exists msg category,
                 flashes (snd out) = (flashes w ++ [(msg, category)])%list
                 /\ (category = "danger" \/ category = "info")))).
  { intros Hno. destruct out as [r w'] eqn:E. subst out s.
    unfold login_required, Connections.respond_request in E. simpl in E.
    rewrite bind_run in E. simpl in E.
    unfold may_respond, request_row in Hno.
    destruct ((action =? "accept")%string || (action =? "reject")%string) eqn:Ea;
      simpl in E, Hno.
    - rewrite !bind_run, execute_fetch_one in E.
      fetch_cases_in E; simpl in E.
      + inversion E; subst. simpl. auto.
      + inversion E; subst. simpl. split; [reflexivity|]. right. eauto 8.
      + unfold rows_of in H. simpl in H. apply filter_head_find in H.
        rewrite H in Hno.
        destruct (c_receiver_id x =? u); simpl in E, Hno.
        * rewrite Hno in E. simpl in E. inversion E; subst. simpl.
          split; [reflexivity|]. right. eauto 8.
        * inversion E; subst. simpl. split; [reflexivity|]. right. eauto 8.
    - inversion E; subst. simpl. split; [reflexivity|]. right. eauto 8. }
  refine (conj _ (conj Hrefuse _)).
  - intros Hchg.
    destruct (may_respond (db w) u connection_id action) eqn:Em; [reflexivity|].
    destruct (Hrefuse eq_refl) as [Hdb _]. rewrite Hdb in Hchg. contradiction.
  - intros Hyes Hf. clear Hrefuse.
    destruct out as [r w'] eqn:E. subst out s.
    unfold login_required, Connections.respond_request in E. simpl in E.
    rewrite bind_run in E. simpl in E.
    unfold may_respond, request_row in Hyes.
    apply andb_true_iff in Hyes. destruct Hyes as [Ea Hrow].
    rewrite Ea in E. simpl in E.
    rewrite !bind_run, execute_fetch_one in E.
    assert (Hup : next_fault w = Up) by (unfold next_fault; rewrite Hf; reflexivity).
    destruct (find (fun c => c_id c =? connection_id) (connections (db w)))
      as [row|] eqn:Efind; [|discriminate].
    apply andb_true_iff in Hrow. destruct Hrow as [Hrecv Hpend].
    fetch_cases_in E; simpl in E.
    + congruence.
    + destruct H as [H | H]; [rewrite Hup in H; discriminate|].
      unfold rows_of in H. simpl in H. apply filter_nil_find in H. congruence.
    + unfold rows_of in H. simpl in H. apply filter_head_find in H.
      rewrite Efind in H. inversion H; subst x. clear H.
      rewrite Hrecv, Hpend in E. simpl in E.
      destruct (action =? "accept")%string eqn:Eacc.
      * rewrite !bind_run, execute_commit in E.
        assert (Hup2 : next_fault (advance (Connections.select_by_id connection_id) w) = Up)
          by (unfold next_fault; simpl; rewrite Hf; reflexivity).
        rewrite Hup2 in E. run_in E. rewrite notify_pass in E. run_in E.
        inversion E; subst; clear E. simpl. split; [reflexivity|].
        match goal with
        | |- context [notified ?a ?b ?c ?w0] =>
            destruct (notified_frame a b c w0) as (Hc & _)
        end.
        rewrite Hc. reflexivity.
      * rewrite !bind_run, execute_commit in E.
        assert (Hup2 : next_fault (advance (Connections.select_by_id connection_id) w) = Up)
          by (unfold next_fault; simpl; rewrite Hf; reflexivity).
        rewrite Hup2 in E. simpl in E.
        inversion E; subst; clear E. simpl. split; reflexivity.
Qed.

(* ------------------------------------------------------------------ *)
(** ** The life of a connection row *)

(** After the handler's write: split on what the driver does with it, run the
    rest of the handler, and read the outcome. *)
Ltac commit_cases_in E :=
  rewrite ?bind_run, execute_commit in E;
  match type of E with
  | context [next_fault ?w0] => destruct (next_fault w0) eqn:?
  end;
  run_in E; try (rewrite notify_pass in E; run_in E);
  inversion E; subst; clear E; simpl;
  try match goal with
      | |- context [notified ?a ?b ?c ?w0] =>
          let H := fresh "Hframe" in
          pose proof (notified_frame a b c w0) as H; simpl in H;
          destruct H as (-> & _)
      end.

Lemma send_request_table (u user_id : Z) (name : option string) (w : world) :
  let s := mkSession (Some u) name in
  table_step (Some u) w (SendRequest user_id)
    (connections (db (snd (Connections.send_request s user_id w)))).
Proof.
  intros s. destruct (Connections.send_request s user_id w) as [r w'] eqn:E. subst s.
  unfold Connections.send_request in E. run_in E.
  destruct (u =? user_id) eqn:Eu; run_in E.
  - inversion E; subst. simpl. constructor.
  - apply Z.eqb_neq in Eu.
    rewrite execute_fetch_one in E.
    fetch_cases_in E; run_in E.
    + inversion E; subst. simpl. constructor.
    + commit_cases_in E; try constructor; auto.
    + destruct (c_status x =? "pending")%string; run_in E;
        [|destruct (c_status x =? "accepted")%string; run_in E];
        inversion E; subst; simpl; constructor.
Qed.














(* ------------------------------------------------------------------ *)
(** ** Registering for an event *)

Lemma fault_at_0 (w : world) : next_fault w = fault_at 0 w.
Proof. unfold next_fault, fault_at. destruct (faults w); reflexivity. Qed.

Lemma fault_at_advance R (q : sql R) (k : nat) (w : world) :
  fault_at k (advance q w) = fault_at (S k) w.
Proof. unfold fault_at. simpl. destruct (faults w); simpl; [destruct k|]; reflexivity. Qed.

Lemma fault_at_quiet (k : nat) (w : world) : faults w = [] -> fault_at k w = Up.
Proof. unfold fault_at. intros ->. destruct k; reflexivity. Qed.

Lemma registration_rows (u id : Z) (w : world) :
  rows_of (Events.select_registration u id) w = [] <-> registered (db w) u id = false.
Proof.
  unfold rows_of, registered, Events.select_registration. simpl.
  induction (event_registrations (db w)) as [|r l IH]; simpl; [tauto|].
  destruct ((r_user_id r =? u) && (r_event_id r =? id)); simpl.
  - split; discriminate.
  - exact IH.
Qed.



Lemma rows_of_advance R S (q : sql R) (q' : sql S) (w : world) :
  rows_of q (advance q' w) = rows_of q w.
Proof. reflexivity. Qed.

Lemma fault_at_set_db (k : nat) (d : database) (w : world) :
  fault_at k (set_db d w) = fault_at k w.
Proof. reflexivity. Qed.

Ltac name_faults :=
  rewrite ?fault_at_0, ?fault_at_set_db, ?fault_at_advance, ?rows_of_advance in *.


Lemma event_rows (id : Z) (w : world) (ev : event) (rest : list event) :
  rows_of (Events.select_event id) w = ev :: rest -> event_row (db w) id = Some ev.
Proof. unfold rows_of, event_row. simpl. apply filter_head_find. Qed.



Lemma find_filter_head A (p : A -> bool) (l : list A) (x : A) :
  find p l = Some x -> exists rest, filter p l = x :: rest.
Proof.
  induction l as [|y l IH]; simpl; [discriminate|].
  destruct (p y); [intros H; inversion H; eauto | exact IH].
Qed.

Lemma answered_row R (q : sql R) (w : world) (x : R) (rest : list R) :
  answers (next_fault w) = true -> rows_of q w = x :: rest ->
  fetched_one q w = Ret (QRow x).
Proof.
  unfold fetched_one. intros Ha ->. destruct (next_fault w); simpl in *; congruence.
Qed.

Lemma answered_none R (q : sql R) (w : world) :
  answers (next_fault w) = true -> rows_of q w = [] ->
  fetched_one q w = Ret QNone.
Proof.
  unfold fetched_one. intros Ha ->. destruct (next_fault w); simpl in *; congruence.
Qed.





Lemma unlimited_has_no_limit (ev : event) : unlimited ev -> Events.has_limit ev = false.
Proof. unfold unlimited, Events.has_limit. intros [-> | ->]; reflexivity. Qed.


(* ------------------------------------------------------------------ *)
(** ** Applications *)

Arguments String.eqb : simpl never.
Arguments String.append : simpl never.










(* ------------------------------------------------------------------ *)
(** ** Notifications *)

Lemma create_notification_row (user_id : Z) (message notification_type : string) (w : world) :
  let out := Notifications.create_notification user_id message notification_type w in
  (notifications (db (snd out)) = notifications (db w) /\ next_fault w <> Up
   /\ (fst out = Ret QNone \/ fst out = Raise))
  \/ (notifications (db (snd out))
      = (notifications (db w) ++ [new_notification w user_id message notification_type])%list
      /\ next_fault w = Up
      /\ fst out = Ret (QInt (notifications_seq (db w)))).
Proof.
  unfold Notifications.create_notification. simpl. rewrite execute_commit.
  destruct (next_fault w); simpl; auto; left; repeat split; auto; discriminate.
Qed.


(** Close a branch whose driver behaviour contradicts what is assumed. *)
Ltac fault_clash :=
  exfalso;
  match goal with
  | Hf : fault_at ?k ?w0 = _, Ha : answers (fault_at ?k ?w0) = _ |- _ =>
      rewrite Hf in Ha; discriminate Ha
  | Hf : fault_at ?k ?w0 = _, Hu : fault_at ?k ?w0 = _ |- _ =>
      rewrite Hf in Hu; discriminate Hu
  | Ha : answers (fault_at ?k ?w0) = true, Hb : answers (fault_at ?k ?w0) = false |- _ =>
      rewrite Ha in Hb; discriminate Hb
  | Hu : fault_at ?k ?w0 = Up, Hb : answers (fault_at ?k ?w0) = false |- _ =>
      rewrite Hu in Hb; discriminate Hb
  end.




(* ------------------------------------------------------------------ *)
(** ** Likes *)












(* ------------------------------------------------------------------ *)
(** ** A failed notification does not change the outcome *)





Lemma register_outcome (u id : Z) (name : option string) (w : world) (ev : event) :
  let s := mkSession (Some u) name in
  let out := login_required s (Events.register s id) w in
  event_row (db w) id = Some ev -> registered (db w) u id = false ->
  answers (fault_at 0 w) = true -> answers (fault_at 1 w) = true ->
  (unlimited ev /\ fault_at 2 w = Up)
  \/ (exists cap, e_max_participants ev = Some cap /\ cap <> 0
                  /\ registration_count (db w) id < cap
                  /\ answers (fault_at 2 w) = true /\ fault_at 3 w = Up) ->
  fst out = Ret (RedirectTo "events.view_event" (Some id))
  /\ flashes (snd out) = (flashes w ++ [registered_flash ev])%list
  /\ event_registrations (db (snd out))
     = (event_registrations (db w) ++ [mkRegistration u id (clock w)])%list.
Proof.
  intros s out Hev Hreg H0 H1 Hcap.
  destruct out as [r w'] eqn:E. subst out s.
  unfold login_required, Events.register, Events.event_is_full in E. run_in E.
  apply find_filter_head in Hev. destruct Hev as [rest Hev].
  rewrite execute_fetch_one in E.
  rewrite (@answered_row _ (Events.select_event id) w ev rest) in E;
    [| rewrite fault_at_0; exact H0 | exact Hev].
  run_in E. rewrite execute_fetch_one in E.
  rewrite (@answered_none _ (Events.select_registration u id)) in E;
    [| rewrite fault_at_0, fault_at_advance; exact H1
     | rewrite rows_of_advance; apply registration_rows; exact Hreg].
  run_in E.
  destruct Hcap as [[Hun H2] | (cap & Hcap & Hnz & Hlt & H2 & H3)].
  - rewrite (unlimited_has_no_limit Hun) in E.
    exec_in E; name_faults; try fault_clash.
    frame_notified. repeat split; assumption.
  - assert (Hl : Events.has_limit ev = true).
    { unfold Events.has_limit. rewrite Hcap. apply negb_true_iff.
      apply Z.eqb_neq. exact Hnz. }
    rewrite Hl in E. run_in E. rewrite execute_fetch_one in E.
    rewrite (@answered_row _ (Events.count_registrations id) _
               (registration_count (db w) id) []) in E;
      [| rewrite fault_at_0, !fault_at_advance; exact H2 | reflexivity].
    run_in E. rewrite Hcap in E.
    assert (Hge : (registration_count (db w) id >=? cap) = false)
      by (rewrite Z.geb_leb; apply Z.leb_gt; exact Hlt).
    rewrite Hge in E.
    exec_in E; name_faults; try fault_clash.
    frame_notified. repeat split; assumption.
Qed.


(* ------------------------------------------------------------------ *)
(** ** The "unread" message counts *)

Lemma quiet_fetch R (q : sql R) (w : world) :
  faults w = [] -> fetched_one q w = Ret (fetchone (rows_of q w)).
Proof. unfold fetched_one, next_fault. intros ->. reflexivity. Qed.

(** With a working driver, the entry [chat_list] builds for a partner carries
    as [unread_count] the number of all messages the partner sent to the
    user. *)
Lemma chat_list_loop_totals (u : Z) (cus : list connected_user) (w : world) :
  faults w = [] ->
  exists w',
    Chat.chat_list_loop u cus w = (Ret (map (entry_of (db w) u) cus), w')
    /\ db w' = db w /\ faults w' = [].
Proof.
  revert w. induction cus as [|cu cus IH]; intros w Hf; simpl.
  - exists w. auto.
  - rewrite bind_run, execute_fetch_one, quiet_fetch by exact Hf.
    simpl. rewrite bind_run, execute_fetch_one, quiet_fetch
      by (simpl; rewrite Hf; reflexivity).
    simpl. rewrite bind_run.
    match goal with
    | |- context [Chat.chat_list_loop u cus ?w0] =>
        destruct (IH w0) as (w' & Hrun & Hdb & Hf'); [simpl; rewrite Hf; reflexivity|];
        rewrite Hrun
    end.
    simpl. exists w'. split; [|split; [exact Hdb | exact Hf']].
    reflexivity.
Qed.

(** Viewing a conversation reads; it marks nothing: the database, and with it
    every count, is what it was. *)
Lemma conversation_reads_only (s : session) (p : Z) (w : world) :
  db (snd (login_required s (Chat.conversation s p) w)) = db w.
Proof.
  destruct (login_required s (Chat.conversation s p) w) as [r w'] eqn:E.
  destruct s as [[u|] name]; unfold login_required, Chat.conversation, Chat.is_connected in E.
  - exec_in E; try reflexivity.
    all: rewrite execute_fetch_all in E; unfold fetched_all in E;
      destruct (next_fault _); run_in E; inversion E; reflexivity.
  - run_in E. inversion E; reflexivity.
Qed.

(** With a working driver, the dashboard's [unread_messages] is the number of
    all messages the user ever received. *)
Lemma index_badges_total (u : Z) (name : option string) (w : world) :
  faults w = [] ->
  exists b w',
    Dashboard.index_badges (mkSession (Some u) name) w = (Ret b, w')
    /\ b_unread_messages b = total_received (db w) u
    /\ db w' = db w.
Proof.
  intros Hf. unfold Dashboard.index_badges.
  rewrite bind_run. simpl.
  repeat (rewrite bind_run, execute_fetch_one, quiet_fetch
            by (simpl; rewrite ?Hf; reflexivity);
          simpl).
  eexists. eexists. split; [reflexivity | split; reflexivity].
Qed.

(** C3: the code at the failing input.  User 1 opens the conversation with
    user 2 and is shown the one message user 2 sent.  Afterwards [chat_list]
    still reports [unread_count] 1 for user 2 and the dashboard still reports
    [unread_messages] 1: both count every message received, read or not. *)
Theorem unread_counts_include_read_messages :
  let w := boot inbox_db in
  let viewed := login_required ravi (Chat.conversation ravi 2) w in
  let listed := login_required ravi (Chat.chat_list ravi) (snd viewed) in
  let counted := Dashboard.index_badges ravi (snd viewed) in
  fst viewed
  = Ret (Render (ConversationPage (mkUser 2 "Mina" None)
                                  [mkView 1 2 1 "hi" 5 "Mina" None] 1))
  /\ fst listed
     = Ret (Render (ChatListPage
                      [mkEntry 2 "Mina" None (Some (mkPreview "hi" 5 2)) 1]))
  /\ fst counted = Ret (mkBadges 0 0 1 1 0)
  /\ total_from (db (snd viewed)) 2 1 = 1
  /\ total_received (db (snd viewed)) 1 = 1.
Proof. repeat split. Qed.

(* ================================================================== *)
(** * The theorems at concrete inputs *)




(** The sender of a request cannot accept it. *)
Lemma respond_request_guarded_witness :
  db (snd (login_required ravi (Connections.respond_request ravi 1 "accept")
             (boot pending_db))) = pending_db.
Proof.
  destruct (respond_request_guarded 1 1 (Some "Ravi") "accept" (boot pending_db))
    as (_ & Hrefuse & _).
  destruct (Hrefuse eq_refl) as [Hdb _]. exact Hdb.
Defined.






(* ================================================================== *)
(** * Further properties of the handlers *)

Lemma fetched_all_cases R (q : sql R) (w : world) :
  (fetched_all q w = Raise /\ next_fault w = Crash)
  \/ (fetched_all q w = Ret QNone /\ answers (next_fault w) = false)
  \/ (fetched_all q w = Ret (QRows (rows_of q w)) /\ answers (next_fault w) = true).
Proof. unfold fetched_all. destruct (next_fault w); simpl; auto. Qed.

(** [exec_in], also through [fetch_all] calls. *)
Ltac exec_all_in E :=
  run_in E;
  lazymatch type of E with
  | (_, _) = (_, _) => inversion E; subst; clear E; simpl
  | ret ?a ?w0 = _ => change (ret a w0) with (Ret a, w0) in E; exec_all_in E
  | context [execute_query _ true _ _ _] =>
      rewrite execute_fetch_one in E; fetch_cases_in E; exec_all_in E
  | context [execute_query _ false true _ _] =>
      rewrite execute_fetch_all in E;
      match type of E with
      | context [fetched_all ?q ?w0] =>
          let F := fresh "F" in
          destruct (fetched_all_cases q w0) as [[F ?] | [[F ?] | [F ?]]];
          rewrite F in E; clear F
      end;
      exec_all_in E
  | context [execute_query _ false false true _] =>
      rewrite execute_commit in E;
      match type of E with
      | context [next_fault ?w0] => destruct (next_fault w0) eqn:?
      end;
      exec_all_in E
  | context [try_pass _ _] => rewrite notify_pass in E; exec_all_in E
  | context [if ?b then _ else _] => destruct b eqn:?; exec_all_in E
  | _ => idtac
  end.

Lemma notified_quiet (user_id : Z) (message notification_type : string) (w : world) :
  faults w = [] -> faults (notified user_id message notification_type w) = [].
Proof.
  intros Hf.
  destruct (notified_cases user_id message notification_type w) as [E | [_ E]];
    simpl in E; rewrite E; simpl; rewrite Hf; reflexivity.
Qed.

(* ------------------------------------------------------------------ *)
(** ** [execute_query] commits only on request *)

(** X1.  A statement reaches the committed database only through a call
    with [commit=True] and neither fetch flag set, on which the driver raises
    nothing; every call consumes one driver outcome and logs its statement. *)
Theorem execute_query_commits_only_on_request :
  forall (R : Type) (q : sql R) (fetch_one fetch_all commit : bool) (w : world),
    let out := execute_query q fetch_one fetch_all commit w in
    (db (snd out) <> db w ->
     fetch_one = false /\ fetch_all = false /\ commit = true /\ next_fault w = Up
     /\ db (snd out) = written q w)
    /\ faults (snd out) = tl (faults w)
    /\ issued (snd out) = (issued w ++ [(sql_table q, sql_verb q)])%list
    /\ flashes (snd out) = flashes w.
Proof.
  intros R q fetch_one fetch_all commit w out. subst out.
  destruct fetch_one.
  - rewrite execute_fetch_one. simpl.
    split; [intros H; contradiction | repeat split].
  - destruct fetch_all.
    + rewrite execute_fetch_all. simpl.
      split; [intros H; contradiction | repeat split].
    + destruct commit.
      * rewrite execute_commit. destruct (next_fault w); simpl;
          (split; [intros H; try contradiction; repeat split | repeat split]).
      * unfold execute_query, get_db_connection.
        destruct (next_fault w); simpl;
          try destruct (sql_run q (clock w) (db w)) as [[rows d'] id]; simpl;
          (split; [intros H; contradiction | repeat split]).
Qed.

(* ------------------------------------------------------------------ *)
(** ** Leaving an event *)



Lemma unregister_removes (u id : Z) (name : option string) (w : world) :
  let s := mkSession (Some u) name in
  let out := login_required s (Events.unregister s id) w in
  registered (db w) u id = true -> faults w = [] ->
  event_registrations (db (snd out))
  = without_registration u id (event_registrations (db w))
  /\ fst out = Ret (RedirectTo "events.view_event" (Some id))
  /\ flashes (snd out)
     = (flashes w ++ [("You have unregistered from this event.", "info")])%list.
Proof.
  intros s out Hyes Hf. destruct out as [r w'] eqn:E. subst out s.
  unfold login_required, Events.unregister in E.
  exec_in E; name_faults;
    repeat match goal with
           | H : context [fault_at _ w] |- _ =>
               rewrite (fault_at_quiet _ w Hf) in H; simpl in H
           end;
    try discriminate; auto.
  - match goal with
    | Hq : _ \/ rows_of _ _ = [] |- _ =>
        destruct Hq as [Hq | Hq]; [discriminate Hq | apply registration_rows in Hq; congruence]
    end.
Qed.



Lemma register_quiet (u id : Z) (name : option string) (w : world) :
  let s := mkSession (Some u) name in
  faults w = [] -> faults (snd (login_required s (Events.register s id) w)) = [].
Proof.
  intros s Hf. destruct (login_required s (Events.register s id) w) as [r w'] eqn:E.
  subst s. unfold login_required, Events.register, Events.event_is_full in E.
  exec_in E; try apply notified_quiet; simpl; rewrite Hf; reflexivity.
Qed.

Lemma without_registration_fresh (u id : Z) (l : list registration) :
  existsb (fun r => (r_user_id r =? u) && (r_event_id r =? id)) l = false ->
  without_registration u id l = l.
Proof.
  unfold without_registration. induction l as [|x l IH]; simpl; [reflexivity|].
  intros H. apply orb_false_iff in H. destruct H as [Hx Hl].
  rewrite Hx. simpl. rewrite IH by exact Hl. reflexivity.
Qed.

(** X3.  Registering and then unregistering is a round trip: for an event
    that exists and has room, a user who was not registered and a working
    driver, [register] appends the registration and [unregister] (at any
    later time) leaves the registrations table exactly as it was before. *)
Theorem register_unregister_round_trip :
  forall (u id t2 : Z) (name : option string) (w : world) (ev : event),
    let s := mkSession (Some u) name in
    let w1 := snd (login_required s (Events.register s id) w) in
    let w2 := snd (login_required s (Events.unregister s id) (set_clock t2 w1)) in
    event_row (db w) id = Some ev ->
    registered (db w) u id = false ->
    unlimited ev
    \/ (exists cap, e_max_participants ev = Some cap /\ cap <> 0
                    /\ registration_count (db w) id < cap) ->
    faults w = [] ->
    event_registrations (db w1)
    = (event_registrations (db w) ++ [mkRegistration u id (clock w)])%list
    /\ registered (db w1) u id = true
    /\ event_registrations (db w2) = event_registrations (db w).
Proof.
  intros u id t2 name w ev s w1 w2 Hev Hreg Hroom Hf.
  assert (Hroom' :
    (unlimited ev /\ fault_at 2 w = Up)
    \/ (exists cap, e_max_participants ev = Some cap /\ cap <> 0
                    /\ registration_count (db w) id < cap
                    /\ answers (fault_at 2 w) = true /\ fault_at 3 w = Up)).
  { destruct Hroom as [Hun | (cap & H1 & H2 & H3)].
    - left. split; [exact Hun | apply fault_at_quiet; exact Hf].
    - right. exists cap. rewrite !fault_at_quiet by exact Hf. auto. }
  assert (H0 : answers (fault_at 0 w) = true) by (rewrite fault_at_quiet by exact Hf; reflexivity).
  assert (H1 : answers (fault_at 1 w) = true) by (rewrite fault_at_quiet by exact Hf; reflexivity).
  destruct (@register_outcome u id name w ev Hev Hreg H0 H1 Hroom') as (_ & _ & Hnew).
  fold s in Hnew. fold w1 in Hnew.
  assert (Hin : registered (db w1) u id = true).
  { unfold registered. rewrite Hnew, existsb_app. simpl.
    rewrite !Z.eqb_refl. simpl. apply orb_true_r. }
  assert (Hq : faults (set_clock t2 w1) = []).
  { simpl. apply register_quiet. exact Hf. }
  destruct (@unregister_removes u id name (set_clock t2 w1) Hin Hq) as (Hdel & _).
  fold s in Hdel. fold w2 in Hdel.
  refine (conj Hnew (conj Hin _)).
  rewrite Hdel. simpl. rewrite Hnew.
  unfold without_registration. rewrite filter_app. simpl.
  rewrite !Z.eqb_refl. simpl. rewrite app_nil_r.
  apply without_registration_fresh. exact Hreg.
Qed.

(* ------------------------------------------------------------------ *)
(** ** Cancelling a request, removing a connection *)

Lemma cancel_table (u connection_id : Z) (name referrer : option string) (w : world) :
  let s := mkSession (Some u) name in
  let out := login_required s (Connections.cancel_request s referrer connection_id) w in
  connections (db (snd out)) = connections (db w)
  \/ (connections (db (snd out)) = without_id connection_id (connections (db w))
      /\ may_cancel (db w) u connection_id = true).
Proof.
  intros s out. destruct out as [r w'] eqn:E. subst out s.
  unfold login_required, Connections.cancel_request in E.
  unfold may_cancel.
  exec_in E; auto;
    right; (split; [reflexivity|]);
    match goal with
    | Hrow : rows_of (Connections.select_pending_by_id _) _ = _ :: _ |- _ =>
        unfold rows_of in Hrow; simpl in Hrow; apply filter_head_find in Hrow; rewrite Hrow
    end;
    match goal with
    | Hs : negb (_ =? u) = false |- _ => apply negb_false_iff in Hs; exact Hs
    end.
Qed.

Lemma cancel_refuses (u connection_id : Z) (name referrer : option string) (w : world) :
  let s := mkSession (Some u) name in
  let out := login_required s (Connections.cancel_request s referrer connection_id) w in
  may_cancel (db w) u connection_id = false ->
  db (snd out) = db w
  /\ ((fst out = Raise /\ next_fault w = Crash)
      \/ (fst out = Ret (RedirectTo "connections.incoming_requests" None)
          /\ exists msg, flashes (snd out) = (flashes w ++ [(msg, "danger")])%list)).
Proof.
  intros s out Hno. destruct out as [r w'] eqn:E. subst out s.
  unfold login_required, Connections.cancel_request in E.
  unfold may_cancel in Hno.
  run_in E. rewrite execute_fetch_one in E. fetch_cases_in E; run_in E.
  - inversion E; subst; simpl. auto.
  - inversion E; subst; simpl. split; [reflexivity|]. right. eauto.
  - unfold rows_of in H. simpl in H. apply filter_head_find in H. rewrite H in Hno.
    rewrite Hno in E. run_in E.
    inversion E; subst; simpl. split; [reflexivity|]. right. eauto.
Qed.

Ltac quiet_faults Hf :=
  name_faults;
  repeat match goal with
         | H : context [fault_at ?k ?w0] |- _ =>
             rewrite (fault_at_quiet k w0 Hf) in H; simpl in H
         end.

Lemma cancel_deletes (u connection_id : Z) (name referrer : option string) (w : world) :
  let s := mkSession (Some u) name in
  let out := login_required s (Connections.cancel_request s referrer connection_id) w in
  may_cancel (db w) u connection_id = true -> faults w = [] ->
  connections (db (snd out)) = without_id connection_id (connections (db w))
  /\ fst out = Ret (redirect_back referrer "connections.incoming_requests")
  /\ flashes (snd out) = (flashes w ++ [("Connection request cancelled.", "info")])%list.
Proof.
  intros s out Hyes Hf. destruct out as [r w'] eqn:E. subst out s.
  unfold login_required, Connections.cancel_request in E.
  unfold may_cancel in Hyes.
  exec_in E; quiet_faults Hf; try discriminate; auto;
    exfalso;
    try match goal with
        | Hq : _ \/ rows_of _ _ = [] |- _ =>
            destruct Hq as [Hq | Hq]; [discriminate Hq|];
            unfold rows_of in Hq; simpl in Hq; apply filter_nil_find in Hq;
            rewrite Hq in Hyes; discriminate Hyes
        end;
    match goal with
    | Hrow : rows_of (Connections.select_pending_by_id _) _ = _ :: _ |- _ =>
        unfold rows_of in Hrow; simpl in Hrow; apply filter_head_find in Hrow;
        rewrite Hrow in Hyes
    end;
    match goal with
    | Hs : negb (_ =? u) = true |- _ => rewrite Hyes in Hs; discriminate Hs
    end.
Qed.

(** X4.  [cancel_request] changes the connections table only when the id
    names a request that is still pending and that the requesting user sent.
    Otherwise the database is as before and the answer is the redirect to
    the incoming requests with an error message.  When the guard holds and
    the driver works, the rows of that id are deleted and the user is sent
    back to the referring page. *)
Theorem cancel_request_guarded :
  forall (u connection_id : Z) (name referrer : option string) (w : world),
    let s := mkSession (Some u) name in
    let out := login_required s (Connections.cancel_request s referrer connection_id) w in
    (connections (db (snd out)) <> connections (db w) ->
     may_cancel (db w) u connection_id = true)
    /\ (may_cancel (db w) u connection_id = false ->
        db (snd out) = db w
        /\ ((fst out = Raise /\ next_fault w = Crash)
            \/ (fst out = Ret (RedirectTo "connections.incoming_requests" None)
                /\ exists msg, flashes (snd out) = (flashes w ++ [(msg, "danger")])%list)))
    /\ (may_cancel (db w) u connection_id = true -> faults w = [] ->
        connections (db (snd out)) = without_id connection_id (connections (db w))
        /\ fst out = Ret (redirect_back referrer "connections.incoming_requests")
        /\ flashes (snd out)
           = (flashes w ++ [("Connection request cancelled.", "info")])%list).
Proof.
  intros u connection_id name referrer w s out.
  pose proof (@cancel_table u connection_id name referrer w) as Htable.
  cbv zeta in Htable. subst s out.
  refine (conj _ (conj _ _)).
  - intros Hchg. destruct Htable as [Hsame | [_ Hyes]]; [contradiction | exact Hyes].
  - apply cancel_refuses.
  - apply cancel_deletes.
Qed.

Lemma remove_table (u connection_id : Z) (name : option string) (w : world) :
  let s := mkSession (Some u) name in
  let out := login_required s (Connections.remove_connection s connection_id) w in
  connections (db (snd out)) = connections (db w)
  \/ (connections (db (snd out)) = without_id connection_id (connections (db w))
      /\ may_remove (db w) u connection_id = true).
Proof.
  intros s out. destruct out as [r w'] eqn:E. subst out s.
  unfold login_required, Connections.remove_connection in E.
  unfold may_remove, request_row.
  exec_in E; auto;
    right; (split; [reflexivity|]);
    match goal with
    | Hrow : rows_of (Connections.select_by_id _) _ = _ :: _ |- _ =>
        unfold rows_of in Hrow; simpl in Hrow; apply filter_head_find in Hrow; rewrite Hrow
    end;
    match goal with
    | Hs : negb _ && negb _ = false |- _ =>
        rewrite <- negb_orb in Hs; apply negb_false_iff in Hs; exact Hs
    end.
Qed.

Lemma remove_refuses (u connection_id : Z) (name : option string) (w : world) :
  let s := mkSession (Some u) name in
  let out := login_required s (Connections.remove_connection s connection_id) w in
  may_remove (db w) u connection_id = false ->
  db (snd out) = db w
  /\ ((fst out = Raise /\ next_fault w = Crash)
      \/ (fst out = Ret (RedirectTo "connections.my_connections" None)
          /\ exists msg, flashes (snd out) = (flashes w ++ [(msg, "danger")])%list)).
Proof.
  intros s out Hno. destruct out as [r w'] eqn:E. subst out s.
  unfold login_required, Connections.remove_connection in E.
  unfold may_remove, request_row in Hno.
  run_in E. rewrite execute_fetch_one in E. fetch_cases_in E; run_in E.
  - inversion E; subst; simpl. auto.
  - inversion E; subst; simpl. split; [reflexivity|]. right. eauto.
  - unfold rows_of in H. simpl in H. apply filter_head_find in H. rewrite H in Hno.
    rewrite <- negb_orb, Hno in E. run_in E.
    inversion E; subst; simpl. split; [reflexivity|]. right. eauto.
Qed.

Lemma remove_deletes (u connection_id : Z) (name : option string) (w : world) :
  let s := mkSession (Some u) name in
  let out := login_required s (Connections.remove_connection s connection_id) w in
  may_remove (db w) u connection_id = true -> faults w = [] ->
  connections (db (snd out)) = without_id connection_id (connections (db w))
  /\ fst out = Ret (RedirectTo "connections.my_connections" None)
  /\ flashes (snd out) = (flashes w ++ [("Connection removed.", "info")])%list.
Proof.
  intros s out Hyes Hf. destruct out as [r w'] eqn:E. subst out s.
  unfold login_required, Connections.remove_connection in E.
  unfold may_remove, request_row in Hyes.
  exec_in E; quiet_faults Hf; try discriminate; auto;
    exfalso;
    try match goal with
        | Hq : _ \/ rows_of _ _ = [] |- _ =>
            destruct Hq as [Hq | Hq]; [discriminate Hq|];
            unfold rows_of in Hq; simpl in Hq; apply filter_nil_find in Hq;
            rewrite Hq in Hyes; discriminate Hyes
        end;
    match goal with
    | Hrow : rows_of (Connections.select_by_id _) _ = _ :: _ |- _ =>
        unfold rows_of in Hrow; simpl in Hrow; apply filter_head_find in Hrow;
        rewrite Hrow in Hyes
    end;
    match goal with
    | Hs : negb _ && negb _ = true |- _ =>
        rewrite <- negb_orb, Hyes in Hs; discriminate Hs
    end.
Qed.

Lemma find_without_id (connection_id : Z) (l : list connection) :
  find (fun c => c_id c =? connection_id) (without_id connection_id l) = None.
Proof.
  unfold without_id. induction l as [|c l IH]; simpl; [reflexivity|].
  destruct (c_id c =? connection_id) eqn:E; simpl; [exact IH|].
  rewrite E. exact IH.
Qed.

(** X5.  [remove_connection] changes the connections table only when the
    id names a row of which the requesting user is the sender or the
    receiver; a third party, or an unknown id, leaves the database as it was
    and gets an error message.  With the guard and a working driver the rows
    of that id are deleted: the id then names no connection any more, so a
    second removal is answered "not found". *)
Theorem remove_connection_guarded :
  forall (u connection_id : Z) (name : option string) (w : world),
    let s := mkSession (Some u) name in
    let out := login_required s (Connections.remove_connection s connection_id) w in
    let again :=
      login_required s (Connections.remove_connection s connection_id) (snd out) in
    (connections (db (snd out)) <> connections (db w) ->
     may_remove (db w) u connection_id = true)
    /\ (may_remove (db w) u connection_id = false ->
        db (snd out) = db w
        /\ ((fst out = Raise /\ next_fault w = Crash)
            \/ (fst out = Ret (RedirectTo "connections.my_connections" None)
                /\ exists msg, flashes (snd out) = (flashes w ++ [(msg, "danger")])%list)))
    /\ (may_remove (db w) u connection_id = true -> faults w = [] ->
        connections (db (snd out)) = without_id connection_id (connections (db w))
        /\ fst out = Ret (RedirectTo "connections.my_connections" None)
        /\ request_row (db (snd out)) connection_id = None
        /\ db (snd again) = db (snd out)).
Proof.
  intros u connection_id name w s out again.
  pose proof (@remove_table u connection_id name w) as Htable.
  cbv zeta in Htable. subst s out again.
  refine (conj _ (conj _ _)).
  - intros Hchg. destruct Htable as [Hsame | [_ Hyes]]; [contradiction | exact Hyes].
  - apply remove_refuses.
  - intros Hyes Hf.
    destruct (@remove_deletes u connection_id name w Hyes Hf) as (Hnew & Hres & _).
    assert (Hgone : request_row
                      (db (snd (login_required (mkSession (Some u) name)
                                  (Connections.remove_connection (mkSession (Some u) name)
                                     connection_id) w)))
                      connection_id = None).
    { unfold request_row. rewrite Hnew. apply find_without_id. }
    refine (conj Hnew (conj Hres (conj Hgone _))).
    apply remove_refuses. unfold may_remove. rewrite Hgone. reflexivity.
Qed.

(* ------------------------------------------------------------------ *)
(** ** Becoming connected takes an acceptance *)

Lemma respond_table_guard (u connection_id : Z) (name : option string) (action : string)
      (w : world) :
  let s := mkSession (Some u) name in
  let out := login_required s (Connections.respond_request s connection_id action) w in
  connections (db (snd out)) = connections (db w)
  \/ (may_respond (db w) u connection_id action = true
      /\ ((action = "accept"
           /\ connections (db (snd out))
              = map (Connections.accept_row connection_id) (connections (db w)))
          \/ connections (db (snd out)) = without_id connection_id (connections (db w)))).
Proof.
  intros s out. destruct out as [r w'] eqn:E. subst out s.
  unfold login_required, Connections.respond_request in E. run_in E.
  unfold may_respond, request_row.
  destruct ((action =? "accept")%string || (action =? "reject")%string) eqn:Ea;
    run_in E; [|inversion E; subst; left; reflexivity].
  rewrite execute_fetch_one in E. fetch_cases_in E; run_in E;
    try (inversion E; subst; left; reflexivity).
  unfold rows_of in H. simpl in H. apply filter_head_find in H. rewrite H.
  destruct (c_receiver_id x =? u) eqn:Er; run_in E;
    [|inversion E; subst; left; reflexivity].
  destruct (c_status x =? "pending")%string eqn:Ep; run_in E;
    [|inversion E; subst; left; reflexivity].
  simpl.
  destruct (action =? "accept")%string eqn:Eacc.
  - apply String.eqb_eq in Eacc. subst action.
    exec_in E; frame_notified;
      try (left; congruence);
      right; (split; [reflexivity|]); left; (split; [reflexivity | congruence]).
  - exec_in E; try (left; reflexivity).
    right. split; [reflexivity|]. right. reflexivity.
Qed.

Lemma existsb_filter_sub A (p q : A -> bool) (l : list A) :
  existsb p (filter q l) = true -> existsb p l = true.
Proof.
  rewrite !existsb_exists. intros (x & Hin & Hp).
  apply filter_In in Hin. exists x. tauto.
Qed.

Lemma same_id_same_connection (l : list connection) (a b : connection) :
  NoDup (map c_id l) -> In a l -> In b l -> c_id a = c_id b -> a = b.
Proof.
  induction l as [|x l IH]; simpl; [tauto|].
  intros Hnd Ha Hb Hid. inversion Hnd as [|y ys Hnotin Hnd']; subst.
  destruct Ha as [-> | Ha]; destruct Hb as [-> | Hb]; auto.
  - exfalso. apply Hnotin. rewrite Hid. apply in_map. exact Hb.
  - exfalso. apply Hnotin. rewrite <- Hid. apply in_map. exact Ha.
Qed.

(** X6.  Two users who were not connected are connected after a request
    only if that request is an 'accept' by the receiver of a pending request;
    with unique ids, that request is one between the two users.  Sending,
    rejecting, cancelling and removing never connect anybody, whatever the
    driver does. *)
Theorem connected_only_by_acceptance :
  forall (s : session) (r : connections_request) (w : world) (a b : Z),
    has_accepted (db w) a b = false ->
    has_accepted (db (snd (serve s r w))) a b = true ->
    exists u connection_id row,
      s_user_id s = Some u
      /\ r = RespondRequest connection_id "accept"
      /\ request_row (db w) connection_id = Some row
      /\ c_receiver_id row = u
      /\ c_status row = "pending"
      /\ (NoDup (map c_id (connections (db w))) ->
          between a b (c_sender_id row) (c_receiver_id row) = true).
Proof.
  intros s r w a b Hold Hnew.
  unfold has_accepted in Hold, Hnew. fold (accepted_row a b) in Hold, Hnew.
  destruct s as [[u|] name]; unfold serve in Hnew.
  2:{ simpl in Hnew. congruence. }
  unfold login_required in Hnew. cbn [s_user_id] in Hnew.
  destruct r as [user_id | connection_id action | connection_id | referrer connection_id].
  - pose proof (@send_request_table u user_id name w) as Ht. cbv zeta in Ht.
    inversion Ht as [r0 Heq | me uid Hme Hne Heq | | | | ]; subst;
      match goal with
      | Heq : _ = connections (db (snd _)) |- _ => rewrite <- Heq in Hnew
      end.
    + congruence.
    + rewrite existsb_app in Hnew. simpl in Hnew. rewrite Hold in Hnew.
      unfold accepted_row in Hnew. simpl in Hnew. discriminate.
  - pose proof (@respond_table_guard u connection_id name action w) as Ht.
    cbv zeta in Ht. cbn [s_user_id] in Ht. unfold login_required in Ht.
    cbn [s_user_id] in Ht.
    destruct Ht as [Heq | [Hmay [[Hact Heq] | Heq]]]; rewrite Heq in Hnew.
    + congruence.
    + subst action. unfold may_respond in Hmay. simpl in Hmay.
      destruct (request_row (db w) connection_id) as [row|] eqn:Erow; [|discriminate].
      apply andb_true_iff in Hmay. destruct Hmay as [Hrecv Hpend].
      apply Z.eqb_eq in Hrecv. apply String.eqb_eq in Hpend.
      exists u, connection_id, row.
      refine (conj eq_refl (conj eq_refl (conj Erow (conj Hrecv (conj Hpend _))))).
      intros Hnd.
      apply existsb_exists in Hnew. destruct Hnew as (c' & Hin & Hacc).
      apply in_map_iff in Hin. destruct Hin as (c & <- & Hc).
      unfold Connections.accept_row in Hacc.
      destruct (c_id c =? connection_id) eqn:Eid.
      * apply Z.eqb_eq in Eid. unfold request_row in Erow.
        apply find_some in Erow. destruct Erow as [Hrow Hrid].
        apply Z.eqb_eq in Hrid.
        assert (c = row) by (apply (same_id_same_connection (connections (db w)));
                             congruence).
        subst c. unfold accepted_row in Hacc. simpl in Hacc. exact Hacc.
      * exfalso. assert (Hx : existsb (accepted_row a b) (connections (db w)) = true)
          by (apply existsb_exists; exists c; auto).
        congruence.
    + apply existsb_filter_sub in Hnew. congruence.
  - pose proof (@remove_table u connection_id name w) as Ht. cbv zeta in Ht.
    unfold login_required in Ht. cbn [s_user_id] in Ht.
    destruct Ht as [Heq | [Heq _]]; rewrite Heq in Hnew.
    + congruence.
    + apply existsb_filter_sub in Hnew. congruence.
  - pose proof (@cancel_table u connection_id name referrer w) as Ht. cbv zeta in Ht.
    unfold login_required in Ht. cbn [s_user_id] in Ht.
    destruct Ht as [Heq | [Heq _]]; rewrite Heq in Hnew.
    + congruence.
    + apply existsb_filter_sub in Hnew. congruence.
Qed.

(* ------------------------------------------------------------------ *)
(** ** The connection status shown on a profile *)

Lemma between_sym (a b s r : Z) : between a b s r = between b a s r.
Proof. unfold between. apply orb_comm. Qed.

Lemma status_rows_sym (u v : Z) (w : world) :
  rows_of (ConnectionViews.select_status_between v u) w
  = rows_of (ConnectionViews.select_status_between u v) w.
Proof.
  unfold rows_of. simpl. apply filter_ext. intros c. apply between_sym.
Qed.

Lemma status_rows_between (u v : Z) (w : world) (row : connection) (rest : list connection) :
  rows_of (ConnectionViews.select_status_between u v) w = row :: rest ->
  In row (connections (db w))
  /\ between u v (c_sender_id row) (c_receiver_id row) = true.
Proof.
  unfold rows_of. simpl. intros H.
  assert (Hin : In row (filter (fun c => between u v (c_sender_id c) (c_receiver_id c))
                               (connections (db w))))
    by (rewrite H; left; reflexivity).
  apply filter_In in Hin. exact Hin.
Qed.

(** X7.  [get_connection_status] answers None without a query when nobody
    is logged in, for the user id 0 and for one's own profile.  For two users
    (ids not 0) and the same database, what one sees is the mirror of what
    the other sees: 'pending_sent' against 'pending_received', 'accepted'
    against 'accepted', None against None.  And 'accepted' is only shown when
    an accepted connection joins the two, that is when the chat is open to
    them. *)
Theorem connection_status_mirrored :
  forall (u v : Z) (w : world),
    ConnectionViews.get_connection_status None v w = (Ret None, w)
    /\ ConnectionViews.get_connection_status (Some 0) v w = (Ret None, w)
    /\ ConnectionViews.get_connection_status (Some v) v w = (Ret None, w)
    /\ (u <> 0 -> v <> 0 ->
        fst (ConnectionViews.get_connection_status (Some v) u w)
        = match fst (ConnectionViews.get_connection_status (Some u) v w) with
          | Ret st => Ret (mirror_status st)
          | Raise => Raise
          end)
    /\ (fst (ConnectionViews.get_connection_status (Some u) v w) = Ret (Some "accepted") ->
        accepted_between (db w) u v).
Proof.
  intros u v w. refine (conj eq_refl (conj eq_refl (conj _ (conj _ _)))).
  - unfold ConnectionViews.get_connection_status. rewrite Z.eqb_refl, orb_true_r.
    reflexivity.
  - intros Hu Hv. unfold ConnectionViews.get_connection_status.
    apply Z.eqb_neq in Hu as Eu. apply Z.eqb_neq in Hv as Ev. rewrite Eu, Ev. simpl.
    destruct (u =? v) eqn:Euv.
    + rewrite Z.eqb_sym, Euv. reflexivity.
    + rewrite (Z.eqb_sym v u), Euv.
      rewrite !bind_run, !execute_fetch_one.
      unfold fetched_one. rewrite status_rows_sym.
      destruct (next_fault w); simpl; try reflexivity;
        destruct (rows_of (ConnectionViews.select_status_between u v) w)
          as [|row rest] eqn:Erows; simpl; try reflexivity;
        destruct (status_rows_between u v w Erows) as [_ Hb];
        (destruct (c_status row =? "accepted")%string; [reflexivity|]);
        (destruct (c_status row =? "pending")%string; [|reflexivity]);
        apply between_spec in Hb; apply Z.eqb_neq in Euv;
        destruct (c_sender_id row =? u) eqn:Es; destruct (c_sender_id row =? v) eqn:Es';
        try reflexivity;
        rewrite ?Z.eqb_eq, ?Z.eqb_neq in *; exfalso; destruct Hb as [[? ?] | [? ?]];
        congruence.
  - unfold ConnectionViews.get_connection_status.
    destruct ((u =? 0) || (u =? v)); [discriminate|].
    rewrite bind_run, execute_fetch_one.
    destruct (fetched_one_cases (ConnectionViews.select_status_between u v) w)
      as [[E _] | [[E _] | (row & rest & E & Hrows & _)]]; rewrite E; simpl;
      try discriminate.
    destruct (status_rows_between u v w Hrows) as [Hin Hb].
    destruct (c_status row =? "accepted")%string eqn:Ea.
    + intros _. exists row. apply String.eqb_eq in Ea. apply between_spec in Hb. auto.
    + destruct (c_status row =? "pending")%string; [|discriminate].
      destruct (c_sender_id row =? u); discriminate.
Qed.

(* ------------------------------------------------------------------ *)
(** ** What the chat pages show *)

Lemma In_insert_by A (le : A -> A -> bool) (x y : A) (l : list A) :
  In y (insert_by le x l) <-> y = x \/ In y l.
Proof.
  induction l as [|z l IH]; simpl.
  - intuition.
  - destruct (le x z); simpl; [intuition|]. rewrite IH. intuition.
Qed.

Lemma In_order_by A (le : A -> A -> bool) (y : A) (l : list A) :
  In y (order_by le l) <-> In y l.
Proof.
  unfold order_by. induction l as [|x l IH]; simpl; [tauto|].
  rewrite In_insert_by, IH. intuition.
Qed.

Lemma connected_users_accepted (u : Z) (w : world) (cu : connected_user) :
  In cu (rows_of (Chat.select_connected_users u) w) ->
  accepted_between (db w) u (cu_user_id cu).
Proof.
  unfold rows_of. simpl. rewrite In_order_by.
  rewrite in_flat_map. intros (c & Hc & H).
  apply in_flat_map in H. destruct H as (u1 & _ & H).
  apply in_flat_map in H. destruct H as (u2 & _ & H).
  destruct ((c_sender_id c =? u_id u1) && (c_receiver_id c =? u_id u2)
            && (c_status c =? "accepted")%string
            && ((c_sender_id c =? u) || (c_receiver_id c =? u))) eqn:E; [|destruct H].
  apply andb_true_iff in E. destruct E as [E Hinv].
  apply andb_true_iff in E. destruct E as [_ Hst].
  apply String.eqb_eq in Hst.
  exists c. split; [exact Hc | split; [exact Hst|]].
  destruct (c_sender_id c =? u) eqn:Es; destruct H as [<- | []]; simpl.
  - apply Z.eqb_eq in Es. left. auto.
  - simpl in Hinv. apply Z.eqb_eq in Hinv. right. auto.
Qed.

Lemma chat_list_loop_partners (u : Z) (cus : list connected_user) (w w' : world)
      (l : list conversation_entry) :
  Chat.chat_list_loop u cus w = (Ret l, w') ->
  map ce_user_id l = map cu_user_id cus /\ db w' = db w.
Proof.
  revert w w' l. induction cus as [|cu cus IH]; intros w w' l E; simpl in E.
  - inversion E; subst. auto.
  - rewrite bind_run, execute_fetch_one in E.
    destruct (fetched_one (Chat.select_last_message u (cu_user_id cu)) w) as [a|];
      [|discriminate].
    simpl in E. rewrite bind_run, execute_fetch_one in E.
    match type of E with
    | context [fetched_one ?q ?w0] => destruct (fetched_one q w0) as [n|]; [|discriminate]
    end.
    simpl in E. rewrite bind_run in E.
    match type of E with
    | context [Chat.chat_list_loop u cus ?w0] =>
        destruct (Chat.chat_list_loop u cus w0) as [[tail|] w1] eqn:El; [|discriminate];
        apply IH in El; destruct El as [Hmap Hdb]
    end.
    simpl in E. inversion E; subst. simpl. rewrite Hmap. auto.
Qed.

(** X8.  [chat_list] only ever lists partners with whom the user has an
    accepted connection (the very pairs [conversation] and [send_message]
    let through), whatever the driver does, and it changes nothing in the
    database. *)
Theorem chat_list_shows_connections :
  forall (u : Z) (name : option string) (w : world) (convs : list conversation_entry),
    let s := mkSession (Some u) name in
    fst (login_required s (Chat.chat_list s) w) = Ret (Render (ChatListPage convs)) ->
    Forall (fun e => accepted_between (db w) u (ce_user_id e)) convs
    /\ db (snd (login_required s (Chat.chat_list s) w)) = db w.
Proof.
  intros u name w convs s H.
  destruct (login_required s (Chat.chat_list s) w) as [r w'] eqn:E. subst s.
  simpl in H. subst r.
  unfold login_required, Chat.chat_list, Chat.get_connected_users in E. run_in E.
  rewrite execute_fetch_all in E.
  destruct (fetched_all_cases (Chat.select_connected_users u) w)
    as [[F _] | [[F _] | [F _]]]; rewrite F in E; clear F; run_in E.
  - discriminate.
  - unfold Chat.sort_conversations in E. simpl in E. inversion E; subst. auto.
  - match type of E with
    | context [Chat.chat_list_loop u ?cus ?w0] =>
        destruct (Chat.chat_list_loop u cus w0) as [[l|] w1] eqn:El; [|discriminate];
        apply chat_list_loop_partners in El; destruct El as [Hmap Hdb]
    end.
    run_in E. unfold Chat.sort_conversations in E.
    destruct (existsb Chat.has_last_message l
              && existsb (fun e => negb (Chat.has_last_message e)) l); [discriminate|].
    inversion E; subst. split; [|exact Hdb].
    apply Forall_forall. intros e He. apply In_order_by in He.
    assert (Hid : In (ce_user_id e) (map cu_user_id
                                        (rows_of (Chat.select_connected_users u) w)))
      by (rewrite <- Hmap; apply in_map; exact He).
    apply in_map_iff in Hid. destruct Hid as (cu & Hcu & Hin). rewrite <- Hcu.
    apply connected_users_accepted. exact Hin.
Qed.

Lemma conversation_rows (u p : Z) (w : world) (mv : message_view) :
  In mv (rows_of (Chat.select_conversation u p) w) <-> shown_between (db w) u p mv.
Proof.
  unfold rows_of, shown_between. simpl. rewrite In_order_by, in_flat_map. split.
  - intros (m & Hm & H). apply in_flat_map in H. destruct H as (usr & Hu & H).
    destruct ((m_sender_id m =? u_id usr)
              && between u p (m_sender_id m) (m_receiver_id m)) eqn:E; [|destruct H].
    destruct H as [<- | []]. apply andb_true_iff in E. destruct E as [Hs Hb].
    apply Z.eqb_eq in Hs. apply between_spec in Hb.
    exists m, usr. auto.
  - intros (m & usr & Hm & Hu & Hid & -> & Hb).
    exists m. split; [exact Hm|]. apply in_flat_map. exists usr. split; [exact Hu|].
    rewrite Hid, Z.eqb_refl. simpl.
    apply between_spec in Hb. rewrite Hb. left. reflexivity.
Qed.

(** X9.  A conversation page shows the partner that was asked for and, as
    messages, only stored messages exchanged between the user and that
    partner: never a message of another pair, whatever the driver does. *)
Theorem conversation_shows_only_the_pair :
  forall (u p : Z) (name : option string) (w : world)
         (partner : user) (msgs : list message_view) (current : Z),
    let s := mkSession (Some u) name in
    fst (login_required s (Chat.conversation s p) w)
    = Ret (Render (ConversationPage partner msgs current)) ->
    current = u /\ u_id partner = p /\ In partner (users (db w))
    /\ accepted_between (db w) u p
    /\ Forall (shown_between (db w) u p) msgs.
Proof.
  intros u p name w partner msgs current s H.
  destruct (login_required s (Chat.conversation s p) w) as [r w'] eqn:E. subst s.
  simpl in H. subst r.
  unfold login_required, Chat.conversation, Chat.is_connected in E. run_in E.
  destruct (p =? u) eqn:Epu; run_in E; [discriminate|].
  rewrite execute_fetch_one in E. fetch_cases_in E; run_in E; try discriminate.
  assert (Hacc : accepted_between (db w) u p).
  { apply has_accepted_iff. destruct (has_accepted (db w) u p) eqn:Ea; [reflexivity|].
    apply accepted_rows in Ea. congruence. }
  rewrite execute_fetch_one in E. fetch_cases_in E; run_in E; try discriminate.
  rewrite rows_of_advance in H1. unfold rows_of in H1. simpl in H1.
  assert (Hp : In x1 (filter (fun usr => u_id usr =? p) (users (db w))))
    by (rewrite H1; left; reflexivity).
  apply filter_In in Hp. destruct Hp as [Hin Hid]. apply Z.eqb_eq in Hid.
  rewrite execute_fetch_all in E.
  match type of E with
  | context [fetched_all ?q ?w0] =>
      destruct (fetched_all_cases q w0) as [[F _] | [[F _] | [F _]]];
      rewrite F in E; clear F
  end; run_in E; try discriminate; inversion E; subst; clear E.
  - repeat split; auto.
  - repeat split; auto. apply Forall_forall. intros mv Hmv.
    rewrite !rows_of_advance in Hmv. apply conversation_rows. exact Hmv.
Qed.




Lemma quiet_fetch_all R (q : sql R) (w : world) :
  faults w = [] -> fetched_all q w = Ret (QRows (rows_of q w)).
Proof. unfold fetched_all, next_fault. intros ->. reflexivity. Qed.


(* ------------------------------------------------------------------ *)
(** ** Notification utilities *)

Lemma fresh_notification_more (u : Z) (user_ids : list Z) (message notification_type : string)
      (l : list notification) :
  Forall (fresh_notification user_ids message notification_type) l ->
  Forall (fresh_notification (u :: user_ids) message notification_type) l.
Proof.
  apply Forall_impl. intros n (H1 & H2 & H3 & H4). repeat split; auto. right. exact H4.
Qed.

Lemma bulk_loop_counts (user_ids : list Z) (message notification_type : string) :
  forall (count : Z) (w w' : world) (n : Z),
    NotificationUtils.bulk_loop count user_ids message notification_type w = (Ret n, w') ->
    exists added,
      notifications (db w') = (notifications (db w) ++ added)%list
      /\ n = count + Z.of_nat (List.length added)
      /\ (List.length added <= List.length user_ids)%nat
      /\ Forall (fresh_notification user_ids message notification_type) added.
Proof.
  induction user_ids as [|u ids IH]; intros count w w' n E; simpl in E.
  - inversion E; subst. exists []. rewrite app_nil_r. simpl.
    repeat split; auto. lia.
  - rewrite bind_run in E.
    pose proof (create_notification_row u message notification_type w) as Hrow.
    cbv zeta in Hrow.
    destruct (Notifications.create_notification u message notification_type w)
      as [res w1] eqn:Ec. simpl in Hrow.
    destruct Hrow as [(Hsame & _ & [-> | ->]) | (Hnew & _ & ->)].
    + simpl in E. apply IH in E. destruct E as (added & Hn & Hc & Hl & Hf).
      exists added. rewrite Hn, Hsame.
      refine (conj eq_refl (conj Hc (conj _ _))).
      * simpl. lia.
      * apply fresh_notification_more. exact Hf.
    + discriminate.
    + simpl in E. apply IH in E. destruct E as (added & Hn & Hc & Hl & Hf).
      exists (new_notification w u message notification_type :: added).
      rewrite Hn, Hnew, <- app_assoc.
      refine (conj eq_refl (conj _ (conj _ _))).
      * simpl List.length. lia.
      * simpl. lia.
      * constructor.
        -- unfold fresh_notification. simpl. auto.
        -- apply fresh_notification_more. exact Hf.
Qed.

Lemma create_notification_quiet (u : Z) (message notification_type : string) (w : world) :
  faults w = [] ->
  exists w1,
    Notifications.create_notification u message notification_type w
    = (Ret (QInt (notifications_seq (db w))), w1)
    /\ faults w1 = []
    /\ notifications (db w1)
       = (notifications (db w) ++ [new_notification w u message notification_type])%list.
Proof.
  intros Hf. unfold Notifications.create_notification. rewrite execute_commit.
  unfold next_fault. rewrite Hf. simpl. eexists. split; [reflexivity|].
  simpl. rewrite Hf. auto.
Qed.

Lemma bulk_loop_quiet (user_ids : list Z) (message notification_type : string) :
  forall (count : Z) (w : world),
    faults w = [] ->
    exists added w',
      NotificationUtils.bulk_loop count user_ids message notification_type w
      = (Ret (count + Z.of_nat (List.length user_ids)), w')
      /\ notifications (db w') = (notifications (db w) ++ added)%list
      /\ map n_user_id added = user_ids.
Proof.
  induction user_ids as [|u ids IH]; intros count w Hf; simpl NotificationUtils.bulk_loop.
  - exists [], w. rewrite app_nil_r, Z.add_0_r. auto.
  - rewrite bind_run.
    destruct (create_notification_quiet u message notification_type w Hf)
      as (w1 & -> & Hf1 & Hn1).
    simpl is_not_none. cbv iota.
    destruct (IH (count + 1) w1 Hf1) as (added & w' & -> & Hn & Hmap).
    exists (new_notification w u message notification_type :: added), w'.
    split; [f_equal; f_equal; simpl List.length; lia|].
    rewrite Hn, Hn1, <- app_assoc. simpl. rewrite Hmap. auto.
Qed.

(** X11.  [create_bulk_notifications] returns the number of notifications
    it actually stored: the table grows by exactly that many rows, at most
    one per user id, all unread and with the given message and type.  With a
    working driver that is one row per user id, in the order given. *)
Theorem bulk_notifications_counted :
  forall (user_ids : list Z) (message notification_type : string) (w : world),
    let out :=
      NotificationUtils.create_bulk_notifications user_ids message notification_type w in
    (forall n,
        fst out = Ret n ->
        exists added,
          notifications (db (snd out)) = (notifications (db w) ++ added)%list
          /\ n = Z.of_nat (List.length added)
          /\ (List.length added <= List.length user_ids)%nat
          /\ Forall (fresh_notification user_ids message notification_type) added)
    /\ (faults w = [] ->
        exists added,
          fst out = Ret (Z.of_nat (List.length user_ids))
          /\ notifications (db (snd out)) = (notifications (db w) ++ added)%list
          /\ map n_user_id added = user_ids).
Proof.
  intros user_ids message notification_type w out. subst out.
  unfold NotificationUtils.create_bulk_notifications. split.
  - intros n Hn.
    destruct (NotificationUtils.bulk_loop 0 user_ids message notification_type w)
      as [r w'] eqn:E.
    simpl in Hn. subst r. simpl.
    destruct (bulk_loop_counts _ _ _ _ _ E) as (added & H1 & H2 & H3 & H4).
    exists added. auto.
  - intros Hf.
    destruct (bulk_loop_quiet user_ids message notification_type 0 w Hf)
      as (added & w' & E & Hn & Hmap).
    rewrite E. simpl. exists added. auto.
Qed.

(* ------------------------------------------------------------------ *)
(** ** Notification routes *)

Lemma filter_map_elsewhere A (p c : A -> bool) (f : A -> A) (l : list A) :
  (forall x, c x = true -> p x = false /\ p (f x) = false) ->
  filter p (map (fun x => if c x then f x else x) l) = filter p l.
Proof.
  intros H. induction l as [|x l IH]; simpl; [reflexivity|].
  destruct (c x) eqn:E.
  - destruct (H x E) as [-> ->]. exact IH.
  - rewrite IH. reflexivity.
Qed.

Lemma filter_filter_elsewhere A (p c : A -> bool) (l : list A) :
  (forall x, c x = false -> p x = false) ->
  filter p (filter c l) = filter p l.
Proof.
  intros H. induction l as [|x l IH]; simpl; [reflexivity|].
  destruct (c x) eqn:E; simpl.
  - rewrite IH. reflexivity.
  - rewrite (H x E). exact IH.
Qed.

Lemma with_own_notifications (d : database) :
  d = with_notifications (notifications d) (notifications_seq d) d.
Proof. destruct d; reflexivity. Qed.

(** X12.  The notification routes write to the caller's rows only: whatever
    the request, the session and the driver do, the notifications of every
    other user are afterwards what they were, and no other table, nor the
    id sequence, has changed. *)
Theorem notification_routes_keep_other_rows :
  forall (s : session) (referrer : option string) (r : notification_request) (w : world),
    let w' := snd (notification_route s referrer r w) in
    db w' = with_notifications (notifications (db w')) (notifications_seq (db w)) (db w)
    /\ (forall u, s_user_id s <> Some u ->
                  notifications_of u (db w') = notifications_of u (db w)).
Proof.
  intros s referrer r w w'. subst w'.
  destruct (notification_route s referrer r w) as [res w'] eqn:E. simpl.
  unfold notification_route, login_required in E.
  destruct s as [[v|] name]; simpl in E.
  - assert (Hv : forall u, Some v <> Some u -> (u =? v) = false).
    { intros u Hu. apply Z.eqb_neq. congruence. }
    destruct r; unfold NotificationRoutes.mark_as_read, NotificationRoutes.mark_all_read,
      NotificationRoutes.delete_notification, NotificationRoutes.clear_all,
      NotificationUtils.mark_all_as_read in E;
      exec_in E;
      (split; [try apply with_own_notifications; reflexivity|]);
      intros u Hu; try reflexivity; apply Hv in Hu;
      unfold notifications_of, written; simpl.
    + apply filter_map_elsewhere. intros n Hn. simpl.
      apply andb_true_iff in Hn. destruct Hn as [_ Hn]. apply Z.eqb_eq in Hn.
      rewrite Hn, Z.eqb_sym. auto.
    + apply filter_map_elsewhere. intros n Hn. simpl.
      apply andb_true_iff in Hn. destruct Hn as [Hn _]. apply Z.eqb_eq in Hn.
      rewrite Hn, Z.eqb_sym. auto.
    + apply filter_filter_elsewhere. intros n Hn.
      apply negb_false_iff, andb_true_iff in Hn. destruct Hn as [_ Hn].
      apply Z.eqb_eq in Hn. rewrite Hn, Z.eqb_sym. exact Hu.
    + apply filter_filter_elsewhere. intros n Hn.
      apply negb_false_iff in Hn. apply Z.eqb_eq in Hn. rewrite Hn, Z.eqb_sym. exact Hu.
  - destruct r; exec_in E; (split; [apply with_own_notifications | reflexivity]).
Qed.

Lemma nothing_unread_after_read_all (u : Z) (l : list notification) :
  filter (fun n => (n_user_id n =? u) && negb (n_is_read n))
         (map (fun n => if (n_user_id n =? u) && negb (n_is_read n)
                        then NotificationUtils.read_row n else n) l)
  = [].
Proof.
  induction l as [|n l IH]; simpl; [reflexivity|].
  destruct ((n_user_id n =? u) && negb (n_is_read n)) eqn:E; simpl.
  - rewrite andb_false_r. exact IH.
  - rewrite E. exact IH.
Qed.

Lemma unread_count_answered (u : Z) (w : world) :
  answers (next_fault w) = true ->
  fst (NotificationUtils.get_unread_count u w)
  = Ret (Z.of_nat (List.length (unread_of u (db w)))).
Proof.
  intros H. unfold NotificationUtils.get_unread_count.
  rewrite bind_run, execute_fetch_one. unfold fetched_one.
  destruct (next_fault w); try discriminate; reflexivity.
Qed.

(** X13.  After [mark_all_read] with a working driver the navbar badge of
    the caller shows 0.  The success message does not depend on the update:
    it is flashed whenever the driver does not crash, also when the update
    failed and the rows are what they were. *)
Theorem mark_all_read_clears_the_badge :
  forall (s : session) (w : world),
    let out := login_required s (NotificationRoutes.mark_all_read s) w in
    (next_fault w = Up -> answers (fault_at 1 w) = true ->
     fst (NotificationRoutes.inject_notification_count s (snd out)) = Ret 0)
    /\ (forall u, s_user_id s = Some u -> next_fault w <> Crash ->
          fst out = Ret (RedirectTo "notifications.list_notifications" None)
          /\ flashes (snd out)
             = (flashes w ++ [("All notifications marked as read.", "success")])%list)
    /\ (next_fault w <> Up -> db (snd out) = db w).
Proof.
  intros s w out. destruct out as [res w'] eqn:E. subst out.
  unfold login_required, NotificationRoutes.mark_all_read,
    NotificationUtils.mark_all_as_read in E.
  destruct s as [[v|] name]; simpl in E.
  - refine (conj _ (conj _ _)).
    + intros Hup Hans. run_in E.
      rewrite execute_commit, Hup in E. simpl in E. inversion E; subst; clear E.
      unfold NotificationRoutes.inject_notification_count. cbn [snd s_user_id].
      rewrite unread_count_answered.
      * unfold unread_of, written. simpl. rewrite nothing_unread_after_read_all.
        reflexivity.
      * unfold next_fault, fault_at in *. simpl.
        destruct (faults w) as [|f0 [|f1 fs]]; simpl in *; auto.
    + intros u _ Hc. exec_in E; try congruence; auto.
    + intros Hc. exec_in E; try congruence; reflexivity.
  - inversion E; subst; clear E. simpl. refine (conj _ (conj _ _)).
    + reflexivity.
    + intros u Hu. discriminate.
    + reflexivity.
Qed.

Lemma insert_by_sorted A (le : A -> A -> bool) (x : A) (l : list A) :
  (forall a b, le a b = true \/ le b a = true) ->
  (forall a b c, le a b = true -> le b c = true -> le a c = true) ->
  StronglySorted (fun a b => le a b = true) l ->
  StronglySorted (fun a b => le a b = true) (insert_by le x l).
Proof.
  intros total trans. induction 1 as [|y t Hs IH Hy]; simpl.
  - constructor; constructor.
  - destruct (le x y) eqn:E.
    + constructor; [constructor; assumption|].
      constructor; [exact E|].
      rewrite Forall_forall in *. intros z Hz. apply trans with y; auto.
    + constructor; [exact IH|].
      rewrite Forall_forall in *. intros z Hz. apply In_insert_by in Hz.
      destruct Hz as [-> | Hz]; [|auto].
      destruct (total x y) as [H | H]; congruence.
Qed.

Lemma order_by_sorted A (le : A -> A -> bool) (l : list A) :
  (forall a b, le a b = true \/ le b a = true) ->
  (forall a b c, le a b = true -> le b c = true -> le a c = true) ->
  StronglySorted (fun a b => le a b = true) (order_by le l).
Proof.
  intros total trans. unfold order_by. induction l as [|x l IH]; simpl.
  - constructor.
  - apply insert_by_sorted; assumption.
Qed.

Lemma sorted_map A B (f : A -> B) (R : B -> B -> Prop) (l : list A) :
  StronglySorted (fun a b => R (f a) (f b)) l -> StronglySorted R (map f l).
Proof.
  induction 1 as [|x l Hs IH Hx]; simpl; constructor; [exact IH|].
  rewrite Forall_forall in *. intros y Hy. apply in_map_iff in Hy.
  destruct Hy as (a & <- & Ha). auto.
Qed.

Lemma sorted_impl A (R R' : A -> A -> Prop) (l : list A) :
  (forall a b, R a b -> R' a b) -> StronglySorted R l -> StronglySorted R' l.
Proof.
  intros H. induction 1 as [|x l Hs IH Hx]; constructor; [exact IH|].
  revert Hx. apply Forall_impl. intros b. apply H.
Qed.

Lemma count_insert_by A (le : A -> A -> bool) (p : A -> bool) (x : A) (l : list A) :
  List.length (filter p (insert_by le x l)) = List.length (filter p (x :: l)).
Proof.
  induction l as [|y l IH]; simpl; [reflexivity|].
  destruct (le x y); simpl; [reflexivity|].
  simpl in IH. destruct (p y); simpl; rewrite IH; destruct (p x); reflexivity.
Qed.

Lemma count_order_by A (le : A -> A -> bool) (p : A -> bool) (l : list A) :
  List.length (filter p (order_by le l)) = List.length (filter p l).
Proof.
  unfold order_by. induction l as [|x l IH]; simpl; [reflexivity|].
  rewrite count_insert_by. simpl. destruct (p x); simpl; rewrite IH; reflexivity.
Qed.

Lemma length_order_by A (le : A -> A -> bool) (l : list A) :
  List.length (order_by le l) = List.length l.
Proof.
  assert (H : forall l' : list A, filter (fun _ => true) l' = l').
  { induction l' as [|x l' IH]; simpl; [|rewrite IH]; reflexivity. }
  pose proof (count_order_by le (fun _ => true) l) as E.
  rewrite !H in E. exact E.
Qed.

Lemma count_map A B (f : A -> B) (p : B -> bool) (l : list A) :
  List.length (filter p (map f l)) = List.length (filter (fun x => p (f x)) l).
Proof.
  induction l as [|x l IH]; simpl; [reflexivity|].
  destruct (p (f x)); simpl; rewrite IH; reflexivity.
Qed.

Lemma count_filter A (p q : A -> bool) (l : list A) :
  List.length (filter q (filter p l)) = List.length (filter (fun x => p x && q x) l).
Proof.
  induction l as [|x l IH]; simpl; [reflexivity|].
  destruct (p x); simpl; [destruct (q x); simpl; rewrite IH|]; auto.
Qed.

Lemma len_if_rows A (p : A -> bool) (rows : list A) :
  (if negb (List.length rows =? 0)%nat then Z.of_nat (List.length (filter p rows)) else 0)
  = Z.of_nat (List.length (filter p rows)).
Proof. destruct rows; reflexivity. Qed.

Lemma listed_rows (u : Z) (w : world) :
  rows_of (NotificationRoutes.select_for_user u) w
  = map item_of (order_by (fun x y => n_created_at y <=? n_created_at x)
                          (notifications_of u (db w))).
Proof. reflexivity. Qed.

Lemma list_notifications_page (u : Z) (name : option string) (w : world) :
  answers (next_fault w) = true ->
  NotificationRoutes.list_notifications (mkSession (Some u) name) w
  = (Ret (NotificationRoutes.mkList
            (rows_of (NotificationRoutes.select_for_user u) w)
            (Z.of_nat (List.length (notifications_of u (db w))))
            (Z.of_nat (List.length (unread_of u (db w))))),
     advance (NotificationRoutes.select_for_user u) w).
Proof.
  intros H. unfold NotificationRoutes.list_notifications.
  rewrite bind_run. unfold session_user_id. cbn [s_user_id].
  rewrite bind_run, execute_fetch_all.
  destruct (fetched_all_cases (NotificationRoutes.select_for_user u) w)
    as [[_ F] | [[_ F] | [-> _]]]; [rewrite F in H; discriminate ..|].
  cbv iota beta. unfold ret, truthy, rows_or_nil. f_equal. f_equal. f_equal.
  - pose proof (len_if_rows (fun _ => true)
                  (rows_of (NotificationRoutes.select_for_user u) w)) as E.
    assert (T : forall B (l : list B), filter (fun _ => true) l = l).
    { induction l as [|x l IH]; simpl; [|rewrite IH]; reflexivity. }
    rewrite T in E. rewrite E, listed_rows, length_map, length_order_by. reflexivity.
  - rewrite len_if_rows, listed_rows, count_map, count_order_by.
    unfold notifications_of. rewrite count_filter. reflexivity.
Qed.

(** X14.  The notification page shows the caller's notifications and
    nothing else, newest first; its total is their number, and its unread
    count is the number the navbar badge shows for the same database. *)
Theorem list_notifications_agrees_with_badge :
  forall (s : session) (u : Z) (w : world),
    s_user_id s = Some u -> answers (next_fault w) = true ->
    exists page,
      fst (NotificationRoutes.list_notifications s w) = Ret page
      /\ db (snd (NotificationRoutes.list_notifications s w)) = db w
      /\ (forall item,
             In item (NotificationRoutes.nl_notifications page)
             <-> exists n, In n (notifications (db w)) /\ n_user_id n = u
                           /\ item = item_of n)
      /\ StronglySorted
           (fun a b => NotificationRoutes.ni_created_at b <= NotificationRoutes.ni_created_at a)
           (NotificationRoutes.nl_notifications page)
      /\ NotificationRoutes.nl_total_count page
         = Z.of_nat (List.length (NotificationRoutes.nl_notifications page))
      /\ fst (NotificationRoutes.inject_notification_count s w)
         = Ret (NotificationRoutes.nl_unread_count page).
Proof.
  intros [v name] u w Hs Hans. simpl in Hs. subst v.
  rewrite (list_notifications_page u name w Hans).
  eexists. split; [reflexivity|]. simpl.
  refine (conj eq_refl (conj _ (conj _ (conj _ _)))).
  - intros item. rewrite listed_rows, in_map_iff. split.
    + intros (n & <- & Hn). apply In_order_by in Hn.
      unfold notifications_of in Hn. apply filter_In in Hn. destruct Hn as [Hn Hu].
      apply Z.eqb_eq in Hu. eauto.
    + intros (n & Hn & Hu & ->). exists n. split; [reflexivity|].
      apply In_order_by. unfold notifications_of. apply filter_In.
      split; [exact Hn | apply Z.eqb_eq; exact Hu].
  - rewrite listed_rows. apply sorted_map.
    apply sorted_impl with (R := fun a b => (n_created_at b <=? n_created_at a) = true).
    + intros a b H. apply Z.leb_le in H. exact H.
    + apply order_by_sorted.
      * intros a b. rewrite !Z.leb_le. lia.
      * intros a b c. rewrite !Z.leb_le. lia.
  - rewrite listed_rows, length_map, length_order_by. reflexivity.
  - apply unread_count_answered. exact Hans.
Qed.

Lemma listed_after_write (u : Z) (name : option string) (q : sql unit) (w : world) :
  answers (fault_at 1 w) = true ->
  let w1 := set_db (written q w) (advance q w) in
  forall (fl : list (string * string)),
    let w2 := mkWorld (db w1) (faults w1) fl (issued w1) (resumes w1) (clock w1) in
    fst (NotificationRoutes.list_notifications (mkSession (Some u) name) w2)
    = Ret (NotificationRoutes.mkList
             (map item_of (order_by (fun x y => n_created_at y <=? n_created_at x)
                                    (notifications_of u (written q w))))
             (Z.of_nat (List.length (notifications_of u (written q w))))
             (Z.of_nat (List.length (unread_of u (written q w))))).
Proof.
  intros Hans w1 fl w2. rewrite list_notifications_page; [reflexivity|].
  subst w2 w1. unfold next_fault, fault_at in *. simpl.
  destruct (faults w) as [|f0 [|f1 fs]]; simpl in *; auto.
Qed.

(** X15.  What was deleted is no longer listed.  After a
    [delete_notification] that went through, the caller's page shows the
    notifications it showed before except the one with that id; after
    [clear_all] it shows none, and both counts are 0. *)
Theorem deleted_notifications_are_not_listed :
  forall (s : session) (u notification_id : Z) (referrer : option string) (w : world),
    s_user_id s = Some u -> next_fault w = Up -> answers (fault_at 1 w) = true ->
    let deleted :=
      snd (login_required s
             (NotificationRoutes.delete_notification s referrer notification_id) w) in
    let cleared := snd (login_required s (NotificationRoutes.clear_all s) w) in
    (exists page,
        fst (NotificationRoutes.list_notifications s deleted) = Ret page
        /\ forall item,
            In item (NotificationRoutes.nl_notifications page)
            <-> exists n, In n (notifications (db w)) /\ n_user_id n = u
                          /\ n_id n <> notification_id /\ item = item_of n)
    /\ fst (NotificationRoutes.list_notifications s cleared)
       = Ret (NotificationRoutes.mkList [] 0 0).
Proof.
  intros [v name] u notification_id referrer w Hs Hup Hans deleted cleared.
  simpl in Hs. subst v. subst deleted cleared.
  unfold login_required, NotificationRoutes.delete_notification,
    NotificationRoutes.clear_all. cbn [s_user_id].
  rewrite !bind_run. unfold session_user_id. cbn [s_user_id].
  rewrite !bind_run, !execute_commit, Hup. cbn [snd fst flash bind ret].
  split.
  - eexists. split.
    + apply (listed_after_write u name
               (NotificationRoutes.delete_one notification_id u) w Hans).
    + intros item. cbn [NotificationRoutes.nl_notifications].
      rewrite in_map_iff. split.
      * intros (n & <- & Hn). apply In_order_by in Hn.
        unfold notifications_of, written in Hn. simpl in Hn.
        apply filter_In in Hn. destruct Hn as [Hn Hu].
        apply filter_In in Hn. destruct Hn as [Hn Hid].
        apply Z.eqb_eq in Hu. rewrite Hu, Z.eqb_refl, andb_true_r in Hid.
        apply negb_true_iff, Z.eqb_neq in Hid. exists n. auto.
      * intros (n & Hn & Hu & Hid & ->). exists n. split; [reflexivity|].
        apply In_order_by. unfold notifications_of, written. simpl.
        apply filter_In. split; [|apply Z.eqb_eq; exact Hu].
        apply filter_In. split; [exact Hn|].
        apply Z.eqb_neq in Hid. rewrite Hid. reflexivity.
  - rewrite (listed_after_write u name (NotificationRoutes.delete_all u) w Hans).
    assert (E : notifications_of u (written (NotificationRoutes.delete_all u) w) = []).
    { unfold notifications_of, written. simpl.
      induction (notifications (db w)) as [|n l IH]; simpl; [reflexivity|].
      destruct (n_user_id n =? u) eqn:En; simpl; [exact IH|].
      rewrite En. exact IH. }
    assert (E' : unread_of u (written (NotificationRoutes.delete_all u) w) = []).
    { unfold unread_of, written. simpl.
      induction (notifications (db w)) as [|n l IH]; simpl; [reflexivity|].
      destruct (n_user_id n =? u) eqn:En; simpl; [exact IH|].
      rewrite En. exact IH. }
    rewrite E, E'. reflexivity.
Qed.

(* ------------------------------------------------------------------ *)
(** ** The incoming requests page *)

Lemma request_row_of (d : database) (c : connection) :
  NoDup (map c_id (connections d)) -> In c (connections d) ->
  request_row d (c_id c) = Some c.
Proof.
  intros Hnd Hc. unfold request_row.
  destruct (find (fun c' => c_id c' =? c_id c) (connections d)) as [c'|] eqn:E.
  - apply find_some in E. destruct E as [Hc' Hid]. apply Z.eqb_eq in Hid.
    f_equal. apply (same_id_same_connection (connections d)); assumption.
  - apply find_none with (x := c) in E; [|exact Hc].
    rewrite Z.eqb_refl in E. discriminate.
Qed.

Lemma incoming_rows (u : Z) (w : world) (item : ConnectionViews.request_item) :
  In item (rows_of (ConnectionViews.select_incoming u) w)
  <-> exists c sender,
        In c (connections (db w)) /\ In sender (users (db w))
        /\ u_id sender = c_sender_id c
        /\ c_receiver_id c = u /\ c_status c = "pending"
        /\ item = ConnectionViews.mkRequest (c_id c) (c_sender_id c) (c_created_at c)
                    (u_full_name sender) (u_profile_pic sender).
Proof.
  unfold rows_of. simpl. rewrite In_order_by, in_flat_map. split.
  - intros (c & Hc & H). apply in_flat_map in H. destruct H as (sender & Hs & H).
    destruct ((c_sender_id c =? u_id sender) && (c_receiver_id c =? u)
              && (c_status c =? "pending")%string) eqn:E; [|destruct H].
    apply andb_true_iff in E. destruct E as [E Hst].
    apply andb_true_iff in E. destruct E as [Hsnd Hrcv].
    apply Z.eqb_eq in Hsnd, Hrcv. apply String.eqb_eq in Hst.
    destruct H as [<- | []]. exists c, sender. auto 8.
  - intros (c & sender & Hc & Hs & Hsnd & Hrcv & Hst & ->).
    exists c. split; [exact Hc|]. apply in_flat_map. exists sender.
    split; [exact Hs|].
    rewrite Hsnd, Hrcv, Hst, !Z.eqb_refl, String.eqb_refl. simpl. auto.
Qed.

(** X16.  The requests page lists exactly the pending requests addressed to
    the caller whose sender is in the users table, with the sender's name
    and picture, and leaves the database alone.  With unique connection ids,
    every listed request is one [respond_request] lets the caller accept or
    reject. *)
Theorem incoming_requests_can_be_answered :
  forall (s : session) (u : Z) (w : world),
    s_user_id s = Some u ->
    answers (next_fault w) = true -> answers (fault_at 1 w) = true ->
    exists page,
      fst (ConnectionViews.incoming_requests s w) = Ret page
      /\ db (snd (ConnectionViews.incoming_requests s w)) = db w
      /\ (forall item,
             In item (ConnectionViews.rp_requests page)
             <-> exists c sender,
                   In c (connections (db w)) /\ In sender (users (db w))
                   /\ u_id sender = c_sender_id c
                   /\ c_receiver_id c = u /\ c_status c = "pending"
                   /\ item = ConnectionViews.mkRequest
                               (c_id c) (c_sender_id c) (c_created_at c)
                               (u_full_name sender) (u_profile_pic sender))
      /\ (NoDup (map c_id (connections (db w))) ->
          forall item,
            In item (ConnectionViews.rp_requests page) ->
            may_respond (db w) u (ConnectionViews.rq_id item) "accept" = true
            /\ may_respond (db w) u (ConnectionViews.rq_id item) "reject" = true)
      /\ ConnectionViews.rp_sent_pending_count page
         = Z.of_nat (List.length
                       (filter (fun c => (c_sender_id c =? u)
                                         && (c_status c =? "pending")%string)
                               (connections (db w)))).
Proof.
  intros [v name] u w Hs H0 H1. simpl in Hs. subst v.
  unfold ConnectionViews.incoming_requests.
  rewrite bind_run. unfold session_user_id. cbn [s_user_id].
  rewrite bind_run, execute_fetch_all.
  destruct (fetched_all_cases (ConnectionViews.select_incoming u) w)
    as [[_ F] | [[_ F] | [-> _]]]; [rewrite F in H0; discriminate ..|].
  rewrite bind_run, execute_fetch_one. unfold fetched_one.
  assert (Hn : answers (next_fault (advance (ConnectionViews.select_incoming u) w)) = true).
  { unfold next_fault, fault_at in *. simpl.
    destruct (faults w) as [|f0 [|f1 fs]]; simpl in *; auto. }
  destruct (next_fault (advance (ConnectionViews.select_incoming u) w));
    try discriminate;
    (eexists; split; [reflexivity|]; split; [reflexivity|];
     cbn [fst snd ConnectionViews.rp_requests ConnectionViews.rp_sent_pending_count
          rows_or_nil];
     split; [intros item; apply incoming_rows|];
     split; [|reflexivity];
     intros Hnd item Hitem; apply incoming_rows in Hitem;
     destruct Hitem as (c & sender & Hc & _ & _ & Hrcv & Hst & ->);
     cbn [ConnectionViews.rq_id]; unfold may_respond;
     rewrite (request_row_of (db w) c Hnd Hc), Hrcv, Hst, Z.eqb_refl;
     split; reflexivity).
Qed.

(* ------------------------------------------------------------------ *)
(** ** The event page and [register] *)

Lemma quiet_one R (q : sql R) (fetch_all commit : bool) (w : world) :
  faults w = [] ->
  execute_query q true fetch_all commit w = (Ret (fetchone (rows_of q w)), advance q w).
Proof.
  intros Hf. rewrite execute_fetch_one. unfold fetched_one, next_fault.
  rewrite Hf. reflexivity.
Qed.

Lemma quiet_all R (q : sql R) (commit : bool) (w : world) :
  faults w = [] ->
  execute_query q false true commit w = (Ret (QRows (rows_of q w)), advance q w).
Proof. intros Hf. rewrite execute_fetch_all, quiet_fetch_all; auto. Qed.

Lemma advance_quiet R (q : sql R) (w : world) :
  faults w = [] -> faults (advance q w) = [].
Proof. intros Hf. simpl. rewrite Hf. reflexivity. Qed.




(* ------------------------------------------------------------------ *)
(** ** Deleting events and jobs *)

Lemma admin_turned_away (s : Admin.admin_session) (f : M response) (w : world) :
  is_admin s = false ->
  let out := Admin.admin_required s f w in
  fst out = Ret (turned_away s) /\ db (snd out) = db w /\ issued (snd out) = issued w
  /\ faults (snd out) = faults w.
Proof.
  unfold is_admin, turned_away, Admin.admin_required. intros H.
  destruct (Admin.as_user_id s) as [v|]; [|simpl; auto].
  destruct (Admin.as_role s) as [role|]; [rewrite H|]; simpl; auto.
Qed.

Lemma admin_let_in (s : Admin.admin_session) (f : M response) (w : world) :
  is_admin s = true ->
  Admin.admin_required s f w = (r <- f ;; ret (Admin.Served r)) w.
Proof.
  unfold is_admin, Admin.admin_required. intros H.
  destruct (Admin.as_user_id s) as [v|]; [|discriminate].
  destruct (Admin.as_role s) as [role|]; [|discriminate].
  rewrite H. reflexivity.
Qed.

Lemma register_not_found (u id : Z) (name : option string) (w : world) :
  let s := mkSession (Some u) name in
  let out := login_required s (Events.register s id) w in
  event_row (db w) id = None -> next_fault w <> Crash ->
  fst out = Ret (RedirectTo "events.list_events" None)
  /\ db (snd out) = db w
  /\ flashes (snd out) = (flashes w ++ [("Event not found.", "danger")])%list.
Proof.
  intros s out Hnone Hc. destruct out as [r w'] eqn:E. subst out s.
  unfold login_required, Events.register in E. run_in E.
  rewrite execute_fetch_one in E. fetch_cases_in E; run_in E.
  - contradiction.
  - inversion E; subst; simpl. auto.
  - apply event_rows in H. congruence.
Qed.

Lemma find_removed A (p : A -> bool) (l : list A) :
  find p (filter (fun x => negb (p x)) l) = None.
Proof.
  induction l as [|x l IH]; simpl; [reflexivity|].
  destruct (p x) eqn:E; simpl; [exact IH | rewrite E; exact IH].
Qed.

Lemma none_left A (p : A -> bool) (l : list A) :
  filter p (filter (fun x => negb (p x)) l) = [].
Proof.
  induction l as [|x l IH]; simpl; [reflexivity|].
  destruct (p x) eqn:E; simpl; [exact IH | rewrite E; exact IH].
Qed.

(** X18.  [delete_event] is for admins only: anybody else is turned away
    (to the login page, or with 403) before any statement is sent.  For an
    admin it deletes nothing but the event with that id and the
    registrations for it, whatever the driver does; with a working driver
    both are gone, and a later [register] for that id is answered "Event not
    found." *)
Theorem delete_event_guarded :
  forall (s : Admin.admin_session) (event_id : Z) (w : world),
    let out := Admin.admin_required s (Admin.delete_event event_id) w in
    (is_admin s = false ->
     fst out = Ret (turned_away s) /\ db (snd out) = db w /\ issued (snd out) = issued w)
    /\ (forall e, In e (events (db w)) -> e_id e <> event_id ->
                  In e (events (db (snd out))))
    /\ (forall r, In r (event_registrations (db w)) -> r_event_id r <> event_id ->
                  In r (event_registrations (db (snd out))))
    /\ (forall e, In e (events (db (snd out))) -> In e (events (db w)))
    /\ (forall r, In r (event_registrations (db (snd out))) ->
                  In r (event_registrations (db w)))
    /\ (is_admin s = true -> faults w = [] ->
        fst out = Ret (Admin.Served (RedirectTo "admin.list_events" None))
        /\ event_row (db (snd out)) event_id = None
        /\ registration_count (db (snd out)) event_id = 0
        /\ forall (u : Z) (name : option string),
            let s' := mkSession (Some u) name in
            let later := login_required s' (Events.register s' event_id) (snd out) in
            fst later = Ret (RedirectTo "events.list_events" None)
            /\ db (snd later) = db (snd out)
            /\ flashes (snd later)
               = (flashes (snd out) ++ [("Event not found.", "danger")])%list).
Proof.
  intros s event_id w out.
  destruct (is_admin s) eqn:Ha.
  - subst out. rewrite (admin_let_in s _ w Ha).
    destruct ((r <- Admin.delete_event event_id;; ret (Admin.Served r)) w)
      as [res w'] eqn:E.
    unfold Admin.delete_event in E. simpl.
    assert (Hne : forall x, x <> event_id -> negb (x =? event_id) = true).
    { intros x Hx. apply negb_true_iff, Z.eqb_neq. exact Hx. }
    refine (conj _ (conj _ (conj _ (conj _ (conj _ _))))).
    + discriminate.
    + intros e He Hid. exec_in E; unfold written; simpl;
        try exact He; apply filter_In; auto.
    + intros r Hr Hid. exec_in E; unfold written; simpl;
        try exact Hr; apply filter_In; auto.
    + intros e. exec_in E; unfold written; simpl; try tauto;
        intros He; apply filter_In in He; tauto.
    + intros r. exec_in E; unfold written; simpl; try tauto;
        intros Hr; apply filter_In in Hr; tauto.
    + intros _ Hf.
      assert (Hup : next_fault w = Up) by (unfold next_fault; rewrite Hf; reflexivity).
      run_in E. rewrite execute_commit, Hup in E. run_in E.
      rewrite execute_commit in E. unfold next_fault in E. simpl in E.
      rewrite Hf in E. simpl in E. inversion E; subst; clear E.
      refine (conj eq_refl (conj _ (conj _ _))).
      * unfold event_row, written. simpl. apply find_removed.
      * unfold registration_count, written. simpl.
        rewrite (none_left (fun r => r_event_id r =? event_id)). reflexivity.
      * intros u name. apply register_not_found.
        -- unfold event_row, written. simpl. apply find_removed.
        -- unfold next_fault. simpl. rewrite Hf. simpl. discriminate.
  - destruct (admin_turned_away s (Admin.delete_event event_id) w Ha)
      as (Hr & Hdb & Hi & _).
    fold out in Hr, Hdb, Hi. rewrite Hdb.
    refine (conj _ (conj _ (conj _ (conj _ (conj _ _))))); auto. discriminate.
Qed.

Lemma apply_not_found (u id : Z) (name : option string)
      (form : Opportunities.application_form) (w : world) :
  let s := mkSession (Some u) name in
  let out := login_required s (Opportunities.apply s form id) w in
  find (fun o => o_id o =? id) (opportunities (db w)) = None -> next_fault w <> Crash ->
  fst out = Ret (RedirectTo "opportunities.list_opportunities" None)
  /\ db (snd out) = db w
  /\ resumes (snd out) = resumes w
  /\ flashes (snd out) = (flashes w ++ [("Opportunity not found.", "danger")])%list.
Proof.
  intros s out Hnone Hc. destruct out as [r w'] eqn:E. subst out s.
  unfold login_required, Opportunities.apply in E. run_in E.
  rewrite execute_fetch_one in E. fetch_cases_in E; run_in E.
  - contradiction.
  - inversion E; subst; simpl. auto.
  - unfold rows_of in H. simpl in H. apply filter_head_find in H. congruence.
Qed.

(** X19.  [delete_job] is for admins only: anybody else is turned away
    before any statement is sent.  For an admin it deletes nothing but the
    opportunity with that id and the applications to it, whatever the driver
    does, and it never touches the stored resume files, those of the deleted
    applications included; with a working driver the opportunity and its
    applications are gone, and a later [apply] for that id is answered
    "Opportunity not found." *)
Theorem delete_job_guarded :
  forall (s : Admin.admin_session) (job_id : Z) (w : world),
    let out := Admin.admin_required s (Admin.delete_job job_id) w in
    (is_admin s = false ->
     fst out = Ret (turned_away s) /\ db (snd out) = db w /\ issued (snd out) = issued w)
    /\ resumes (snd out) = resumes w
    /\ (forall o, In o (opportunities (db w)) -> o_id o <> job_id ->
                  In o (opportunities (db (snd out))))
    /\ (forall a, In a (applications (db w)) -> a_opportunity_id a <> job_id ->
                  In a (applications (db (snd out))))
    /\ (forall o, In o (opportunities (db (snd out))) -> In o (opportunities (db w)))
    /\ (forall a, In a (applications (db (snd out))) -> In a (applications (db w)))
    /\ (is_admin s = true -> faults w = [] ->
        fst out = Ret (Admin.Served (RedirectTo "admin.list_jobs" None))
        /\ (forall o, In o (opportunities (db (snd out))) -> o_id o <> job_id)
        /\ (forall a, In a (applications (db (snd out))) -> a_opportunity_id a <> job_id)
        /\ forall (u : Z) (name : option string) (form : Opportunities.application_form),
            let s' := mkSession (Some u) name in
            let later := login_required s' (Opportunities.apply s' form job_id) (snd out) in
            fst later = Ret (RedirectTo "opportunities.list_opportunities" None)
            /\ db (snd later) = db (snd out)
            /\ resumes (snd later) = resumes w
            /\ flashes (snd later)
               = (flashes (snd out) ++ [("Opportunity not found.", "danger")])%list).
Proof.
  intros s job_id w out.
  destruct (is_admin s) eqn:Ha.
  - subst out. rewrite (admin_let_in s _ w Ha).
    destruct ((r <- Admin.delete_job job_id;; ret (Admin.Served r)) w)
      as [res w'] eqn:E.
    unfold Admin.delete_job in E. simpl.
    assert (Hne : forall x, x <> job_id -> negb (x =? job_id) = true).
    { intros x Hx. apply negb_true_iff, Z.eqb_neq. exact Hx. }
    refine (conj _ (conj _ (conj _ (conj _ (conj _ (conj _ _)))))).
    + discriminate.
    + exec_in E; reflexivity.
    + intros o Ho Hid. exec_in E; unfold written; simpl;
        try exact Ho; apply filter_In; auto.
    + intros a Hin Hid. exec_in E; unfold written; simpl;
        try exact Hin; apply filter_In; auto.
    + intros o. exec_in E; unfold written; simpl; try tauto;
        intros Ho; apply filter_In in Ho; tauto.
    + intros a. exec_in E; unfold written; simpl; try tauto;
        intros Hin; apply filter_In in Hin; tauto.
    + intros _ Hf.
      assert (Hup : next_fault w = Up) by (unfold next_fault; rewrite Hf; reflexivity).
      run_in E. rewrite execute_commit, Hup in E. run_in E.
      rewrite execute_commit in E. unfold next_fault in E. simpl in E.
      rewrite Hf in E. simpl in E. inversion E; subst; clear E.
      refine (conj eq_refl (conj _ (conj _ _))).
      * unfold written. simpl. intros o Ho. apply filter_In in Ho.
        destruct Ho as [_ Ho]. apply negb_true_iff, Z.eqb_neq in Ho. exact Ho.
      * unfold written. simpl. intros a Hin. apply filter_In in Hin.
        destruct Hin as [_ Hin]. apply negb_true_iff, Z.eqb_neq in Hin. exact Hin.
      * intros u name form.
        match goal with
        | |- context [login_required _ _ ?w1] =>
            pose proof (apply_not_found u job_id name form w1) as Hlater
        end.
        cbv zeta in Hlater. destruct Hlater as (H1 & H2 & H3 & H4).
        -- unfold written. simpl. apply find_removed.
        -- unfold next_fault. simpl. rewrite Hf. simpl. discriminate.
        -- auto.
  - destruct (admin_turned_away s (Admin.delete_job job_id) w Ha)
      as (Hr & Hdb & Hi & _).
    assert (Hres : resumes (snd out) = resumes w).
    { subst out. unfold is_admin in Ha. unfold Admin.admin_required.
      destruct (Admin.as_user_id s) as [v|]; [|reflexivity].
      destruct (Admin.as_role s) as [role|]; [rewrite Ha|]; reflexivity. }
    fold out in Hr, Hdb, Hi. rewrite Hdb.
    refine (conj _ (conj Hres (conj _ (conj _ (conj _ (conj _ _)))))); auto.
    discriminate.
Qed.

(* ------------------------------------------------------------------ *)
(** ** The connections page *)

Lemma in_join3 B (cond : connection -> user -> user -> bool)
      (f : connection -> user -> user -> B)
      (cs : list connection) (us : list user) (x : B) :
  In x (flat_map (fun c =>
          flat_map (fun u1 =>
            flat_map (fun u2 => if cond c u1 u2 then [f c u1 u2] else []) us) us) cs)
  <-> exists c u1 u2,
        In c cs /\ In u1 us /\ In u2 us /\ cond c u1 u2 = true /\ x = f c u1 u2.
Proof.
  rewrite in_flat_map. split.
  - intros (c & Hc & H). apply in_flat_map in H. destruct H as (u1 & H1 & H).
    apply in_flat_map in H. destruct H as (u2 & H2 & H).
    destruct (cond c u1 u2) eqn:E; [|destruct H].
    destruct H as [<- | []]. exists c, u1, u2. auto.
  - intros (c & u1 & u2 & Hc & H1 & H2 & E & ->).
    exists c. split; [exact Hc|]. apply in_flat_map. exists u1. split; [exact H1|].
    apply in_flat_map. exists u2. split; [exact H2|]. rewrite E. left. reflexivity.
Qed.

(** X20.  The connections page and the chat list agree: the page lists only
    accepted connections of the caller, and the partners it names are
    exactly the users [get_connected_users] offers for chatting.  With
    unique connection ids, every listed connection is one
    [remove_connection] lets the caller remove. *)
Theorem my_connections_are_the_chat_partners :
  forall (s : session) (u : Z) (w : world),
    s_user_id s = Some u -> answers (next_fault w) = true ->
    exists items partners,
      fst (ConnectionViews.my_connections s w) = Ret items
      /\ db (snd (ConnectionViews.my_connections s w)) = db w
      /\ fst (Chat.get_connected_users u w) = Ret (QRows partners)
      /\ (forall cu, In cu partners <-> exists item, In item items /\ cu = partner_of item)
      /\ (forall item,
             In item items ->
             accepted_between (db w) u (ConnectionViews.ci_other_user_id item)
             /\ (NoDup (map c_id (connections (db w))) ->
                 may_remove (db w) u (ConnectionViews.ci_connection_id item) = true)).
Proof.
  intros [v name] u w Hs Hans. simpl in Hs. subst v.
  unfold ConnectionViews.my_connections, Chat.get_connected_users.
  rewrite bind_run. unfold session_user_id. cbn [s_user_id].
  rewrite bind_run, !execute_fetch_all.
  destruct (fetched_all_cases (ConnectionViews.select_my_connections u) w)
    as [[_ F] | [[_ F] | [-> _]]]; [rewrite F in Hans; discriminate ..|].
  destruct (fetched_all_cases (Chat.select_connected_users u) w)
    as [[_ F] | [[_ F] | [-> _]]]; [rewrite F in Hans; discriminate ..|].
  eexists. eexists. split; [reflexivity|]. split; [reflexivity|].
  split; [reflexivity|].
  cbn [rows_or_nil]. unfold rows_of. cbn [sql_run fst
    ConnectionViews.select_my_connections Chat.select_connected_users select_rows].
  split.
  - intros cu. rewrite In_order_by, in_join3. split.
    + intros (c & u1 & u2 & Hc & H1 & H2 & E & ->).
      eexists. split.
      * apply In_order_by. apply in_join3. exists c, u1, u2. eauto.
      * destruct (c_sender_id c =? u); reflexivity.
    + intros (item & Hitem & ->). apply In_order_by, in_join3 in Hitem.
      destruct Hitem as (c & u1 & u2 & Hc & H1 & H2 & E & ->).
      exists c, u1, u2. repeat (split; [assumption|]).
      destruct (c_sender_id c =? u); reflexivity.
  - intros item Hitem. apply In_order_by, in_join3 in Hitem.
    destruct Hitem as (c & u1 & u2 & Hc & H1 & H2 & E & ->).
    apply andb_true_iff in E. destruct E as [E Hinv].
    apply andb_true_iff in E. destruct E as [_ Hst]. apply String.eqb_eq in Hst.
    split.
    + exists c. split; [exact Hc|]. split; [exact Hst|].
      destruct (c_sender_id c =? u) eqn:Es; cbn [ConnectionViews.ci_other_user_id].
      * apply Z.eqb_eq in Es. auto.
      * simpl in Hinv. apply Z.eqb_eq in Hinv. auto.
    + intros Hnd. unfold may_remove.
      assert (Hid : ConnectionViews.ci_connection_id
                      (if c_sender_id c =? u
                       then ConnectionViews.mkConnectionItem (c_id c) (c_created_at c)
                              (c_receiver_id c) (u_full_name u2) (u_profile_pic u2)
                       else ConnectionViews.mkConnectionItem (c_id c) (c_created_at c)
                              (c_sender_id c) (u_full_name u1) (u_profile_pic u1))
                    = c_id c).
      { destruct (c_sender_id c =? u); reflexivity. }
      rewrite Hid, (request_row_of (db w) c Hnd Hc). exact Hinv.
Qed.

(* ------------------------------------------------------------------ *)
(** ** Withdrawing and the resume file *)

Lemma not_in_removed (name : string) (l : list string) :
  ~ In name (filter (fun f => negb (f =? name)%string) l).
Proof.
  intros H. apply filter_In in H. destruct H as [_ H].
  rewrite String.eqb_refl in H. discriminate.
Qed.

(** X21.  [withdraw_application] removes the resume file before it deletes
    the row.  For a pending application of the caller, once the lookup is
    answered, the file is gone from the folder and no other file is touched,
    whatever the DELETE then does: the row is deleted when the driver
    commits, and stays, without its file, when it does not; "Application
    withdrawn." is flashed in both cases. *)
Theorem withdraw_removes_the_resume_first :
  forall (u application_id : Z) (name : option string) (w : world) (app : application),
    let s := mkSession (Some u) name in
    let out := login_required s (Opportunities.withdraw_application s application_id) w in
    own_application (db w) u application_id = Some app ->
    a_status app = "pending" ->
    answers (next_fault w) = true ->
    resumes (snd out)
    = (if is_empty (a_resume_file app) then resumes w
       else filter (fun f => negb (f =? a_resume_file app)%string) (resumes w))
    /\ (a_resume_file app <> EmptyString -> ~ In (a_resume_file app) (resumes (snd out)))
    /\ (fault_at 1 w = Up ->
        applications (db (snd out)) = without_own u application_id (applications (db w)))
    /\ (fault_at 1 w <> Up -> applications (db (snd out)) = applications (db w))
    /\ (fault_at 1 w <> Crash ->
        fst out = Ret (RedirectTo "opportunities.my_applications" None)
        /\ flashes (snd out) = (flashes w ++ [("Application withdrawn.", "info")])%list).
Proof.
  intros u application_id name w app s out Hown Hst Hans.
  destruct out as [r w'] eqn:E. subst out s.
  unfold login_required, Opportunities.withdraw_application in E.
  unfold own_application in Hown.
  apply find_filter_head in Hown. destruct Hown as [rest Hrows].
  run_in E. rewrite execute_fetch_one in E.
  rewrite (@answered_row _ (Opportunities.select_own application_id u) w app rest) in E;
    [| exact Hans | exact Hrows].
  run_in E. rewrite Hst in E. run_in E.
  destruct (a_resume_file app) as [|c file] eqn:Efile; run_in E;
    rewrite execute_commit in E;
    match type of E with
    | context [next_fault ?w1] =>
        replace (next_fault w1) with (fault_at 1 w) in E
          by (unfold next_fault, fault_at; simpl;
              destruct (faults w) as [|f0 [|f1 fs]]; reflexivity)
    end;
    destruct (fault_at 1 w) eqn:E1; run_in E; inversion E; subst; clear E; simpl;
    (refine (conj eq_refl (conj _ (conj _ (conj _ _))));
     [ intros Hne; try (exfalso; apply Hne; reflexivity);
       apply (not_in_removed (String c file))
     | intros Hup; try discriminate; reflexivity
     | intros Hup; try (exfalso; apply Hup; reflexivity); reflexivity
     | intros Hc; try (exfalso; apply Hc; reflexivity); auto ]).
Qed.

Lemma saved_in (name : string) (l : list string) :
  In name (if existsb (String.eqb name) l then l else (l ++ [name])%list).
Proof.
  destruct (existsb (String.eqb name) l) eqn:E.
  - apply existsb_exists in E. destruct E as (x & Hx & E).
    apply String.eqb_eq in E. subst x. exact Hx.
  - apply in_or_app. right. left. reflexivity.
Qed.

Lemma removed_after_saved (name f : string) (l : list string) :
  In f (filter (fun f0 => negb (f0 =? name)%string)
               (if existsb (String.eqb name) l then l else (l ++ [name])%list)) ->
  In f l.
Proof.
  intros H. apply filter_In in H. destruct H as [H Hne].
  destruct (existsb (String.eqb name) l); [exact H|].
  apply in_app_or in H. destruct H as [H | [<- | []]]; [exact H|].
  rewrite String.eqb_refl in Hne. discriminate.
Qed.

(** X22.  [apply] keeps a resume file exactly with the row it stores: the
    file of every application it adds is in the folder afterwards, and a
    request that ends without adding one (refused, invalid form, or the
    INSERT failed) leaves no new file behind. *)
Theorem apply_keeps_the_resume_with_the_row :
  forall (u id : Z) (name : option string) (form : Opportunities.application_form)
         (w : world),
    let s := mkSession (Some u) name in
    let out := login_required s (Opportunities.apply s form id) w in
    (forall a, In a (applications (db (snd out))) -> ~ In a (applications (db w)) ->
               In (a_resume_file a) (resumes (snd out)))
    /\ (fst out <> Raise -> applications (db (snd out)) = applications (db w) ->
        forall f, In f (resumes (snd out)) -> In f (resumes w)).
Proof.
  intros u id name form w s out. destruct out as [r w'] eqn:E. subst out s.
  unfold login_required, Opportunities.apply in E.
  exec_in E; frame_notified.
  all: split;
    [ intros a Hin Hnot; try contradiction
    | intros Hr Happ f Hf; try (exfalso; apply Hr; reflexivity); try exact Hf;
      try (apply removed_after_saved in Hf; exact Hf) ].
  - match goal with
    | Happs : applications (db _) = (_ ++ [_])%list, Hres : resumes _ = _ |- _ =>
        rewrite Happs in Hin; rewrite Hres;
        apply in_app_or in Hin; destruct Hin as [Hin | [<- | []]];
        [contradiction | apply saved_in]
    end.
  - match goal with
    | Happs : applications (db _) = (_ ++ [_])%list |- _ =>
        rewrite Happs in Happ;
        apply (f_equal (@List.length application)) in Happ;
        rewrite length_app in Happ; simpl in Happ; lia
    end.
Qed.

(* ------------------------------------------------------------------ *)
(** ** The dashboard badges and the pages behind them *)

Lemma length_flat_map_unit A B (g : A -> list B) (p : A -> bool) (l : list A) :
  (forall x, In x l -> List.length (g x) = if p x then 1%nat else 0%nat) ->
  List.length (flat_map g l) = List.length (filter p l).
Proof.
  induction l as [|x l IH]; intros H; simpl; [reflexivity|].
  rewrite length_app, (H x (or_introl eq_refl)), IH by (intros y Hy; apply H; right; exact Hy).
  destruct (p x); reflexivity.
Qed.

Lemma length_flat_map_cond A B (cond : A -> bool) (f : A -> B) (l : list A) :
  List.length (flat_map (fun x => if cond x then [f x] else []) l)
  = List.length (filter cond l).
Proof.
  apply length_flat_map_unit. intros x _. destruct (cond x); reflexivity.
Qed.

Lemma filter_and_const A (p : A -> bool) (k : bool) (l : list A) :
  List.length (filter (fun x => p x && k) l)
  = if k then List.length (filter p l) else 0%nat.
Proof.
  destruct k.
  - f_equal. apply filter_ext. intros x. apply andb_true_r.
  - induction l as [|x l IH]; simpl; [reflexivity|]. rewrite andb_false_r. exact IH.
Qed.

Lemma incoming_count (u : Z) (w : world) :
  keyed_users (db w) ->
  List.length (rows_of (ConnectionViews.select_incoming u) w)
  = List.length (filter (fun c => (c_receiver_id c =? u) && (c_status c =? "pending")%string)
                        (connections (db w))).
Proof.
  intros Hk. unfold rows_of. cbn [sql_run fst ConnectionViews.select_incoming select_rows].
  rewrite length_order_by. apply length_flat_map_unit. intros c Hc.
  destruct (Hk c Hc) as [Hs _].
  rewrite (length_flat_map_cond
             (fun u0 => (c_sender_id c =? u_id u0) && (c_receiver_id c =? u)
                        && (c_status c =? "pending")%string)).
  rewrite (filter_ext _ (fun u0 => (c_sender_id c =? u_id u0)
                                   && ((c_receiver_id c =? u)
                                       && (c_status c =? "pending")%string)))
    by (intros u0; rewrite andb_assoc; reflexivity).
  rewrite filter_and_const, Hs. reflexivity.
Qed.

Lemma my_connections_count (u : Z) (w : world) :
  keyed_users (db w) ->
  List.length (rows_of (ConnectionViews.select_my_connections u) w)
  = List.length (filter (fun c => (c_status c =? "accepted")%string
                                  && ((c_sender_id c =? u) || (c_receiver_id c =? u)))
                        (connections (db w))).
Proof.
  intros Hk. unfold rows_of.
  cbn [sql_run fst ConnectionViews.select_my_connections select_rows].
  rewrite length_order_by. apply length_flat_map_unit. intros c Hc.
  destruct (Hk c Hc) as [Hs Hr].
  set (k := (c_status c =? "accepted")%string
            && ((c_sender_id c =? u) || (c_receiver_id c =? u))).
  rewrite (length_flat_map_unit _ (fun u1 => (c_sender_id c =? u_id u1) && k)).
  - rewrite filter_and_const, Hs. reflexivity.
  - intros u1 _.
    rewrite (length_flat_map_cond
               (fun u2 => (c_sender_id c =? u_id u1) && (c_receiver_id c =? u_id u2)
                          && (c_status c =? "accepted")%string
                          && ((c_sender_id c =? u) || (c_receiver_id c =? u)))).
    rewrite (filter_ext _ (fun u2 => (c_receiver_id c =? u_id u2)
                                     && ((c_sender_id c =? u_id u1) && k)))
      by (intros u2; subst k;
          destruct (c_sender_id c =? u_id u1), (c_receiver_id c =? u_id u2),
            (c_status c =? "accepted")%string; reflexivity).
    rewrite filter_and_const, Hr. reflexivity.
Qed.

(** X23.  The dashboard badges agree with the pages behind them.  With a
    working driver the notification badge of the dashboard is the number
    the navbar shows; and when every sender and receiver of a connection is
    exactly one row of the users table, the pending-requests badge is the
    number of rows on the requests page and the connections badge the number
    of rows on the connections page. *)
Theorem dashboard_badges_agree_with_pages :
  forall (s : session) (u : Z) (w : world),
    s_user_id s = Some u -> faults w = [] ->
    exists b page items,
      fst (Dashboard.index_badges s w) = Ret b
      /\ fst (ConnectionViews.incoming_requests s w) = Ret page
      /\ fst (ConnectionViews.my_connections s w) = Ret items
      /\ fst (NotificationRoutes.inject_notification_count s w) = Ret (b_unread_notifs b)
      /\ (keyed_users (db w) ->
          b_pending_requests b = Z.of_nat (List.length (ConnectionViews.rp_requests page))
          /\ b_total_connections b = Z.of_nat (List.length items)).
Proof.
  intros [v name] u w Hs Hf. simpl in Hs. subst v.
  unfold Dashboard.index_badges, ConnectionViews.incoming_requests,
    ConnectionViews.my_connections, NotificationRoutes.inject_notification_count,
    NotificationUtils.get_unread_count.
  cbn [s_user_id]. rewrite !bind_run. unfold session_user_id. cbn [s_user_id].
  repeat (rewrite bind_run, execute_fetch_one, quiet_fetch
            by (simpl; rewrite ?Hf; reflexivity);
          simpl).
  rewrite !bind_run, !(quiet_all _ _ _ Hf).
  rewrite bind_run, (quiet_one _ _ _ _ (advance_quiet _ _ Hf)).
  eexists. eexists. eexists.
  split; [reflexivity|]. split; [reflexivity|]. split; [reflexivity|].
  split; [reflexivity|].
  intros Hk. cbn [b_pending_requests b_total_connections ConnectionViews.rp_requests
                  rows_or_nil count_or_zero].
  rewrite (incoming_count u w Hk), (my_connections_count u w Hk). split; reflexivity.
Qed.

(* ------------------------------------------------------------------ *)
(** ** The opportunity page and [apply] *)





(* ------------------------------------------------------------------ *)
(** ** A notification from creation to read *)

Lemma mark_as_read_quiet (u notification_id : Z) (name referrer : option string)
      (w : world) :
  let s := mkSession (Some u) name in
  let out := login_required s (NotificationRoutes.mark_as_read s referrer notification_id) w in
  faults w = [] ->
  faults (snd out) = []
  /\ notifications (db (snd out))
     = map (fun n => if (n_id n =? notification_id) && (n_user_id n =? u)
                     then NotificationUtils.read_row n else n)
           (notifications (db w)).
Proof.
  intros s out Hf. subst out s.
  unfold login_required, NotificationRoutes.mark_as_read. cbn [s_user_id].
  rewrite bind_run. unfold session_user_id. cbn [s_user_id].
  rewrite bind_run, execute_commit. unfold next_fault. rewrite Hf. simpl.
  rewrite Hf. split; reflexivity.
Qed.

Lemma map_untouched A (c : A -> bool) (f : A -> A) (l : list A) :
  (forall x, In x l -> c x = false) ->
  map (fun x => if c x then f x else x) l = l.
Proof.
  induction l as [|x l IH]; intros H; simpl; [reflexivity|].
  rewrite (H x (or_introl eq_refl)), IH by (intros y Hy; apply H; right; exact Hy).
  reflexivity.
Qed.

(** X25.  A notification from creation to read.  With a working driver and
    an id sequence ahead of the ids in use, [create_notification] returns
    the id of the new row and raises the unread count of its user by one;
    [mark_as_read] with that id by that user brings the count back to what
    it was, by the same route; the same request by anybody else changes no
    notification. *)
Theorem notification_round_trip :
  forall (u v : Z) (name name' referrer : option string)
         (message notification_type : string) (w : world),
    let s := mkSession (Some u) name in
    let s' := mkSession (Some v) name' in
    let id := notifications_seq (db w) in
    let created := Notifications.create_notification u message notification_type w in
    let w1 := snd created in
    let w2 := snd (login_required s (NotificationRoutes.mark_as_read s referrer id) w1) in
    let w2' := snd (login_required s' (NotificationRoutes.mark_as_read s' referrer id) w1) in
    faults w = [] ->
    (forall n, In n (notifications (db w)) -> n_id n <> id) ->
    fst created = Ret (QInt id)
    /\ fst (NotificationUtils.get_unread_count u w1)
       = Ret (Z.of_nat (List.length (unread_of u (db w))) + 1)
    /\ fst (NotificationUtils.get_unread_count u w2)
       = Ret (Z.of_nat (List.length (unread_of u (db w))))
    /\ (v <> u -> notifications (db w2') = notifications (db w1)).
Proof.
  intros u v name name' referrer message notification_type w s s' id created w1 w2 w2'
         Hf Hfresh.
  destruct (create_notification_quiet u message notification_type w Hf)
    as (wc & Ec & Hfc & Hnc).
  assert (Hw1 : w1 = wc) by (subst w1 created; rewrite Ec; reflexivity).
  assert (Hold : forall k, (forall n, In n (notifications (db w)) ->
                              (n_id n =? id) && k n = false)).
  { intros k n Hn. apply Hfresh in Hn. apply Z.eqb_neq in Hn. rewrite Hn. reflexivity. }
  refine (conj _ (conj _ (conj _ _))).
  - subst created. rewrite Ec. reflexivity.
  - rewrite Hw1, unread_count_answered
      by (unfold next_fault; rewrite Hfc; reflexivity).
    unfold unread_of. rewrite Hnc, filter_app, length_app. simpl.
    rewrite Z.eqb_refl. simpl. rewrite Nat2Z.inj_add. reflexivity.
  - destruct (mark_as_read_quiet u id name referrer wc Hfc) as [Hf2 Hn2].
    subst w2 s. rewrite Hw1.
    rewrite unread_count_answered by (unfold next_fault; rewrite Hf2; reflexivity).
    unfold unread_of. rewrite Hn2, Hnc, map_app, filter_app, length_app.
    rewrite (map_untouched _ _ (notifications (db w)))
      by (intros n Hn; apply (Hold (fun n => n_user_id n =? u) n Hn)).
    simpl. fold id. rewrite !Z.eqb_refl. simpl.
    rewrite Nat.add_0_r. reflexivity.
  - intros Hv.
    destruct (mark_as_read_quiet v id name' referrer wc Hfc) as [_ Hn2].
    subst w2' s'. rewrite Hw1, Hn2. apply map_untouched.
    intros n Hn. rewrite Hnc in Hn. apply in_app_or in Hn.
    destruct Hn as [Hn | [<- | []]].
    + apply (Hold (fun n => n_user_id n =? v) n Hn).
    + simpl. apply Z.eqb_neq in Hv. rewrite Z.eqb_sym in Hv. rewrite Hv.
      apply andb_false_r.
Qed.

(* ================================================================== *)
(** * The further properties at concrete inputs *)

(** Asha registers for the launch and unregisters: no registration is left. *)
Lemma register_unregister_round_trip_witness :
  event_registrations
    (db (snd (login_required asha (Events.unregister asha 1)
                (set_clock 20
                   (snd (login_required asha (Events.register asha 1)
                           (boot zero_limit_db)))))))
  = [].
Proof.
  destruct (@register_unregister_round_trip 7 1 20 (Some "Asha") (boot zero_limit_db)
              (mkEvent 1 "Launch" (Some 0)) eq_refl eq_refl
              (or_introl (or_intror eq_refl)) eq_refl)
    as (_ & _ & H).
  exact H.
Defined.

(** Users 1 and 2 become connected when user 2 accepts request 1. *)
Lemma connected_only_by_acceptance_witness :
  exists u connection_id row,
    s_user_id mina = Some u
    /\ RespondRequest 1 "accept" = RespondRequest connection_id "accept"
    /\ request_row (db (boot pending_db)) connection_id = Some row
    /\ c_receiver_id row = u
    /\ c_status row = "pending"
    /\ (NoDup (map c_id (connections (db (boot pending_db)))) ->
        between 1 2 (c_sender_id row) (c_receiver_id row) = true).
Proof.
  exact (@connected_only_by_acceptance mina (RespondRequest 1 "accept") (boot pending_db)
           1 2 eq_refl eq_refl).
Defined.

(** The chat list of user 1 has one entry, for the connected user 2. *)
Lemma chat_list_shows_connections_witness :
  Forall (fun e => accepted_between (db (boot inbox_db)) 1 (ce_user_id e))
         [mkEntry 2 "Mina" None (Some (mkPreview "hi" 5 2)) 1]
  /\ db (snd (login_required ravi (Chat.chat_list ravi) (boot inbox_db))) = inbox_db.
Proof.
  exact (@chat_list_shows_connections 1 (Some "Ravi") (boot inbox_db)
           [mkEntry 2 "Mina" None (Some (mkPreview "hi" 5 2)) 1] eq_refl).
Defined.

(** The conversation of user 1 with user 2 shows the stored message. *)
Lemma conversation_shows_only_the_pair_witness :
  accepted_between (db (boot inbox_db)) 1 2
  /\ Forall (shown_between (db (boot inbox_db)) 1 2) [mkView 1 2 1 "hi" 5 "Mina" None].
Proof.
  destruct (@conversation_shows_only_the_pair 1 2 (Some "Ravi") (boot inbox_db)
              (mkUser 2 "Mina" None) [mkView 1 2 1 "hi" 5 "Mina" None] 1 eq_refl)
    as (_ & _ & _ & Hacc & Hshown).
  exact (conj Hacc Hshown).
Defined.


(** Ravi's page lists his two notifications, newest first; one is unread,
    as on the badge. *)
Lemma list_notifications_agrees_with_badge_witness :
  exists page,
    fst (NotificationRoutes.list_notifications ravi (boot notices_db)) = Ret page
    /\ NotificationRoutes.nl_total_count page
       = Z.of_nat (List.length (NotificationRoutes.nl_notifications page))
    /\ fst (NotificationRoutes.inject_notification_count ravi (boot notices_db))
       = Ret (NotificationRoutes.nl_unread_count page).
Proof.
  destruct (@list_notifications_agrees_with_badge ravi 1 (boot notices_db)
              eq_refl eq_refl)
    as (page & Hpage & _ & _ & _ & Htotal & Hbadge).
  exists page. exact (conj Hpage (conj Htotal Hbadge)).
Defined.

(** After [clear_all], Ravi's page is empty. *)
Lemma deleted_notifications_are_not_listed_witness :
  fst (NotificationRoutes.list_notifications ravi
         (snd (login_required ravi (NotificationRoutes.clear_all ravi) (boot notices_db))))
  = Ret (NotificationRoutes.mkList [] 0 0).
Proof.
  destruct (@deleted_notifications_are_not_listed ravi 1 1 None (boot notices_db)
              eq_refl eq_refl eq_refl)
    as [_ Hcleared].
  exact Hcleared.
Defined.

(** Mina's requests page lists Ravi's request, which she may accept. *)
Lemma incoming_requests_can_be_answered_witness :
  exists page,
    fst (ConnectionViews.incoming_requests mina (boot pending_db)) = Ret page
    /\ forall item,
         In item (ConnectionViews.rp_requests page) ->
         may_respond pending_db 2 (ConnectionViews.rq_id item) "accept" = true.
Proof.
  destruct (@incoming_requests_can_be_answered mina 2 (boot pending_db)
              eq_refl eq_refl eq_refl)
    as (page & Hpage & _ & _ & Hmay & _).
  exists page. split; [exact Hpage|].
  intros item Hitem.
  assert (Hnd : NoDup (map c_id (connections (db (boot pending_db))))).
  { simpl. constructor; [intros [] | constructor]. }
  exact (proj1 (Hmay Hnd item Hitem)).
Defined.


(** Ravi's connections page and his chat list both name Mina. *)
Lemma my_connections_are_the_chat_partners_witness :
  exists items partners,
    fst (ConnectionViews.my_connections ravi (boot chat_db)) = Ret items
    /\ fst (Chat.get_connected_users 1 (boot chat_db)) = Ret (QRows partners)
    /\ forall cu, In cu partners <-> exists item, In item items /\ cu = partner_of item.
Proof.
  destruct (@my_connections_are_the_chat_partners ravi 1 (boot chat_db) eq_refl eq_refl)
    as (items & partners & Hitems & _ & Hpartners & Hsame & _).
  exists items, partners. exact (conj Hitems (conj Hpartners Hsame)).
Defined.

(** The DELETE fails at commit: the resume file is gone, the application is
    still there. *)
Lemma withdraw_removes_the_resume_first_witness :
  resumes (snd (login_required asha (Opportunities.withdraw_application asha 1)
                  (mkWorld applied_db [Up; CommitError] [] [] ["app_7_4_0.pdf"] 0)))
  = []
  /\ applications
       (db (snd (login_required asha (Opportunities.withdraw_application asha 1)
                   (mkWorld applied_db [Up; CommitError] [] [] ["app_7_4_0.pdf"] 0))))
     = [mkApplication 1 7 4 "app_7_4_0.pdf" "pending" 0].
Proof.
  destruct (@withdraw_removes_the_resume_first 7 1 (Some "Asha")
              (mkWorld applied_db [Up; CommitError] [] [] ["app_7_4_0.pdf"] 0)
              (mkApplication 1 7 4 "app_7_4_0.pdf" "pending" 0)
              eq_refl eq_refl eq_refl)
    as (Hres & _ & _ & Hstays & _).
  split; [exact Hres|]. apply Hstays. discriminate.
Defined.

(** Ravi's dashboard: no pending request and one connection, as on the
    pages. *)
Lemma dashboard_badges_agree_with_pages_witness :
  exists b page items,
    fst (Dashboard.index_badges ravi (boot chat_db)) = Ret b
    /\ fst (ConnectionViews.incoming_requests ravi (boot chat_db)) = Ret page
    /\ fst (ConnectionViews.my_connections ravi (boot chat_db)) = Ret items
    /\ b_pending_requests b = Z.of_nat (List.length (ConnectionViews.rp_requests page))
    /\ b_total_connections b = Z.of_nat (List.length items).
Proof.
  destruct (@dashboard_badges_agree_with_pages ravi 1 (boot chat_db) eq_refl eq_refl)
    as (b & page & items & Hb & Hpage & Hitems & _ & Hkeyed).
  exists b, page, items.
  assert (Hk : keyed_users (db (boot chat_db))).
  { intros c [<- | []]. split; reflexivity. }
  exact (conj Hb (conj Hpage (conj Hitems (Hkeyed Hk)))).
Defined.


(** A notification for Ravi raises his unread count from 1 to 2; marking it
    read brings it back to 1; Mina cannot mark it. *)
Lemma notification_round_trip_witness :
  fst (Notifications.create_notification 1 "hello" "general" (boot notices_db))
  = Ret (QInt 4)
  /\ fst (NotificationUtils.get_unread_count 1
            (snd (Notifications.create_notification 1 "hello" "general" (boot notices_db))))
     = Ret 2
  /\ fst (NotificationUtils.get_unread_count 1
            (snd (login_required ravi (NotificationRoutes.mark_as_read ravi None 4)
                    (snd (Notifications.create_notification 1 "hello" "general"
                            (boot notices_db))))))
     = Ret 1.
Proof.
  assert (Hfresh : forall n, In n (notifications (db (boot notices_db))) -> n_id n <> 4).
  { intros n [<- | [<- | [<- | []]]]; discriminate. }
  destruct (@notification_round_trip 1 2 (Some "Ravi") (Some "Mina") None
              "hello" "general" (boot notices_db) eq_refl Hfresh)
    as (Hid & Hup & Hdown & _).
  exact (conj Hid (conj Hup Hdown)).
Defined.
